(** * restful-booker: failure-report enhancer and HTML renderer

    A shallow embedding of [scripts/enhance-failure-report.py] and
    [scripts/generate-html-summary.py], followed by the properties of the
    pattern classifier, the insight generator, the retry advisor and the
    renderer.

    Modelling conventions.
    - A JSON object is a record; a key read with [dict.get] is optional.
      On the optional keys of a failure record the source tests truthiness
      ([x or ''], [if x], [not x]), so those keys carry a three-valued
      [field]: absent, JSON null, or a value.  Keys read elsewhere are an
      [option]: absent or a value of their schema type.  A key read with
      [d[k]] raises [KeyError] when absent.
    - A Python dict built by the code is an association list in insertion
      order.
    - Text is a [string] of bytes; [lower] and [title] act on the ASCII
      letters, so the model is exact for ASCII error text.
    - A Python float is a binary64 value, kept as an integer number of
      units of 2^-1074 (module [F64]); every operation rounds the exact
      result to nearest, ties to even, as IEEE 754 does.
    - The wall clock and the file system are explicit inputs. *)

From Stdlib Require Import ZArith String Ascii List Bool Lia DecimalString.
Import ListNotations.
Open Scope string_scope.
Open Scope Z_scope.

(** ** Python exceptions and the error monad *)

Inductive exn : Type :=
| KeyError (key : string)
| TypeError
| OverflowError
| ZeroDivisionError.

Inductive result (A : Type) : Type :=
| Ok (a : A)
| Raise (e : exn).
Arguments Ok {A} a.
Arguments Raise {A} e.

Definition bind {A B : Type} (m : result A) (k : A -> result B) : result B :=
  match m with
  | Ok a => k a
  | Raise e => Raise e
  end.

Notation "x <- m ;; k" := (bind m (fun x => k))
  (at level 61, m at next level, right associativity).

(** [d[k]] on a key that may be missing. *)
Definition index {A : Type} (key : string) (o : option A) : result A :=
  match o with
  | Some a => Ok a
  | None => Raise (KeyError key)
  end.

(** A loop whose body may raise, threading the loop state. *)
Fixpoint for_each {A S : Type} (body : S -> A -> result S) (l : list A) (s : S)
  : result S :=
  match l with
  | [] => Ok s
  | x :: l' => s' <- body s x ;; for_each body l' s'
  end.

(** ** Optional keys *)

Inductive field (A : Type) : Type :=
| Absent
| Null
| Val (a : A).
Arguments Absent {A}.
Arguments Null {A}.
Arguments Val {A} a.

(** [d.get(k, default)]: a Python value, [None] standing for Python's None. *)
Definition get_default {A : Type} (f : field A) (d : A) : option A :=
  match f with
  | Absent => Some d
  | Null => None
  | Val a => Some a
  end.

(** [d.get(k)]. *)
Definition get {A : Type} (f : field A) : option A :=
  match f with
  | Val a => Some a
  | _ => None
  end.

(** [d.get(k) or ''] on a string-valued key. *)
Definition get_or_empty (f : field string) : string :=
  match f with
  | Val s => s
  | _ => ""
  end.

(** Truthiness of [d.get(k)] for a string and for a list. *)
Definition truthy_str (f : field string) : bool :=
  match f with
  | Val (String _ _) => true
  | _ => false
  end.

Definition truthy_list {A : Type} (f : field (list A)) : bool :=
  match f with
  | Val (_ :: _) => true
  | _ => false
  end.

Definition from_option {A : Type} (o : option A) (d : A) : A :=
  match o with
  | Some a => a
  | None => d
  end.

(** ** Strings *)

Definition dq : string := String (ascii_of_nat 34) EmptyString.
Definition nl : string := String (ascii_of_nat 10) EmptyString.

Definition is_upper (c : ascii) : bool :=
  let n := nat_of_ascii c in (65 <=? n)%nat && (n <=? 90)%nat.

Definition is_lower (c : ascii) : bool :=
  let n := nat_of_ascii c in (97 <=? n)%nat && (n <=? 122)%nat.

Definition lower_char (c : ascii) : ascii :=
  if is_upper c then ascii_of_nat (nat_of_ascii c + 32) else c.

Definition upper_char (c : ascii) : ascii :=
  if is_lower c then ascii_of_nat (nat_of_ascii c - 32) else c.

(** [s.lower()] *)
Fixpoint lower (s : string) : string :=
  match s with
  | EmptyString => EmptyString
  | String c s' => String (lower_char c) (lower s')
  end.

(** [needle in hay] *)
Fixpoint contains (needle hay : string) : bool :=
  String.prefix needle hay ||
  match hay with
  | EmptyString => false
  | String _ hay' => contains needle hay'
  end.

(** [sep.join(l)] *)
Fixpoint join (sep : string) (l : list string) : string :=
  match l with
  | [] => ""
  | [x] => x
  | x :: l' => x ++ sep ++ join sep l'
  end.

(** [''.join(l)] *)
Definition concat_all (l : list string) : string := join "" l.

(** [str(n)] for an int. *)
Definition str_of_int (n : Z) : string := NilZero.string_of_int (Z.to_int n).

(** [s.replace(old, new)] for one-character [old] and [new]. *)
Fixpoint replace_char (old new : ascii) (s : string) : string :=
  match s with
  | EmptyString => EmptyString
  | String c s' =>
      String (if Ascii.eqb c old then new else c) (replace_char old new s')
  end.

(** [s.title()]: a letter is upper-cased when it follows a character that is
    not a letter and lower-cased otherwise. *)
Fixpoint title_from (prev_cased : bool) (s : string) : string :=
  match s with
  | EmptyString => EmptyString
  | String c s' =>
      let cased := is_upper c || is_lower c in
      String (if prev_cased then lower_char c else upper_char c)
             (title_from cased s')
  end.

Definition title (s : string) : string := title_from false s.

(** ** Binary64 arithmetic

    A finite double is [k * 2^-1074] for an integer [k]: 2^-1074 is the
    smallest positive double, and every double is a multiple of it.  The two
    values [INF] and [- INF] stand for the infinities, so that the order of
    [Z] is the order of the floats.  No operation of the two scripts yields a
    NaN, and the sign of a zero is never observed. *)

Module F64.

Definition float : Type := Z.

(** The double 1.0, and the first magnitude beyond the finite doubles. *)
Definition one : Z := 2 ^ 1074.
Definition INF : Z := 2 ^ 2098.

(** [a / b] rounded to the nearest integer, ties to even ([0 <= a],
    [0 < b]). *)
Definition rne (a b : Z) : Z :=
  let q := a / b in
  let r := a mod b in
  if 2 * r <? b then q
  else if b <? 2 * r then q + 1
  else if Z.even q then q else q + 1.

(** [a / b] units rounded to a 53-bit significand. Below 2^53 units the
    doubles are one unit apart (subnormals and the first binade); from
    2^(52+s) to 2^(53+s) they are 2^s units apart. *)
Definition round_pos (a b : Z) : Z :=
  let s := Z.log2 (a / b) - 52 in
  if s <=? 0 then rne a b else rne a (b * 2 ^ s) * 2 ^ s.

(** Rounding of the exact quotient [a / b] units ([0 < b]); a result
    beyond the finite range becomes an infinity. *)
Definition round (a b : Z) : float :=
  let k := if 0 <=? a then round_pos a b else - round_pos (- a) b in
  Z.max (- INF) (Z.min INF k).

Definition is_inf (x : float) : bool := INF <=? Z.abs x.

(** [float(n)] for an int that a double holds exactly. *)
Definition of_int (n : Z) : float := n * one.

(** [a / b] on ints: the exact quotient, correctly rounded. *)
Definition true_div (a b : Z) : result float :=
  if b =? 0 then Raise ZeroDivisionError
  else
    let x := round (Z.sgn b * a * one) (Z.abs b) in
    if is_inf x then Raise OverflowError else Ok x.

(** [x * n] and [x / n] for a float [x] and a small positive int [n]. *)
Definition mul_int (x : float) (n : Z) : float :=
  if is_inf x then x else round (x * n) 1.

Definition div_int (x : float) (n : Z) : float :=
  if is_inf x then x else round x n.

(** [x < n] and [x > n] for a float [x] and an int [n]: Python compares
    the exact values. *)
Definition lt_int (x : float) (n : Z) : bool := x <? of_int n.
Definition gt_int (x : float) (n : Z) : bool := of_int n <? x.

(** [f'{x:.1f}'] *)
Definition fmt1 (x : float) : string :=
  if x =? INF then "inf"
  else if x =? - INF then "-inf"
  else
    let r := rne (Z.abs x * 10) one in
    (if x <? 0 then "-" else "") ++
    str_of_int (r / 10) ++ "." ++ str_of_int (r mod 10).

End F64.

(** ** The report document (spec section 3) *)

Record Step : Type := {
  step_keyword : option string;
  step_text : option string;
  step_status : option string;
  step_errorMessage : field string
}.

Record Failure : Type := {
  scenarioName : option string;
  line : option Z;
  errorType : field string;
  errorMessage : field string;
  stackTrace : field string;
  steps : field (list Step);
  tags : field (list string);
  duration : field Z
}.

Record Feature : Type := {
  featureName : option string;
  failures : option (list Failure)
}.

Record Metadata : Type := {
  buildNumber : option string;
  environment : option string;
  md_duration : field Z
}.

Record Summary : Type := {
  totalScenarios : option Z;
  passedScenarios : option Z;
  failedScenarios : option Z;
  skippedScenarios : option Z
}.

(** The fields the enhancer adds. *)

Record FailureInfo : Type := {
  fi_feature : string;
  fi_scenario : string;
  fi_line : Z;
  fi_error : option string
}.

Record Occurrence : Type := {
  oc_feature : string;
  oc_scenario : string;
  oc_message : option string
}.

Record Insight : Type := {
  type : option string;
  severity : option string;
  message : option string;
  recommendation : option string
}.

Record RetrySuggestion : Type := {
  rs_feature : string;
  rs_scenario : string;
  rs_line : Z;
  rs_tags : option (list string);
  shouldRetry : bool;
  reason : string
}.

Record Enhancement : Type := {
  enhancedAt : string;
  version : string
}.

Record Artifacts : Type := {
  screenshotsAvailable : bool;
  serenityReportPath : string;
  note : string
}.

Record Report : Type := {
  metadata : option Metadata;
  summary : option Summary;
  features : option (list Feature);
  enhancement : option Enhancement;
  failurePatterns : option (list (string * list FailureInfo));
  failurePatternSummary : option (list (string * Z));
  errorCategories : option (list (option string * list Occurrence));
  errorCategorySummary : option (list (option string * Z));
  actionableInsights : option (list Insight);
  retrySuggestions : option (list RetrySuggestion);
  serenityArtifacts : option Artifacts
}.

(** [report[key] = value] for each key the enhancer writes. *)

Definition set_enhancement (r : Report) (v : Enhancement) : Report :=
  {| metadata := metadata r; summary := summary r; features := features r;
     enhancement := Some v;
     failurePatterns := failurePatterns r;
     failurePatternSummary := failurePatternSummary r;
     errorCategories := errorCategories r;
     errorCategorySummary := errorCategorySummary r;
     actionableInsights := actionableInsights r;
     retrySuggestions := retrySuggestions r;
     serenityArtifacts := serenityArtifacts r |}.

Definition set_failurePatterns (r : Report)
  (v : list (string * list FailureInfo)) : Report :=
  {| metadata := metadata r; summary := summary r; features := features r;
     enhancement := enhancement r;
     failurePatterns := Some v;
     failurePatternSummary := failurePatternSummary r;
     errorCategories := errorCategories r;
     errorCategorySummary := errorCategorySummary r;
     actionableInsights := actionableInsights r;
     retrySuggestions := retrySuggestions r;
     serenityArtifacts := serenityArtifacts r |}.

Definition set_failurePatternSummary (r : Report) (v : list (string * Z))
  : Report :=
  {| metadata := metadata r; summary := summary r; features := features r;
     enhancement := enhancement r;
     failurePatterns := failurePatterns r;
     failurePatternSummary := Some v;
     errorCategories := errorCategories r;
     errorCategorySummary := errorCategorySummary r;
     actionableInsights := actionableInsights r;
     retrySuggestions := retrySuggestions r;
     serenityArtifacts := serenityArtifacts r |}.

Definition set_errorCategories (r : Report)
  (v : list (option string * list Occurrence)) : Report :=
  {| metadata := metadata r; summary := summary r; features := features r;
     enhancement := enhancement r;
     failurePatterns := failurePatterns r;
     failurePatternSummary := failurePatternSummary r;
     errorCategories := Some v;
     errorCategorySummary := errorCategorySummary r;
     actionableInsights := actionableInsights r;
     retrySuggestions := retrySuggestions r;
     serenityArtifacts := serenityArtifacts r |}.

Definition set_errorCategorySummary (r : Report)
  (v : list (option string * Z)) : Report :=
  {| metadata := metadata r; summary := summary r; features := features r;
     enhancement := enhancement r;
     failurePatterns := failurePatterns r;
     failurePatternSummary := failurePatternSummary r;
     errorCategories := errorCategories r;
     errorCategorySummary := Some v;
     actionableInsights := actionableInsights r;
     retrySuggestions := retrySuggestions r;
     serenityArtifacts := serenityArtifacts r |}.

Definition set_actionableInsights (r : Report) (v : list Insight) : Report :=
  {| metadata := metadata r; summary := summary r; features := features r;
     enhancement := enhancement r;
     failurePatterns := failurePatterns r;
     failurePatternSummary := failurePatternSummary r;
     errorCategories := errorCategories r;
     errorCategorySummary := errorCategorySummary r;
     actionableInsights := Some v;
     retrySuggestions := retrySuggestions r;
     serenityArtifacts := serenityArtifacts r |}.

Definition set_retrySuggestions (r : Report) (v : list RetrySuggestion)
  : Report :=
  {| metadata := metadata r; summary := summary r; features := features r;
     enhancement := enhancement r;
     failurePatterns := failurePatterns r;
     failurePatternSummary := failurePatternSummary r;
     errorCategories := errorCategories r;
     errorCategorySummary := errorCategorySummary r;
     actionableInsights := actionableInsights r;
     retrySuggestions := Some v;
     serenityArtifacts := serenityArtifacts r |}.

Definition set_serenityArtifacts (r : Report) (v : Artifacts) : Report :=
  {| metadata := metadata r; summary := summary r; features := features r;
     enhancement := enhancement r;
     failurePatterns := failurePatterns r;
     failurePatternSummary := failurePatternSummary r;
     errorCategories := errorCategories r;
     errorCategorySummary := errorCategorySummary r;
     actionableInsights := actionableInsights r;
     retrySuggestions := retrySuggestions r;
     serenityArtifacts := Some v |}.

(** ** Dicts as association lists *)

(** [d.get(key, default)] *)
Fixpoint lookup_default {V : Type} (key : string) (d : list (string * V))
  (default : V) : V :=
  match d with
  | [] => default
  | (k, v) :: d' => if String.eqb k key then v else lookup_default key d' default
  end.

(** [d[key].append(x)] on a dict of lists that holds [key]. *)
Fixpoint append_to {V : Type} (key : string) (x : V)
  (d : list (string * list V)) : list (string * list V) :=
  match d with
  | [] => []
  | (k, v) :: d' =>
      if String.eqb k key then (k, (v ++ [x])%list) :: d'
      else (k, v) :: append_to key x d'
  end.

Definition key_eqb (a b : option string) : bool :=
  match a, b with
  | Some x, Some y => String.eqb x y
  | None, None => true
  | _, _ => false
  end.

(** [d[key].append(x)] on a [defaultdict(list)]: a new key goes last. *)
Fixpoint dd_append {V : Type} (key : option string) (x : V)
  (d : list (option string * list V)) : list (option string * list V) :=
  match d with
  | [] => [(key, [x])]
  | (k, v) :: d' =>
      if key_eqb k key then (k, (v ++ [x])%list) :: d'
      else (k, v) :: dd_append key x d'
  end.

(** [{k: len(v) for k, v in d.items()}] *)
Definition count_values {K V : Type} (d : list (K * list V)) : list (K * Z) :=
  map (fun kv => (fst kv, Z.of_nat (List.length (snd kv)))) d.

Definition nonempty {V : Type} (l : list V) : bool :=
  match l with
  | [] => false
  | _ :: _ => true
  end.

(** ** The report enhancer ([enhance-failure-report.py]) *)

Module FailureReportEnhancer.

(** The constructor's arguments. *)
Record t : Type := {
  input_path : string;
  output_path : string;
  serenity_report_path : option string
}.

(** What a run reads besides the input document: the clock, as the text
    [datetime.utcnow().isoformat()] returns, and [os.path.exists]. *)
Record World : Type := {
  utcnow_isoformat : string;
  path_exists : string -> bool
}.

Definition empty_patterns : list (string * list FailureInfo) :=
  [ ("timeout_failures", []);
    ("assertion_failures", []);
    ("connection_failures", []);
    ("authentication_failures", []);
    ("data_validation_failures", []);
    ("null_pointer_failures", []);
    ("other_failures", []) ].

(** The if/elif chain of [_add_failure_patterns]: the key of the list the
    failure is appended to. *)
Definition categorize (error_msg error_type : string) : string :=
  if contains "timeout" error_msg || contains "timeout" error_type then
    "timeout_failures"
  else if contains "assertion" error_msg || contains "expected" error_msg then
    "assertion_failures"
  else if contains "connection" error_msg
          || contains "unable to connect" error_msg then
    "connection_failures"
  else if contains "auth" error_msg || contains "unauthorized" error_msg
          || contains "401" error_msg then
    "authentication_failures"
  else if contains "validation" error_msg || contains "invalid" error_msg then
    "data_validation_failures"
  else if contains "nullpointer" error_type || contains "null" error_msg then
    "null_pointer_failures"
  else
    "other_failures".

(** The key under which a failure is filed. *)
Definition category_of (failure : Failure) : string :=
  categorize (lower (get_or_empty (errorMessage failure)))
             (lower (get_or_empty (errorType failure))).

Definition failure_info (feature : Feature) (failure : Failure)
  : result FailureInfo :=
  f <- index "featureName" (featureName feature) ;;
  s <- index "scenarioName" (scenarioName failure) ;;
  l <- index "line" (line failure) ;;
  Ok {| fi_feature := f;
        fi_scenario := s;
        fi_line := l;
        fi_error := get_default (errorMessage failure) "Unknown error" |}.

(** Body of the inner loop of [_add_failure_patterns]. *)
Definition classify_failure (feature : Feature)
  (patterns : list (string * list FailureInfo)) (failure : Failure)
  : result (list (string * list FailureInfo)) :=
  let error_msg := lower (get_or_empty (errorMessage failure)) in
  let error_type := lower (get_or_empty (errorType failure)) in
  info <- failure_info feature failure ;;
  Ok (append_to (categorize error_msg error_type) info patterns).

(** The two nested loops every pass of the enhancer runs:
    [for feature in report.get('features', []):
       for failure in feature.get('failures', []):]. *)
Definition for_each_failure {S : Type}
  (body : Feature -> S -> Failure -> result S) (report : Report) (s : S)
  : result S :=
  for_each
    (fun s feature =>
       for_each (body feature) (from_option (failures feature) []) s)
    (from_option (features report) []) s.

Definition _add_failure_patterns (report : Report) : result Report :=
  patterns <- for_each_failure classify_failure report empty_patterns ;;
  let patterns := filter (fun kv => nonempty (snd kv)) patterns in
  let report := set_failurePatterns report patterns in
  Ok (set_failurePatternSummary report (count_values patterns)).

Definition occurrence (feature : Feature) (failure : Failure)
  : result Occurrence :=
  f <- index "featureName" (featureName feature) ;;
  s <- index "scenarioName" (scenarioName failure) ;;
  Ok {| oc_feature := f;
        oc_scenario := s;
        oc_message := get_default (errorMessage failure) "" |}.

Definition categorize_failure (feature : Feature)
  (error_categories : list (option string * list Occurrence))
  (failure : Failure) : result (list (option string * list Occurrence)) :=
  let error_type := get_default (errorType failure) "UnknownError" in
  o <- occurrence feature failure ;;
  Ok (dd_append error_type o error_categories).

Definition _categorize_errors (report : Report) : result Report :=
  error_categories <- for_each_failure categorize_failure report [] ;;
  let report := set_errorCategories report error_categories in
  Ok (set_errorCategorySummary report (count_values error_categories)).

Definition insight (ty sev msg rec : string) : Insight :=
  {| type := Some ty; severity := Some sev;
     message := Some msg; recommendation := Some rec |}.

Definition success_insight : Insight :=
  insight "SUCCESS" "INFO"
    "All tests passed successfully. No action required."
    "Monitor for consistency in future runs.".

(** [f'{failure_rate:.1f}% of tests failed ({failed_count}/{total})'] *)
Definition rate_message (failure_rate : F64.float) (failed_count total : Z)
  : string :=
  F64.fmt1 failure_rate ++ "% of tests failed (" ++ str_of_int failed_count
    ++ "/" ++ str_of_int total ++ ")".

(** The block under [# Check for high failure rate]. *)
Definition rate_insights (failed_count total : Z) : result (list Insight) :=
  if 0 <? total then
    q <- F64.true_div failed_count total ;;
    let failure_rate := F64.mul_int q 100 in
    if F64.gt_int failure_rate 50 then
      Ok [ insight "HIGH_FAILURE_RATE" "CRITICAL"
             (rate_message failure_rate failed_count total)
             "Investigate environment issues or recent code changes. This indicates systemic problems." ]
    else if F64.gt_int failure_rate 20 then
      Ok [ insight "MODERATE_FAILURE_RATE" "HIGH"
             (rate_message failure_rate failed_count total)
             "Review failed scenarios for common patterns." ]
    else Ok []
  else Ok [].

(** The block under [# Check for pattern-specific insights]: four
    independent [if]s, each appending at most one insight. *)
Definition timeout_insight (patterns : list (string * Z)) : list Insight :=
  if 2 <? lookup_default "timeout_failures" patterns 0 then
    [ insight "TIMEOUT_PATTERN" "HIGH"
        (str_of_int (lookup_default "timeout_failures" patterns 0)
           ++ " timeout failures detected")
        "Check application response times, database performance, or increase timeout thresholds." ]
  else [].

Definition auth_insight (patterns : list (string * Z)) : list Insight :=
  if 0 <? lookup_default "authentication_failures" patterns 0 then
    [ insight "AUTH_PATTERN" "HIGH"
        (str_of_int (lookup_default "authentication_failures" patterns 0)
           ++ " authentication failures detected")
        "Verify test credentials and authentication endpoints are working correctly." ]
  else [].

Definition connection_insight (patterns : list (string * Z)) : list Insight :=
  if 0 <? lookup_default "connection_failures" patterns 0 then
    [ insight "CONNECTION_PATTERN" "CRITICAL"
        (str_of_int (lookup_default "connection_failures" patterns 0)
           ++ " connection failures detected")
        "Check network connectivity, service availability, and firewall rules." ]
  else [].

Definition npe_insight (patterns : list (string * Z)) : list Insight :=
  if 0 <? lookup_default "null_pointer_failures" patterns 0 then
    [ insight "NPE_PATTERN" "MEDIUM"
        (str_of_int (lookup_default "null_pointer_failures" patterns 0)
           ++ " null pointer exceptions detected")
        "Review test data setup and null handling in step definitions." ]
  else [].

Definition pattern_insights (patterns : list (string * Z)) : list Insight :=
  (timeout_insight patterns ++ auth_insight patterns
     ++ connection_insight patterns ++ npe_insight patterns)%list.

Definition summary_count (report : Report) (key : Summary -> option Z) : Z :=
  match summary report with
  | Some s => from_option (key s) 0
  | None => 0
  end.

(** The list [insights] that [_add_actionable_insights] builds. *)
Definition collect_insights (report : Report) : result (list Insight) :=
  let failed_count := summary_count report failedScenarios in
  if failed_count =? 0 then Ok [success_insight]
  else
    let total := summary_count report totalScenarios in
    rate <- rate_insights failed_count total ;;
    let patterns := from_option (failurePatternSummary report) [] in
    Ok (rate ++ pattern_insights patterns)%list.

Definition _add_actionable_insights (report : Report) : result Report :=
  insights <- collect_insights report ;;
  Ok (set_actionableInsights report insights).

Definition transient_keywords : list string :=
  [ "timeout"; "connection"; "temporarily unavailable";
    "service unavailable"; "network"; "503"; "504" ].

Definition is_transient (failure : Failure) : bool :=
  let error_msg := lower (get_or_empty (errorMessage failure)) in
  existsb (fun keyword => contains keyword error_msg) transient_keywords.

Definition retry_suggestion (feature : Feature) (failure : Failure)
  : result RetrySuggestion :=
  let is_transient := is_transient failure in
  f <- index "featureName" (featureName feature) ;;
  s <- index "scenarioName" (scenarioName failure) ;;
  l <- index "line" (line failure) ;;
  Ok {| rs_feature := f;
        rs_scenario := s;
        rs_line := l;
        rs_tags := get_default (tags failure) [];
        shouldRetry := is_transient;
        reason := if is_transient then "Transient failure detected"
                  else "Deterministic failure - requires fix" |}.

Definition _add_retry_suggestions (report : Report) : result Report :=
  retry_candidates <-
    for_each_failure
      (fun feature acc failure =>
         c <- retry_suggestion feature failure ;; Ok (acc ++ [c])%list)
      report [] ;;
  Ok (set_retrySuggestions report retry_candidates).

Definition _link_serenity_artifacts (path : string) (report : Report)
  : Report :=
  set_serenityArtifacts report
    {| screenshotsAvailable := true;
       serenityReportPath := path;
       note := "Screenshot linking requires Serenity JSON parsing" |}.

(** [self.serenity_report_path and os.path.exists(self.serenity_report_path)] *)
Definition serenity_available (self : t) (w : World) : option string :=
  match serenity_report_path self with
  | Some (String c p) =>
      if path_exists w (String c p) then Some (String c p) else None
  | _ => None
  end.

(** [enhance], from the loaded document to the report it returns (and
    dumps to [output_path]). *)
Definition enhance (self : t) (w : World) (report : Report) : result Report :=
  let report :=
    set_enhancement report
      {| enhancedAt := utcnow_isoformat w; version := "1.0.0" |} in
  report <- _add_failure_patterns report ;;
  report <- _categorize_errors report ;;
  report <- _add_actionable_insights report ;;
  report <- _add_retry_suggestions report ;;
  Ok (match serenity_available self w with
      | Some path => _link_serenity_artifacts path report
      | None => report
      end).

End FailureReportEnhancer.

(** ** The HTML renderer ([generate-html-summary.py]) *)

Module Renderer.

(** A [str.format] template: literal text and replacement fields. *)
Inductive Piece : Type :=
| Lit (s : string)
| Slot (name : string).

Definition HTML_TEMPLATE : list Piece :=
[
  Lit ("
<!DOCTYPE html>
<html lang=" ++ dq ++ "en" ++ dq ++ ">
<head>
    <meta charset=" ++ dq ++ "UTF-8" ++ dq ++ ">
    <meta name=" ++ dq ++ "viewport" ++ dq ++ " content=" ++ dq ++ "width=device-width, initial-scale=1.0" ++ dq ++ ">
    <title>Test Failure Analysis - Build ");
  Slot "build_number";
  Lit ("</title>
    <style>
        * {
            margin: 0;
            padding: 0;
            box-sizing: border-box;
        }
        
        body {
            font-family: -apple-system, BlinkMacSystemFont, " ++ dq ++ "Segoe UI" ++ dq ++ ", Roboto, " ++ dq ++ "Helvetica Neue" ++ dq ++ ", Arial, sans-serif;
            background: #f5f5f5;
            color: #333;
            line-height: 1.6;
        }
        
        .container {
            max-width: 1400px;
            margin: 0 auto;
            padding: 20px;
        }
        
        header {
            background: linear-gradient(135deg, #667eea 0%, #764ba2 100%);
            color: white;
            padding: 30px;
            border-radius: 10px;
            margin-bottom: 30px;
            box-shadow: 0 4px 6px rgba(0,0,0,0.1);
        }
        
        header h1 {
            font-size: 28px;
            margin-bottom: 10px;
        }
        
        .metadata {
            display: grid;
            grid-template-columns: repeat(auto-fit, minmax(200px, 1fr));
            gap: 10px;
            font-size: 14px;
            opacity: 0.9;
        }
        
        .metadata-item {
            display: flex;
            gap: 8px;
        }
        
        .metadata-label {
            font-weight: 600;
        }
        
        .summary {
            display: grid;
            grid-template-columns: repeat(auto-fit, minmax(200px, 1fr));
            gap: 20px;
            margin-bottom: 30px;
        }
        
        .summary-card {
            background: white;
            padding: 20px;
            border-radius: 8px;
            box-shadow: 0 2px 4px rgba(0,0,0,0.1);
            border-left: 4px solid #667eea;
        }
        
        .summary-card.failed {
            border-left-color: #ef4444;
        }
        
        .summary-card.passed {
            border-left-color: #10b981;
        }
        
        .summary-card.skipped {
            border-left-color: #f59e0b;
        }
        
        .summary-card h3 {
            font-size: 14px;
            color: #666;
            margin-bottom: 8px;
            text-transform: uppercase;
            letter-spacing: 0.5px;
        }
        
        .summary-card .value {
            font-size: 36px;
            font-weight: 700;
            color: #333;
        }
        
        .insights {
            background: white;
            padding: 25px;
            border-radius: 8px;
            margin-bottom: 30px;
            box-shadow: 0 2px 4px rgba(0,0,0,0.1);
        }
        
        .insights h2 {
            font-size: 20px;
            margin-bottom: 20px;
            color: #333;
        }
        
        .insight {
            padding: 15px;
            margin-bottom: 15px;
            border-radius: 6px;
            border-left: 4px solid;
        }
        
        .insight.critical {
            background: #fee;
            border-left-color: #ef4444;
        }
        
        .insight.high {
            background: #fef3c7;
            border-left-color: #f59e0b;
        }
        
        .insight.medium {
            background: #dbeafe;
            border-left-color: #3b82f6;
        }
        
        .insight.info {
            background: #d1fae5;
            border-left-color: #10b981;
        }
        
        .insight-header {
            display: flex;
            justify-content: space-between;
            align-items: center;
            margin-bottom: 8px;
        }
        
        .insight-type {
            font-weight: 600;
            font-size: 14px;
        }
        
        .insight-severity {
            display: inline-block;
            padding: 2px 8px;
            border-radius: 3px;
            font-size: 11px;
            font-weight: 600;
            text-transform: uppercase;
        }
        
        .insight-severity.critical {
            background: #ef4444;
            color: white;
        }
        
        .insight-severity.high {
            background: #f59e0b;
            color: white;
        }
        
        .insight-severity.medium {
            background: #3b82f6;
            color: white;
        }
        
        .insight-severity.info {
            background: #10b981;
            color: white;
        }
        
        .failures {
            background: white;
            padding: 25px;
            border-radius: 8px;
            margin-bottom: 30px;
            box-shadow: 0 2px 4px rgba(0,0,0,0.1);
        }
        
        .failures h2 {
            font-size: 20px;
            margin-bottom: 20px;
            color: #333;
        }
        
        .failure-item {
            border: 1px solid #e5e7eb;
            border-radius: 6px;
            margin-bottom: 20px;
            overflow: hidden;
        }
        
        .failure-header {
            background: #f9fafb;
            padding: 15px;
            cursor: pointer;
            display: flex;
            justify-content: space-between;
            align-items: center;
        }
        
        .failure-header:hover {
            background: #f3f4f6;
        }
        
        .failure-title {
            font-weight: 600;
            color: #333;
        }
        
        .failure-meta {
            display: flex;
            gap: 15px;
            font-size: 12px;
            color: #666;
            margin-top: 5px;
        }
        
        .tag {
            display: inline-block;
            background: #e0e7ff;
            color: #4338ca;
            padding: 2px 8px;
            border-radius: 3px;
            font-size: 11px;
            margin-right: 5px;
        }
        
        .failure-details {
            padding: 20px;
            border-top: 1px solid #e5e7eb;
            background: #fafafa;
        }
        
        .error-message {
            background: #fff;
            border-left: 4px solid #ef4444;
            padding: 15px;
            border-radius: 4px;
            margin-bottom: 15px;
            font-family: 'Monaco', 'Courier New', monospace;
            font-size: 13px;
            color: #dc2626;
        }
        
        .steps {
            margin-top: 15px;
        }
        
        .step {
            padding: 10px;
            margin-bottom: 8px;
            border-radius: 4px;
            font-size: 13px;
        }
        
        .step.passed {
            background: #f0fdf4;
            border-left: 3px solid #10b981;
        }
        
        .step.failed {
            background: #fef2f2;
            border-left: 3px solid #ef4444;
        }
        
        .step.skipped {
            background: #fef9f3;
            border-left: 3px solid #f59e0b;
        }
        
        .step-keyword {
            font-weight: 600;
            margin-right: 8px;
        }
        
        .stacktrace {
            background: #1f2937;
            color: #e5e7eb;
            padding: 15px;
            border-radius: 4px;
            font-family: 'Monaco', 'Courier New', monospace;
            font-size: 12px;
            overflow-x: auto;
            margin-top: 10px;
            max-height: 300px;
            overflow-y: auto;
        }
        
        .patterns {
            background: white;
            padding: 25px;
            border-radius: 8px;
            margin-bottom: 30px;
            box-shadow: 0 2px 4px rgba(0,0,0,0.1);
        }
        
        .pattern-grid {
            display: grid;
            grid-template-columns: repeat(auto-fit, minmax(300px, 1fr));
            gap: 15px;
            margin-top: 15px;
        }
        
        .pattern-card {
            border: 1px solid #e5e7eb;
            border-radius: 6px;
            padding: 15px;
        }
        
        .pattern-card h4 {
            font-size: 14px;
            margin-bottom: 10px;
            color: #666;
        }
        
        .pattern-count {
            font-size: 24px;
            font-weight: 700;
            color: #ef4444;
            margin-bottom: 10px;
        }
        
        footer {
            text-align: center;
            padding: 20px;
            color: #666;
            font-size: 12px;
        }
        
        .toggle-icon {
            transition: transform 0.3s;
        }
        
        .toggle-icon.expanded {
            transform: rotate(180deg);
        }
    </style>
</head>
<body>
    <div class=" ++ dq ++ "container" ++ dq ++ ">
        <header>
            <h1>🔍 Test Failure Analysis</h1>
            <div class=" ++ dq ++ "metadata" ++ dq ++ ">
                <div class=" ++ dq ++ "metadata-item" ++ dq ++ ">
                    <span class=" ++ dq ++ "metadata-label" ++ dq ++ ">Build:</span>
                    <span>");
  Slot "build_number";
  Lit ("</span>
                </div>
                <div class=" ++ dq ++ "metadata-item" ++ dq ++ ">
                    <span class=" ++ dq ++ "metadata-label" ++ dq ++ ">Environment:</span>
                    <span>");
  Slot "environment";
  Lit ("</span>
                </div>
                <div class=" ++ dq ++ "metadata-item" ++ dq ++ ">
                    <span class=" ++ dq ++ "metadata-label" ++ dq ++ ">Duration:</span>
                    <span>");
  Slot "duration";
  Lit ("</span>
                </div>
                <div class=" ++ dq ++ "metadata-item" ++ dq ++ ">
                    <span class=" ++ dq ++ "metadata-label" ++ dq ++ ">Generated:</span>
                    <span>");
  Slot "timestamp";
  Lit ("</span>
                </div>
            </div>
        </header>
        
        <div class=" ++ dq ++ "summary" ++ dq ++ ">
            <div class=" ++ dq ++ "summary-card" ++ dq ++ ">
                <h3>Total Scenarios</h3>
                <div class=" ++ dq ++ "value" ++ dq ++ ">");
  Slot "total_scenarios";
  Lit ("</div>
            </div>
            <div class=" ++ dq ++ "summary-card passed" ++ dq ++ ">
                <h3>Passed</h3>
                <div class=" ++ dq ++ "value" ++ dq ++ ">");
  Slot "passed_scenarios";
  Lit ("</div>
            </div>
            <div class=" ++ dq ++ "summary-card failed" ++ dq ++ ">
                <h3>Failed</h3>
                <div class=" ++ dq ++ "value" ++ dq ++ ">");
  Slot "failed_scenarios";
  Lit ("</div>
            </div>
            <div class=" ++ dq ++ "summary-card skipped" ++ dq ++ ">
                <h3>Skipped</h3>
                <div class=" ++ dq ++ "value" ++ dq ++ ">");
  Slot "skipped_scenarios";
  Lit ("</div>
            </div>
        </div>
        
        ");
  Slot "insights_section";
  Lit ("
        
        ");
  Slot "patterns_section";
  Lit ("
        
        ");
  Slot "failures_section";
  Lit ("
        
        <footer>
            Generated by AI Failure Analyzer | ");
  Slot "timestamp";
  Lit ("
        </footer>
    </div>
    
    <script>
        // Toggle failure details
        document.querySelectorAll('.failure-header').forEach(header => {
            header.addEventListener('click', () => {
                const details = header.nextElementSibling;
                const icon = header.querySelector('.toggle-icon');
                
                if (details.style.display === 'none' || !details.style.display) {
                    details.style.display = 'block';
                    icon.classList.add('expanded');
                } else {
                    details.style.display = 'none';
                    icon.classList.remove('expanded');
                }
            });
        });
        
        // Initially hide all details
        document.querySelectorAll('.failure-details').forEach(details => {
            details.style.display = 'none';
        });
    </script>
</body>
</html>
")
].

(** [template.format] with keyword arguments; every field of [HTML_TEMPLATE] is among
    the keyword arguments [generate_html_report] passes. *)
Fixpoint format (template : list Piece) (kwargs : list (string * string))
  : string :=
  match template with
  | [] => ""
  | Lit s :: t => s ++ format t kwargs
  | Slot name :: t => lookup_default name kwargs "" ++ format t kwargs
  end.

(** [format_duration(ms)] for [ms] an int or None. *)
Definition format_duration (ms : option Z) : result string :=
  match ms with
  | None => Ok "N/A"
  | Some ms =>
      if ms =? 0 then Ok "N/A"
      else
        seconds <- F64.true_div ms 1000 ;;
        if F64.lt_int seconds 60 then Ok (F64.fmt1 seconds ++ "s")
        else
          let minutes := F64.div_int seconds 60 in
          if F64.lt_int minutes 60 then Ok (F64.fmt1 minutes ++ "m")
          else
            let hours := F64.div_int minutes 60 in
            Ok (F64.fmt1 hours ++ "h")
  end.

Definition insight_html (insight : Insight) : string :=
  let severity_lower := lower (from_option (severity insight) "INFO") in
  "
        <div class=" ++ dq ++ "insight "
      ++ severity_lower
      ++ dq ++ ">
            <div class=" ++ dq ++ "insight-header" ++ dq ++ ">
                <span class=" ++ dq ++ "insight-type" ++ dq ++ ">"
      ++ from_option (type insight) "Unknown"
      ++ "</span>
                <span class=" ++ dq ++ "insight-severity "
      ++ severity_lower
      ++ dq ++ ">"
      ++ from_option (severity insight) "INFO"
      ++ "</span>
            </div>
            <div>"
      ++ from_option (message insight) ""
      ++ "</div>
            <div style=" ++ dq ++ "margin-top: 8px; font-size: 13px; opacity: 0.8;" ++ dq ++ ">
                <strong>Recommendation:</strong> "
      ++ from_option (recommendation insight) ""
      ++ "
            </div>
        </div>
        ".

Definition generate_insights_section (report : Report) : string :=
  let insights := from_option (actionableInsights report) [] in
  if nonempty insights then
    let insights_html :=
      [ "<div class=" ++ dq ++ "insights" ++ dq ++ ">";
        "<h2>📊 Actionable Insights</h2>" ] in
    join nl (insights_html ++ map insight_html insights ++ [ "</div>" ])%list
  else "".

Definition pattern_labels : list (string * string) :=
  [ ("timeout_failures", "Timeout Failures");
    ("assertion_failures", "Assertion Failures");
    ("connection_failures", "Connection Failures");
    ("authentication_failures", "Authentication Failures");
    ("data_validation_failures", "Data Validation Failures");
    ("null_pointer_failures", "Null Pointer Failures");
    ("other_failures", "Other Failures") ].

Definition pattern_html (kv : string * Z) : string :=
  let (pattern_key, count) := kv in
  let label :=
    lookup_default pattern_key pattern_labels
      (title (replace_char "_" " " pattern_key)) in
  "
        <div class=" ++ dq ++ "pattern-card" ++ dq ++ ">
            <h4>"
      ++ label
      ++ "</h4>
            <div class=" ++ dq ++ "pattern-count" ++ dq ++ ">"
      ++ str_of_int count
      ++ "</div>
        </div>
        ".

Definition generate_patterns_section (report : Report) : string :=
  let patterns := from_option (failurePatternSummary report) [] in
  if nonempty patterns then
    let patterns_html :=
      [ "<div class=" ++ dq ++ "patterns" ++ dq ++ ">";
        "<h2>🎯 Failure Patterns</h2>";
        "<div class=" ++ dq ++ "pattern-grid" ++ dq ++ ">" ] in
    join nl
      (patterns_html ++ map pattern_html patterns ++ [ "</div></div>" ])%list
  else "".

(** [''.join([f'<span class="tag">{tag}</span>' for tag in
    failure.get('tags', [])])]: iterating None raises. *)
Definition tags_block (failure : Failure) : result string :=
  match get_default (tags failure) [] with
  | None => Raise TypeError
  | Some l =>
      Ok (concat_all
            (map (fun tag => "<span class=" ++ dq ++ "tag" ++ dq ++ ">"
                               ++ tag ++ "</span>") l))
  end.

Definition failure_head (feature : Feature) (failure : Failure)
  (tags_html : string) : result string :=
  let line_text :=
    match line failure with
    | Some n => str_of_int n
    | None => "N/A"
    end in
  duration_text <- format_duration (get (duration failure)) ;;
  Ok ("
            <div class=" ++ dq ++ "failure-item" ++ dq ++ ">
                <div class=" ++ dq ++ "failure-header" ++ dq ++ ">
                    <div>
                        <div class=" ++ dq ++ "failure-title" ++ dq ++ ">"
      ++ from_option (scenarioName failure) "Unknown Scenario"
      ++ "</div>
                        <div class=" ++ dq ++ "failure-meta" ++ dq ++ ">
                            <span>📁 "
      ++ from_option (featureName feature) "Unknown Feature"
      ++ "</span>
                            <span>📍 Line "
      ++ line_text
      ++ "</span>
                            <span>⏱️ "
      ++ duration_text
      ++ "</span>
                        </div>
                        <div style=" ++ dq ++ "margin-top: 5px;" ++ dq ++ ">"
      ++ tags_html
      ++ "</div>
                    </div>
                    <span class=" ++ dq ++ "toggle-icon" ++ dq ++ ">▼</span>
                </div>
                <div class=" ++ dq ++ "failure-details" ++ dq ++ ">
            ").

Definition error_block (failure : Failure) : string :=
  if truthy_str (errorMessage failure) then
    "
                    <div class=" ++ dq ++ "error-message" ++ dq ++ ">
                        ❌ "
      ++ get_or_empty (errorMessage failure)
      ++ "
                    </div>
                "
  else "".

Definition step_error_html (step : Step) : string :=
  if truthy_str (step_errorMessage step) then
    "<div style=" ++ dq ++ "margin-top: 5px; color: #dc2626; font-size: 12px;"
      ++ dq ++ ">Error: " ++ get_or_empty (step_errorMessage step) ++ "</div>"
  else "".

Definition step_html (step : Step) : string :=
  let status := lower (from_option (step_status step) "UNKNOWN") in
  "
                    <div class=" ++ dq ++ "step "
      ++ status
      ++ dq ++ ">
                        <span class=" ++ dq ++ "step-keyword" ++ dq ++ ">"
      ++ from_option (step_keyword step) ""
      ++ "</span>
                        <span>"
      ++ from_option (step_text step) ""
      ++ "</span>
                        "
      ++ step_error_html step
      ++ "
                    </div>
                    ".

Definition steps_block (failure : Failure) : string :=
  if truthy_list (steps failure) then
    "<div class=" ++ dq ++ "steps" ++ dq ++ "><h4>Test Steps:</h4>"
      ++ concat_all (map step_html (from_option (get (steps failure)) []))
      ++ "</div>"
  else "".

Definition stacktrace_block (failure : Failure) : string :=
  if truthy_str (stackTrace failure) then
    "
                    <div class=" ++ dq ++ "stacktrace" ++ dq ++ ">"
      ++ get_or_empty (stackTrace failure)
      ++ "</div>
                "
  else "".

(** Body of the inner loop of [generate_failures_section]: the entry of
    one failure. *)
Definition failure_html (feature : Feature) (failure : Failure)
  : result string :=
  tags_html <- tags_block failure ;;
  head <- failure_head feature failure tags_html ;;
  Ok (head ++ error_block failure ++ steps_block failure
        ++ stacktrace_block failure ++ "</div></div>").

Definition generate_failures_section (report : Report) : result string :=
  acc <-
    for_each
      (fun acc feature =>
         for_each
           (fun (acc : list string * Z) failure =>
              let (failures_html, failure_count) := acc in
              let failure_count := failure_count + 1 in
              h <- failure_html feature failure ;;
              Ok ((failures_html ++ [h])%list, failure_count))
           (from_option (failures feature) []) acc)
      (from_option (features report) []) ([], 0) ;;
  let (failures_html, failure_count) := acc in
  if nonempty failures_html then
    Ok ("<div class=" ++ dq ++ "failures" ++ dq ++ "><h2>❌ Failed Scenarios ("
          ++ str_of_int failure_count ++ ")</h2>"
          ++ join nl failures_html ++ "</div>")
  else Ok "".

Definition count_text (o : option Z) : string := str_of_int (from_option o 0).

(** The keyword arguments [generate_html_report] passes to
    [HTML_TEMPLATE.format]; [now] is
    [datetime.now().strftime('%Y-%m-%d %H:%M:%S')]. *)
Definition template_arguments (report_data : Report)
  (now duration failures_section : string) : list (string * string) :=
  let metadata_get {A} (key : Metadata -> option A) : option A :=
    match metadata report_data with
    | Some m => key m
    | None => None
    end in
  let summary_get (key : Summary -> option Z) : option Z :=
    match summary report_data with
    | Some s => key s
    | None => None
    end in
  [ ("build_number", from_option (metadata_get buildNumber) "Unknown");
    ("environment", from_option (metadata_get environment) "default");
    ("duration", duration);
    ("timestamp", now);
    ("total_scenarios", count_text (summary_get totalScenarios));
    ("passed_scenarios", count_text (summary_get passedScenarios));
    ("failed_scenarios", count_text (summary_get failedScenarios));
    ("skipped_scenarios", count_text (summary_get skippedScenarios));
    ("insights_section", generate_insights_section report_data);
    ("patterns_section", generate_patterns_section report_data);
    ("failures_section", failures_section) ].

(** [metadata.get('duration')] *)
Definition metadata_duration (report_data : Report) : option Z :=
  match metadata report_data with
  | Some m => get (md_duration m)
  | None => None
  end.

(** [generate_html_report], from the loaded document to the text written
    to [output_path]. *)
Definition generate_html_report (now : string) (report_data : Report)
  : result string :=
  duration <- format_duration (metadata_duration report_data) ;;
  failures_section <- generate_failures_section report_data ;;
  Ok (format HTML_TEMPLATE
        (template_arguments report_data now duration failures_section)).

End Renderer.

(** ** Specification-side definitions *)

(** The failures of a report in traversal order: feature order, then
    failure order within the feature, each with its feature. *)
Definition all_failures (report : Report) : list (Feature * Failure) :=
  flat_map (fun feature => map (pair feature) (from_option (failures feature) []))
           (from_option (features report) []).

(** A list comprehension whose element expression may raise. *)
Fixpoint traverse {A B : Type} (f : A -> result B) (l : list A)
  : result (list B) :=
  match l with
  | [] => Ok []
  | x :: l' => y <- f x ;; ys <- traverse f l' ;; Ok (y :: ys)
  end.

(** The classifier as spec section 4.1 words it: an ordered table of
    (predicate, category) pairs over the lower-cased message and type, the
    first matching row wins, [other_failures] when none matches. *)
Definition priority_rules : list ((string -> string -> bool) * string) :=
  [ (fun msg ty => contains "timeout" msg || contains "timeout" ty,
     "timeout_failures");
    (fun msg _ => contains "assertion" msg || contains "expected" msg,
     "assertion_failures");
    (fun msg _ => contains "connection" msg || contains "unable to connect" msg,
     "connection_failures");
    (fun msg _ => contains "auth" msg || contains "unauthorized" msg
                  || contains "401" msg,
     "authentication_failures");
    (fun msg _ => contains "validation" msg || contains "invalid" msg,
     "data_validation_failures");
    (fun msg ty => contains "nullpointer" ty || contains "null" msg,
     "null_pointer_failures") ].

Fixpoint first_match (rules : list ((string -> string -> bool) * string))
  (msg ty : string) : string :=
  match rules with
  | [] => "other_failures"
  | (p, category) :: rules' =>
      if p msg ty then category else first_match rules' msg ty
  end.

Definition priority_category (failure : Failure) : string :=
  first_match priority_rules
    (lower (get_or_empty (errorMessage failure)))
    (lower (get_or_empty (errorType failure))).

Definition category_keys : list string :=
  [ "timeout_failures"; "assertion_failures"; "connection_failures";
    "authentication_failures"; "data_validation_failures";
    "null_pointer_failures"; "other_failures" ].

(** The retry verdict as spec section 4.4 words it. *)
Definition mentions_transient_keyword (msg : string) : bool :=
  contains "timeout" msg || contains "connection" msg
  || contains "temporarily unavailable" msg
  || contains "service unavailable" msg
  || contains "network" msg || contains "503" msg || contains "504" msg.

(** ** Sample documents *)

Definition no_derived (md : option Metadata) (s : option Summary)
  (fs : option (list Feature)) : Report :=
  {| metadata := md; summary := s; features := fs;
     enhancement := None; failurePatterns := None;
     failurePatternSummary := None; errorCategories := None;
     errorCategorySummary := None; actionableInsights := None;
     retrySuggestions := None; serenityArtifacts := None |}.

Definition counts (total passed failed skipped : Z) : Summary :=
  {| totalScenarios := Some total; passedScenarios := Some passed;
     failedScenarios := Some failed; skippedScenarios := Some skipped |}.

(** A failure that carries only the keys the enhancer indexes and the error
    text. *)
Definition bare_failure (name : string) (ln : Z) (ty msg : field string)
  : Failure :=
  {| scenarioName := Some name; line := Some ln; errorType := ty;
     errorMessage := msg; stackTrace := Absent; steps := Absent;
     tags := Absent; duration := Absent |}.

Definition create_booking_failure : Failure :=
  {| scenarioName := Some "Create booking"; line := Some 12;
     errorType := Val "java.net.SocketTimeoutException";
     errorMessage := Val "Read timeout: invalid response";
     stackTrace := Val "at BookingSteps.create(BookingSteps.java:42)";
     steps := Val [ {| step_keyword := Some "Given ";
                       step_text := Some "a booking payload";
                       step_status := Some "PASSED";
                       step_errorMessage := Absent |};
                    {| step_keyword := Some "When ";
                       step_text := Some "the booking is posted";
                       step_status := Some "FAILED";
                       step_errorMessage := Val "Read timeout" |} ];
     tags := Val ["@smoke"; "@booking"];
     duration := Val 30500 |}.

Definition booking_feature : Feature :=
  {| featureName := Some "Booking API";
     failures :=
       Some [ create_booking_failure;
              bare_failure "Update booking" 30 (Val "AssertionError")
                (Val "Expected true but got false");
              bare_failure "Delete booking" 44 (Val "TimeoutException") Null;
              bare_failure "Get booking" 51 Absent (Val "Request TIMEOUT") ] |}.

Definition auth_feature : Feature :=
  {| featureName := Some "Auth API";
     failures :=
       Some [ bare_failure "Login" 8 Null (Val "Connection timed out after 503");
              bare_failure "Token" 19 (Val "NullPointerException")
                (Val "401 Unauthorized") ] |}.

Definition sample_report : Report :=
  no_derived
    (Some {| buildNumber := Some "128"; environment := Some "staging";
             md_duration := Val 93500 |})
    (Some (counts 10 4 6 0))
    (Some [booking_feature; auth_feature]).

(** A run in which every scenario passed. *)
Definition passing_report : Report :=
  no_derived None (Some (counts 10 10 0 0)) (Some []).

Definition sample_enhancer : FailureReportEnhancer.t :=
  {| FailureReportEnhancer.input_path := "ai-failure-report.json";
     FailureReportEnhancer.output_path := "ai-failure-report-enhanced.json";
     FailureReportEnhancer.serenity_report_path := None |}.

Definition world_at (now : string) : FailureReportEnhancer.World :=
  {| FailureReportEnhancer.utcnow_isoformat := now;
     FailureReportEnhancer.path_exists := fun _ => false |}.

Definition result_or {A : Type} (m : result A) (default : A) : A :=
  match m with
  | Ok a => a
  | Raise _ => default
  end.

Definition sample_patterned : Report :=
  Eval vm_compute in
    result_or (FailureReportEnhancer._add_failure_patterns sample_report)
              sample_report.

Definition sample_enhanced : Report :=
  Eval vm_compute in
    result_or (FailureReportEnhancer.enhance sample_enhancer
                 (world_at "2024-05-01T10:00:00.000000") sample_report)
              sample_report.

(** ** Statements *)

(** Each category list of [r'] holds the records of exactly the failures of
    [r] that the priority table assigns to it, in traversal order; so every
    failure is filed once. *)
Definition filed_by_priority (r r' : Report) : Prop :=
  exists patterns infos,
    failurePatterns r' = Some patterns /\
    Forall2
      (fun p info => FailureReportEnhancer.failure_info (fst p) (snd p) = Ok info)
      (all_failures r) infos /\
    (forall key,
        lookup_default key patterns []
        = map snd
            (filter
               (fun pi => String.eqb (priority_category (snd (fst pi))) key)
               (combine (all_failures r) infos))) /\
    list_sum
      (map (fun key => List.length (lookup_default key patterns [])) category_keys)
    = List.length (all_failures r).

(** No category of [r'] is empty and each count is the length of its list. *)
Definition nonempty_and_counted (r' : Report) : Prop :=
  exists patterns pattern_counts,
    failurePatterns r' = Some patterns /\
    failurePatternSummary r' = Some pattern_counts /\
    (forall key l, In (key, l) patterns -> l <> []) /\
    map fst pattern_counts = map fst patterns /\
    (forall key l,
        In (key, l) patterns ->
        In (key, Z.of_nat (List.length l)) pattern_counts /\
        lookup_default key pattern_counts 0 = Z.of_nat (List.length l)).

(** One retry record per failure, in traversal order, retryable exactly
    when the lower-cased message mentions a transient keyword. *)
Definition retry_verdicts (r r' : Report) : Prop :=
  exists suggestions,
    retrySuggestions r' = Some suggestions /\
    Forall2
      (fun p c =>
         featureName (fst p) = Some (rs_feature c) /\
         scenarioName (snd p) = Some (rs_scenario c) /\
         line (snd p) = Some (rs_line c) /\
         shouldRetry c
         = mentions_transient_keyword
             (lower (get_or_empty (errorMessage (snd p)))) /\
         reason c = (if shouldRetry c then "Transient failure detected"
                     else "Deterministic failure - requires fix"))
      (all_failures r) suggestions.

(** [[i]] when the condition holds, nothing otherwise. *)
Definition when (b : bool) (i : Insight) : list Insight :=
  if b then [i] else [].

(** The six classification fields agree. *)
Definition same_classification (a b : Report) : Prop :=
  failurePatterns a = failurePatterns b /\
  failurePatternSummary a = failurePatternSummary b /\
  errorCategories a = errorCategories b /\
  errorCategorySummary a = errorCategorySummary b /\
  actionableInsights a = actionableInsights b /\
  retrySuggestions a = retrySuggestions b.

(** The first magnitude at which [ms / 1000] leaves the finite doubles,
    and the largest count on which the float rate is compared exactly. *)
Definition duration_limit : Z := 1000 * (2 ^ 1024 - 2 ^ 970).
Definition count_limit : Z := 2 ^ 52.

(** [text] prints the tenth nearest to [x]: an integer part, a point and
    one digit. *)
Definition one_decimal (x : F64.float) (text : string) : Prop :=
  exists tenths,
    0 <= tenths /\
    2 * Z.abs (tenths * F64.one - Z.abs x * 10) <= F64.one /\
    text = (if x <? 0 then "-" else "")
             ++ str_of_int (tenths / 10) ++ "." ++ str_of_int (tenths mod 10).

Definition high_failure_rate_insight (rate : F64.float) (failed total : Z)
  : Insight :=
  {| type := Some "HIGH_FAILURE_RATE"; severity := Some "CRITICAL";
     message := Some (FailureReportEnhancer.rate_message rate failed total);
     recommendation :=
       Some "Investigate environment issues or recent code changes. This indicates systemic problems." |}.

Definition moderate_failure_rate_insight (rate : F64.float) (failed total : Z)
  : Insight :=
  {| type := Some "MODERATE_FAILURE_RATE"; severity := Some "HIGH";
     message := Some (FailureReportEnhancer.rate_message rate failed total);
     recommendation := Some "Review failed scenarios for common patterns." |}.

(** The rate insight for a rate [rate]: CRITICAL above 50, HIGH above 20
    and up to 50, none up to 20. *)
Definition rate_insight_for (rate : F64.float) (failed total : Z)
  : list Insight :=
  if F64.gt_int rate 50 then [high_failure_rate_insight rate failed total]
  else if F64.gt_int rate 20 then
    [moderate_failure_rate_insight rate failed total]
  else [].

(** The same by exact arithmetic on the counts: CRITICAL when
    [failed / total] is above 50%, HIGH when it is above 20% and up to 50%,
    none up to 20%. *)
Definition rate_insight_by_ratio (failed total : Z) : list Insight :=
  let rate := F64.mul_int (F64.round (failed * F64.one) total) 100 in
  if 50 * total <? 100 * failed then
    [high_failure_rate_insight rate failed total]
  else if 20 * total <? 100 * failed then
    [moderate_failure_rate_insight rate failed total]
  else [].


(** Two runs of the enhancer end alike: the same exception, or two reports
    of which the second is the first with the second run's timestamp. *)
Definition same_but_timestamp (w2 : FailureReportEnhancer.World)
  (first second : result Report) : Prop :=
  match first, second with
  | Ok a, Ok b =>
      b = set_enhancement a
            {| enhancedAt := FailureReportEnhancer.utcnow_isoformat w2;
               version := "1.0.0" |}
  | Raise e1, Raise e2 => e1 = e2
  | _, _ => False
  end.

(** Two runs of the renderer end alike: the same exception, or the template
    filled with the same arguments but for the clock text. *)
Definition same_but_clock (r : Report) (now1 now2 : string)
  (first second : result string) : Prop :=
  match first, second with
  | Ok h1, Ok h2 =>
      exists duration_text failures_section,
        h1 = Renderer.format Renderer.HTML_TEMPLATE
               (Renderer.template_arguments r now1 duration_text
                  failures_section) /\
        h2 = Renderer.format Renderer.HTML_TEMPLATE
               (Renderer.template_arguments r now2 duration_text
                  failures_section)
  | Raise e1, Raise e2 => e1 = e2
  | _, _ => False
  end.

(** Results that agree up to a relation on the values returned. *)
Definition agree {A : Type} (R : A -> A -> Prop) (first second : result A)
  : Prop :=
  match first, second with
  | Ok a, Ok b => R a b
  | Raise e1, Raise e2 => e1 = e2
  | _, _ => False
  end.

(** [b] is [a] with the enhancement record [e2]. *)
Definition stamped (e2 : Enhancement) (a b : Report) : Prop :=
  b = set_enhancement a e2.

(** ** Statements about the rest of the code *)

(** The key of [errorCategories] a failure goes under:
    [failure.get('errorType', 'UnknownError')]. *)
Definition error_type_key (failure : Failure) : option string :=
  get_default (errorType failure) "UnknownError".

(** [d.get(key, default)] on a dict whose keys may be None. *)
Fixpoint lookup_key {V : Type} (key : option string)
  (d : list (option string * V)) (default : V) : V :=
  match d with
  | [] => default
  | (k, v) :: d' => if key_eqb k key then v else lookup_key key d' default
  end.

(** The distinct elements of a list, each at its first position. *)
Fixpoint first_seen (l : list (option string)) : list (option string) :=
  match l with
  | [] => []
  | k :: l' => k :: filter (fun k' => negb (key_eqb k' k)) (first_seen l')
  end.

(** The first of the keys [featureName], [scenarioName], [line] that the
    enhancer indexes and the failure (with its feature) lacks. *)
Definition first_missing_key (p : Feature * Failure) : option string :=
  match featureName (fst p), scenarioName (snd p), line (snd p) with
  | None, _, _ => Some "featureName"
  | Some _, None, _ => Some "scenarioName"
  | Some _, Some _, None => Some "line"
  | Some _, Some _, Some _ => None
  end.


(** The number of failures of [r] filed under [key]. *)
Definition classified_count (r : Report) (key : string) : Z :=
  Z.of_nat
    (List.length
       (filter
          (fun p => String.eqb (FailureReportEnhancer.category_of (snd p)) key)
          (all_failures r))).

(** The pattern insights for given counts per category. *)
Definition pattern_insights_for (count : string -> Z) : list Insight :=
  (when (2 <? count "timeout_failures")
     (FailureReportEnhancer.insight "TIMEOUT_PATTERN" "HIGH"
        (str_of_int (count "timeout_failures") ++ " timeout failures detected")
        "Check application response times, database performance, or increase timeout thresholds.")
   ++ when (0 <? count "authentication_failures")
        (FailureReportEnhancer.insight "AUTH_PATTERN" "HIGH"
           (str_of_int (count "authentication_failures")
              ++ " authentication failures detected")
           "Verify test credentials and authentication endpoints are working correctly.")
   ++ when (0 <? count "connection_failures")
        (FailureReportEnhancer.insight "CONNECTION_PATTERN" "CRITICAL"
           (str_of_int (count "connection_failures")
              ++ " connection failures detected")
           "Check network connectivity, service availability, and firewall rules.")
   ++ when (0 <? count "null_pointer_failures")
        (FailureReportEnhancer.insight "NPE_PATTERN" "MEDIUM"
           (str_of_int (count "null_pointer_failures")
              ++ " null pointer exceptions detected")
           "Review test data setup and null handling in step definitions."))%list.

Definition sum_counts {K : Type} (d : list (K * Z)) : Z :=
  fold_right Z.add 0 (map snd d).

(** The names of the replacement fields of a template. *)
Fixpoint slots (template : list Renderer.Piece) : list string :=
  match template with
  | [] => []
  | Renderer.Lit _ :: t => slots t
  | Renderer.Slot name :: t => name :: slots t
  end.

(** A failure whose [tags] key holds null, and a report that has it. *)
Definition null_tags_failure : Failure :=
  {| scenarioName := Some "Delete booking"; line := Some 44;
     errorType := Absent; errorMessage := Absent; stackTrace := Absent;
     steps := Absent; tags := Null; duration := Absent |}.

Definition null_tags_report : Report :=
  no_derived None (Some (counts 1 0 1 0))
    (Some [ {| featureName := Some "Booking API";
               failures := Some [null_tags_failure] |} ]).

(** A failure without the [line] key the enhancer indexes. *)
Definition unnumbered_report : Report :=
  no_derived None (Some (counts 2 1 1 0))
    (Some [ booking_feature;
            {| featureName := Some "Ping API";
               failures :=
                 Some [ {| scenarioName := Some "Ping"; line := None;
                           errorType := Absent; errorMessage := Absent;
                           stackTrace := Absent; steps := Absent;
                           tags := Absent; duration := Absent |} ] |} ]).

(** A failure whose error message is markup. *)
Definition markup_failure : Failure :=
  bare_failure "Login <admin>" 3 Absent (Val "<script>alert(1)</script>").





(** ** Loops *)

Lemma bind_ok {A B : Type} (m : result A) (k : A -> result B) (b : B) :
  bind m k = Ok b -> exists a, m = Ok a /\ k a = Ok b.
Proof.
  destruct m as [a | e]; simpl; intros H; [eauto | discriminate].
Qed.

Lemma for_each_app {A S : Type} (body : S -> A -> result S) (l1 l2 : list A)
  (s : S) :
  for_each body (l1 ++ l2)%list s
  = (s' <- for_each body l1 s ;; for_each body l2 s').
Proof.
  revert s; induction l1 as [| x l1 IH]; intros s; simpl; [reflexivity |].
  destruct (body s x) as [s1 | e]; simpl; [apply IH | reflexivity].
Qed.

Lemma for_each_map {A B S : Type} (body : S -> B -> result S) (f : A -> B)
  (l : list A) (s : S) :
  for_each body (map f l) s = for_each (fun s x => body s (f x)) l s.
Proof.
  revert s; induction l as [| x l IH]; intros s; simpl; [reflexivity |].
  destruct (body s (f x)); simpl; [apply IH | reflexivity].
Qed.

(** The nested loops visit [all_failures] in order. *)
Lemma for_each_failure_flat {S : Type}
  (body : Feature -> S -> Failure -> result S) (report : Report) (s : S) :
  FailureReportEnhancer.for_each_failure body report s
  = for_each (fun s p => body (fst p) s (snd p)) (all_failures report) s.
Proof.
  unfold FailureReportEnhancer.for_each_failure, all_failures.
  generalize (from_option (features report) []) as fs.
  intros fs; revert s; induction fs as [| fe fs IH]; intros s; simpl;
    [reflexivity |].
  rewrite for_each_app, for_each_map; simpl.
  destruct (for_each (body fe) (from_option (failures fe) []) s); simpl;
    [apply IH | reflexivity].
Qed.

(** A loop that computes one value per element and folds it into the
    state is a comprehension followed by a fold. *)
Lemma for_each_traverse {A B S : Type} (f : A -> result B)
  (g : S -> A -> B -> S) (l : list A) (s : S) :
  for_each (fun s x => y <- f x ;; Ok (g s x y)) l s
  = (ys <- traverse f l ;;
     Ok (fold_left (fun s xy => g s (fst xy) (snd xy)) (combine l ys) s)).
Proof.
  revert s; induction l as [| x l IH]; intros s; simpl; [reflexivity |].
  destruct (f x) as [y | e]; simpl; [| reflexivity].
  rewrite IH. destruct (traverse f l); reflexivity.
Qed.

Lemma traverse_length {A B : Type} (f : A -> result B) (l : list A)
  (ys : list B) :
  traverse f l = Ok ys -> List.length ys = List.length l.
Proof.
  revert ys; induction l as [| x l IH]; intros ys; simpl.
  - intros H; injection H as <-; reflexivity.
  - destruct (f x) as [y | e]; simpl; [| discriminate].
    destruct (traverse f l) as [ys' | e]; simpl; [| discriminate].
    intros H; injection H as <-; simpl; f_equal; apply IH; reflexivity.
Qed.

Lemma traverse_Forall2 {A B : Type} (f : A -> result B) (l : list A)
  (ys : list B) :
  traverse f l = Ok ys <-> Forall2 (fun x y => f x = Ok y) l ys.
Proof.
  revert ys; induction l as [| x l IH]; intros ys; simpl; split.
  - intros H; injection H as <-; constructor.
  - intros H; inversion H; reflexivity.
  - destruct (f x) as [y | e] eqn:E; simpl; [| discriminate].
    destruct (traverse f l) as [ys' | e]; simpl; [| discriminate].
    intros H; injection H as <-. constructor; [exact E | apply IH; reflexivity].
  - intros H; inversion H as [| x' y l' ys' Hx Hl]; subst.
    rewrite Hx; simpl. apply IH in Hl. rewrite Hl. reflexivity.
Qed.

(** ** Association lists *)

Lemma append_to_keys {V : Type} (key : string) (x : V)
  (d : list (string * list V)) :
  map fst (append_to key x d) = map fst d.
Proof.
  induction d as [| [k v] d IH]; simpl; [reflexivity |].
  destruct (String.eqb k key); simpl; [reflexivity | f_equal; exact IH].
Qed.

Lemma lookup_append_to_same {V : Type} (key : string) (x : V)
  (d : list (string * list V)) :
  In key (map fst d) ->
  lookup_default key (append_to key x d) [] = (lookup_default key d [] ++ [x])%list.
Proof.
  induction d as [| [k v] d IH]; simpl; [intros [] |].
  intros H. destruct (String.eqb k key) eqn:E; simpl; rewrite E.
  - reflexivity.
  - apply IH. destruct H as [H | H]; [| exact H].
    subst k. rewrite String.eqb_refl in E. discriminate.
Qed.

Lemma lookup_append_to_other {V : Type} (key key' : string) (x : V)
  (d : list (string * list V)) :
  key' <> key ->
  lookup_default key' (append_to key x d) [] = lookup_default key' d [].
Proof.
  intros Hne. induction d as [| [k v] d IH]; simpl; [reflexivity |].
  destruct (String.eqb k key) eqn:E; simpl.
  - apply String.eqb_eq in E. subst k.
    destruct (String.eqb key key') eqn:E'; [| reflexivity].
    apply String.eqb_eq in E'. congruence.
  - destruct (String.eqb k key'); [reflexivity | exact IH].
Qed.

Lemma lookup_not_in {V : Type} (key : string) (d : list (string * V))
  (default : V) :
  ~ In key (map fst d) -> lookup_default key d default = default.
Proof.
  induction d as [| [k v] d IH]; simpl; [reflexivity |].
  intros H. destruct (String.eqb k key) eqn:E.
  - apply String.eqb_eq in E. tauto.
  - apply IH. tauto.
Qed.

Lemma lookup_in {V : Type} (key : string) (v : V) (d : list (string * V))
  (default : V) :
  NoDup (map fst d) -> In (key, v) d -> lookup_default key d default = v.
Proof.
  induction d as [| [k w] d IH]; simpl; [intros _ [] |].
  intros Hnd [H | H].
  - injection H as -> ->. rewrite String.eqb_refl. reflexivity.
  - inversion Hnd as [| ? ? Hk Hd]; subst.
    destruct (String.eqb k key) eqn:E.
    + apply String.eqb_eq in E. subst k.
      exfalso. apply Hk. apply (in_map fst) in H. exact H.
    + apply IH; assumption.
Qed.

Lemma filter_keys_NoDup {V : Type} (p : string * V -> bool)
  (d : list (string * V)) :
  NoDup (map fst d) -> NoDup (map fst (filter p d)).
Proof.
  induction d as [| kv d IH]; simpl; [intros H; exact H |].
  intros H. inversion H as [| ? ? Hk Hd]; subst.
  destruct (p kv); simpl; [| apply IH; exact Hd].
  constructor; [| apply IH; exact Hd].
  intros Hin. apply Hk. apply in_map_iff in Hin.
  destruct Hin as [y [Hy Hin]]. apply filter_In in Hin.
  apply in_map_iff. exists y. tauto.
Qed.

(** Dropping the empty lists does not change what a key holds. *)
Lemma lookup_filter_nonempty {V : Type} (key : string)
  (d : list (string * list V)) :
  NoDup (map fst d) ->
  lookup_default key (filter (fun kv => nonempty (snd kv)) d) []
  = lookup_default key d [].
Proof.
  induction d as [| [k v] d IH]; simpl; [reflexivity |].
  intros H. inversion H as [| ? ? Hk Hd]; subst.
  destruct v as [| x v]; simpl.
  - destruct (String.eqb k key) eqn:E; [| apply IH; exact Hd].
    apply String.eqb_eq in E. subst k.
    apply lookup_not_in. intros Hin. apply Hk.
    apply in_map_iff in Hin. destruct Hin as [y [Hy Hin]].
    apply filter_In in Hin. apply in_map_iff. exists y. tauto.
  - destruct (String.eqb k key); [reflexivity | apply IH; exact Hd].
Qed.

Lemma lookup_count_values (key : string) {V : Type}
  (d : list (string * list V)) :
  lookup_default key (count_values d) 0
  = Z.of_nat (List.length (lookup_default key d [])).
Proof.
  induction d as [| [k v] d IH]; simpl; [reflexivity |].
  destruct (String.eqb k key); [reflexivity | exact IH].
Qed.

(** ** The classifier *)

Lemma categorize_first_match (msg ty : string) :
  FailureReportEnhancer.categorize msg ty = first_match priority_rules msg ty.
Proof.
  unfold FailureReportEnhancer.categorize, priority_rules; simpl.
  repeat match goal with
         | |- context [if ?b then _ else _] => destruct b; try reflexivity
         end.
Qed.

Lemma category_of_priority (failure : Failure) :
  FailureReportEnhancer.category_of failure = priority_category failure.
Proof. apply categorize_first_match. Qed.

Lemma categorize_in_keys (msg ty : string) :
  In (FailureReportEnhancer.categorize msg ty) category_keys.
Proof.
  unfold FailureReportEnhancer.categorize, category_keys.
  repeat match goal with
         | |- context [if ?b then _ else _] => destruct b
         end; simpl; tauto.
Qed.

Lemma category_keys_NoDup : NoDup category_keys.
Proof.
  unfold category_keys.
  repeat (constructor; [simpl; intros H; repeat destruct H as [H | H];
                        try discriminate H; exact H |]).
  constructor.
Qed.

Lemma one_key_matches (key : string) (keys : list string) :
  NoDup keys -> In key keys ->
  list_sum (map (fun k => if String.eqb key k then 1%nat else 0%nat) keys) = 1%nat.
Proof.
  induction keys as [| k keys IH]; simpl; [intros _ [] |].
  intros Hnd Hin. inversion Hnd as [| ? ? Hk Hd]; subst.
  destruct (String.eqb key k) eqn:E.
  - apply String.eqb_eq in E. subst k. f_equal.
    clear IH Hnd Hin Hd. induction keys as [| k' keys IH]; simpl; [reflexivity |].
    destruct (String.eqb key k') eqn:E'.
    + apply String.eqb_eq in E'. subst k'. exfalso. apply Hk. left. reflexivity.
    + apply IH. intros H. apply Hk. right. exact H.
  - destruct Hin as [H | H].
    + subst k. rewrite String.eqb_refl in E. discriminate.
    + apply IH; assumption.
Qed.

(** Elements that each carry one key of [keys] are split by key. *)
Lemma partition_by_key {A : Type} (key_of : A -> string) (keys : list string)
  (l : list A) :
  NoDup keys -> (forall x, In x l -> In (key_of x) keys) ->
  list_sum
    (map (fun k => List.length (filter (fun x => String.eqb (key_of x) k) l)) keys)
  = List.length l.
Proof.
  intros Hnd. induction l as [| x l IH]; intros Hin; simpl.
  - clear. induction keys as [| k keys IHk]; simpl; [reflexivity | exact IHk].
  - assert (Hsplit :
      list_sum
        (map (fun k =>
                List.length
                  (if String.eqb (key_of x) k
                   then x :: filter (fun x => String.eqb (key_of x) k) l
                   else filter (fun x => String.eqb (key_of x) k) l)) keys)
      = (list_sum
           (map (fun k => if String.eqb (key_of x) k then 1%nat else 0%nat) keys)
         + list_sum
             (map (fun k =>
                     List.length (filter (fun x => String.eqb (key_of x) k) l))
                  keys))%nat).
    { clear. induction keys as [| k keys IHk]; simpl; [reflexivity |].
      rewrite IHk. destruct (String.eqb (key_of x) k); simpl; lia. }
    rewrite Hsplit, IH by (intros y Hy; apply Hin; right; exact Hy).
    rewrite one_key_matches; [reflexivity | exact Hnd |].
    apply Hin. left. reflexivity.
Qed.

(** What the classifying loop leaves under each key. *)
Lemma fold_append_lookup (pairs : list (Feature * Failure * FailureInfo))
  (s : list (string * list FailureInfo)) (key : string) :
  map fst s = category_keys ->
  let s' :=
    fold_left
      (fun s xy =>
         append_to (FailureReportEnhancer.category_of (snd (fst xy))) (snd xy) s)
      pairs s in
  map fst s' = category_keys /\
  lookup_default key s' []
  = (lookup_default key s []
     ++ map snd
          (filter (fun xy => String.eqb (priority_category (snd (fst xy))) key)
                  pairs))%list.
Proof.
  revert s; induction pairs as [| [[fe fa] info] pairs IH]; intros s Hs;
    cbn [fold_left filter map fst snd].
  - split; [exact Hs | rewrite app_nil_r; reflexivity].
  - specialize (IH (append_to (FailureReportEnhancer.category_of fa) info s)).
    rewrite append_to_keys in IH. specialize (IH Hs).
    cbn [fold_left filter map fst snd] in IH.
    destruct IH as [IH1 IH2]. split; [exact IH1 |].
    rewrite IH2. rewrite <- (category_of_priority fa).
    destruct (String.eqb (FailureReportEnhancer.category_of fa) key) eqn:E;
      cbn [map snd].
    + apply String.eqb_eq in E. subst key.
      rewrite lookup_append_to_same.
      * rewrite <- app_assoc. reflexivity.
      * rewrite Hs. apply categorize_in_keys.
    + rewrite lookup_append_to_other; [reflexivity |].
      intros Heq. subst key. rewrite String.eqb_refl in E. discriminate.
Qed.

(** The result of [_add_failure_patterns], field by field. *)
Lemma add_failure_patterns_inv (r r' : Report) :
  FailureReportEnhancer._add_failure_patterns r = Ok r' ->
  exists infos,
    traverse (fun p => FailureReportEnhancer.failure_info (fst p) (snd p))
             (all_failures r) = Ok infos /\
    let folded :=
      fold_left
        (fun s xy =>
           append_to (FailureReportEnhancer.category_of (snd (fst xy))) (snd xy) s)
        (combine (all_failures r) infos) FailureReportEnhancer.empty_patterns in
    let patterns := filter (fun kv => nonempty (snd kv)) folded in
    r' = set_failurePatternSummary (set_failurePatterns r patterns)
           (count_values patterns).
Proof.
  unfold FailureReportEnhancer._add_failure_patterns.
  rewrite for_each_failure_flat.
  unfold FailureReportEnhancer.classify_failure.
  rewrite (for_each_traverse
             (fun p => FailureReportEnhancer.failure_info (fst p) (snd p))
             (fun s p info =>
                append_to (FailureReportEnhancer.category_of (snd p)) info s)).
  destruct (traverse _ (all_failures r)) as [infos | e]; simpl; [| discriminate].
  intros H. injection H as <-. exists infos. split; reflexivity.
Qed.

Lemma folded_patterns_keys (pairs : list (Feature * Failure * FailureInfo)) :
  map fst
    (fold_left
       (fun s xy =>
          append_to (FailureReportEnhancer.category_of (snd (fst xy))) (snd xy) s)
       pairs FailureReportEnhancer.empty_patterns)
  = category_keys.
Proof.
  apply (fold_append_lookup pairs FailureReportEnhancer.empty_patterns "").
  reflexivity.
Qed.

(** C1: every failure is filed under exactly one category, the first row
    of the priority table (timeout, assertion, connection, authentication,
    data validation, null pointer, else other) that matches its lower-cased
    message and type; a message with both "timeout" and "invalid" is a
    timeout failure, not a data-validation failure. *)
Theorem classifier_first_match_wins (r r' : Report) :
  FailureReportEnhancer._add_failure_patterns r = Ok r' ->
  filed_by_priority r r' /\
  (forall p, In p (all_failures r) ->
     FailureReportEnhancer.category_of (snd p) = priority_category (snd p) /\
     In (priority_category (snd p)) category_keys) /\
  (forall failure,
     contains "timeout" (lower (get_or_empty (errorMessage failure))) = true ->
     contains "invalid" (lower (get_or_empty (errorMessage failure))) = true ->
     FailureReportEnhancer.category_of failure = "timeout_failures" /\
     FailureReportEnhancer.category_of failure <> "data_validation_failures").
Proof.
  intros H. apply add_failure_patterns_inv in H.
  destruct H as [infos [Hinfos Hr']]. cbv zeta in Hr'.
  assert (Hkey : forall key,
             lookup_default key
               (filter (fun kv : string * list FailureInfo => nonempty (snd kv))
                  (fold_left
                     (fun s xy =>
                        append_to
                          (FailureReportEnhancer.category_of (snd (fst xy)))
                          (snd xy) s)
                     (combine (all_failures r) infos)
                     FailureReportEnhancer.empty_patterns)) []
             = map snd
                 (filter
                    (fun pi => String.eqb (priority_category (snd (fst pi))) key)
                    (combine (all_failures r) infos))).
  { intros key. rewrite lookup_filter_nonempty.
    - destruct (fold_append_lookup (combine (all_failures r) infos)
                  FailureReportEnhancer.empty_patterns key eq_refl) as [_ Hl].
      rewrite Hl.
      assert (He : lookup_default key FailureReportEnhancer.empty_patterns []
                   = @nil FailureInfo).
      { unfold FailureReportEnhancer.empty_patterns; simpl.
        repeat match goal with
               | |- context [if ?b then _ else _] => destruct b; try reflexivity
               end. }
      rewrite He. reflexivity.
    - rewrite folded_patterns_keys. apply category_keys_NoDup. }
  split; [| split].
  - eexists. exists infos. subst r'. split; [reflexivity |].
    split; [apply traverse_Forall2; exact Hinfos |].
    split; [exact Hkey |].
    rewrite (map_ext _ _ (fun key => f_equal (@List.length _) (Hkey key))).
    rewrite (map_ext _
               (fun key =>
                  List.length
                    (filter
                       (fun pi => String.eqb (priority_category (snd (fst pi))) key)
                       (combine (all_failures r) infos))))
      by (intros key; apply length_map).
    rewrite (partition_by_key (fun pi => priority_category (snd (fst pi)))).
    + rewrite length_combine. apply traverse_length in Hinfos. lia.
    + apply category_keys_NoDup.
    + intros x _. unfold priority_category.
      rewrite <- categorize_first_match. apply categorize_in_keys.
  - intros p _. split; [apply category_of_priority |].
    unfold priority_category.
    rewrite <- categorize_first_match. apply categorize_in_keys.
  - intros failure Ht _.
    assert (Hc : FailureReportEnhancer.category_of failure = "timeout_failures").
    { unfold FailureReportEnhancer.category_of, FailureReportEnhancer.categorize.
      rewrite Ht. reflexivity. }
    rewrite Hc. split; [reflexivity | discriminate].
Qed.

Lemma classifier_first_match_wins_witness :
  FailureReportEnhancer._add_failure_patterns sample_report = Ok sample_patterned
  /\ filed_by_priority sample_report sample_patterned.
Proof.
  split; [reflexivity |].
  apply (classifier_first_match_wins sample_report sample_patterned).
  reflexivity.
Defined.

(** C6: the produced [failurePatterns] has no empty list, and for every
    category present [failurePatternSummary] stores the length of its
    list. *)
Theorem patterns_nonempty_and_counted (r r' : Report) :
  FailureReportEnhancer._add_failure_patterns r = Ok r' ->
  nonempty_and_counted r'.
Proof.
  intros H. apply add_failure_patterns_inv in H.
  destruct H as [infos [_ Hr']]. cbv zeta in Hr'.
  set (patterns :=
         filter (fun kv : string * list FailureInfo => nonempty (snd kv))
           (fold_left
              (fun s xy =>
                 append_to (FailureReportEnhancer.category_of (snd (fst xy)))
                   (snd xy) s)
              (combine (all_failures r) infos)
              FailureReportEnhancer.empty_patterns)) in *.
  assert (Hnd : NoDup (map fst patterns)).
  { apply filter_keys_NoDup. rewrite folded_patterns_keys.
    apply category_keys_NoDup. }
  exists patterns, (count_values patterns). subst r'.
  split; [reflexivity |]. split; [reflexivity |].
  split; [| split].
  - intros key l Hin. apply filter_In in Hin. destruct Hin as [_ Hne].
    destruct l; [discriminate | discriminate].
  - unfold count_values. rewrite map_map. reflexivity.
  - intros key l Hin. split.
    + unfold count_values.
      apply (in_map (fun kv => (fst kv, Z.of_nat (List.length (snd kv))))) in Hin.
      exact Hin.
    + rewrite lookup_count_values. rewrite (lookup_in key l); auto.
Qed.

Lemma patterns_nonempty_and_counted_witness :
  FailureReportEnhancer._add_failure_patterns sample_report = Ok sample_patterned
  /\ nonempty_and_counted sample_patterned.
Proof.
  split; [reflexivity |].
  apply (patterns_nonempty_and_counted sample_report sample_patterned).
  reflexivity.
Defined.

(** ** The retry advisor *)

Lemma fold_left_snoc {A B : Type} (l : list A) (ys s : list B) :
  List.length ys = List.length l ->
  fold_left (fun s xy => (s ++ [snd xy])%list) (combine l ys) s = (s ++ ys)%list.
Proof.
  revert ys s; induction l as [| x l IH]; intros [| y ys] s; simpl;
    try discriminate; intros H.
  - rewrite app_nil_r. reflexivity.
  - rewrite IH by lia. rewrite <- app_assoc. reflexivity.
Qed.

Lemma is_transient_keywords (failure : Failure) :
  FailureReportEnhancer.is_transient failure
  = mentions_transient_keyword (lower (get_or_empty (errorMessage failure))).
Proof.
  unfold FailureReportEnhancer.is_transient, mentions_transient_keyword; simpl.
  rewrite orb_false_r. rewrite !orb_assoc. reflexivity.
Qed.

Lemma add_retry_suggestions_inv (r r' : Report) :
  FailureReportEnhancer._add_retry_suggestions r = Ok r' ->
  exists suggestions,
    traverse (fun p => FailureReportEnhancer.retry_suggestion (fst p) (snd p))
             (all_failures r) = Ok suggestions /\
    r' = set_retrySuggestions r suggestions.
Proof.
  unfold FailureReportEnhancer._add_retry_suggestions.
  rewrite for_each_failure_flat.
  rewrite (for_each_traverse
             (fun p => FailureReportEnhancer.retry_suggestion (fst p) (snd p))
             (fun s _ c => (s ++ [c])%list)).
  destruct (traverse _ (all_failures r)) as [cs | e] eqn:E; simpl;
    [| discriminate].
  rewrite fold_left_snoc by (eapply traverse_length; exact E).
  intros H. injection H as <-. exists cs. split; reflexivity.
Qed.

(** C5: the retry advisor emits one record per failure in traversal order;
    the verdict is true exactly when the lower-cased message contains
    timeout, connection, temporarily unavailable, service unavailable,
    network, 503 or 504, with the matching fixed reason.  "Connection timed
    out after 503" is retryable, "Expected true but got false" is not. *)
Theorem retry_advisor_verdicts (r r' : Report) :
  FailureReportEnhancer._add_retry_suggestions r = Ok r' ->
  retry_verdicts r r' /\
  (forall feature failure c,
     errorMessage failure = Val "Connection timed out after 503" ->
     FailureReportEnhancer.retry_suggestion feature failure = Ok c ->
     shouldRetry c = true /\ reason c = "Transient failure detected") /\
  (forall feature failure c,
     errorMessage failure = Val "Expected true but got false" ->
     FailureReportEnhancer.retry_suggestion feature failure = Ok c ->
     shouldRetry c = false /\ reason c = "Deterministic failure - requires fix").
Proof.
  assert (Hone : forall feature failure c,
             FailureReportEnhancer.retry_suggestion feature failure = Ok c ->
             featureName feature = Some (rs_feature c) /\
             scenarioName failure = Some (rs_scenario c) /\
             line failure = Some (rs_line c) /\
             shouldRetry c = FailureReportEnhancer.is_transient failure /\
             reason c = (if shouldRetry c then "Transient failure detected"
                         else "Deterministic failure - requires fix")).
  { intros feature failure c.
    unfold FailureReportEnhancer.retry_suggestion.
    destruct (featureName feature); simpl; [| discriminate].
    destruct (scenarioName failure); simpl; [| discriminate].
    destruct (line failure); simpl; [| discriminate].
    intros H. injection H as <-. simpl. repeat split; reflexivity. }
  intros H. apply add_retry_suggestions_inv in H.
  destruct H as [cs [Hcs ->]].
  split; [| split].
  - exists cs. split; [reflexivity |].
    apply traverse_Forall2 in Hcs.
    induction Hcs as [| p c l cs' Hp Hl IH]; constructor; [| exact IH].
    apply Hone in Hp. rewrite <- is_transient_keywords. exact Hp.
  - intros feature failure c Hmsg Hc. apply Hone in Hc.
    destruct Hc as [_ [_ [_ [Hs Hr]]]].
    assert (Ht : FailureReportEnhancer.is_transient failure = true)
      by (unfold FailureReportEnhancer.is_transient; rewrite Hmsg; reflexivity).
    rewrite Ht in Hs. rewrite Hs in Hr. split; assumption.
  - intros feature failure c Hmsg Hc. apply Hone in Hc.
    destruct Hc as [_ [_ [_ [Hs Hr]]]].
    assert (Ht : FailureReportEnhancer.is_transient failure = false)
      by (unfold FailureReportEnhancer.is_transient; rewrite Hmsg; reflexivity).
    rewrite Ht in Hs. rewrite Hs in Hr. split; assumption.
Qed.

Lemma retry_advisor_verdicts_witness :
  FailureReportEnhancer._add_retry_suggestions sample_patterned
  = Ok (set_retrySuggestions sample_patterned
          (from_option (retrySuggestions sample_enhanced) []))
  /\ retry_verdicts sample_patterned
       (set_retrySuggestions sample_patterned
          (from_option (retrySuggestions sample_enhanced) [])).
Proof.
  split; [reflexivity |].
  apply (retry_advisor_verdicts sample_patterned
           (set_retrySuggestions sample_patterned
              (from_option (retrySuggestions sample_enhanced) []))).
  reflexivity.
Defined.

(** ** The passes of [enhance] *)

Lemma for_each_failure_ext {S : Type}
  (body : Feature -> S -> Failure -> result S) (a b : Report) (s : S) :
  features a = features b ->
  FailureReportEnhancer.for_each_failure body a s
  = FailureReportEnhancer.for_each_failure body b s.
Proof.
  intros H. unfold FailureReportEnhancer.for_each_failure. rewrite H. reflexivity.
Qed.

Lemma collect_insights_ext (a b : Report) :
  summary a = summary b ->
  failurePatternSummary a = failurePatternSummary b ->
  FailureReportEnhancer.collect_insights a
  = FailureReportEnhancer.collect_insights b.
Proof.
  intros Hs Hp.
  unfold FailureReportEnhancer.collect_insights,
    FailureReportEnhancer.summary_count.
  rewrite Hs, Hp. reflexivity.
Qed.

(** Each pass writes its own keys and leaves the others alone. *)

Lemma add_failure_patterns_form (r r' : Report) :
  FailureReportEnhancer._add_failure_patterns r = Ok r' ->
  exists patterns,
    r' = set_failurePatternSummary (set_failurePatterns r patterns)
           (count_values patterns).
Proof.
  intros H. apply add_failure_patterns_inv in H.
  destruct H as [infos [_ H]]. eexists. exact H.
Qed.

Lemma categorize_errors_form (r r' : Report) :
  FailureReportEnhancer._categorize_errors r = Ok r' ->
  exists error_categories,
    r' = set_errorCategorySummary (set_errorCategories r error_categories)
           (count_values error_categories).
Proof.
  unfold FailureReportEnhancer._categorize_errors. intros H.
  apply bind_ok in H. destruct H as [cats [_ H]].
  injection H as <-. exists cats. reflexivity.
Qed.

Lemma add_actionable_insights_form (r r' : Report) :
  FailureReportEnhancer._add_actionable_insights r = Ok r' ->
  exists insights,
    FailureReportEnhancer.collect_insights r = Ok insights /\
    r' = set_actionableInsights r insights.
Proof.
  unfold FailureReportEnhancer._add_actionable_insights. intros H.
  apply bind_ok in H. destruct H as [ins [Hc H]].
  injection H as <-. exists ins. split; [exact Hc | reflexivity].
Qed.

Lemma add_retry_suggestions_form (r r' : Report) :
  FailureReportEnhancer._add_retry_suggestions r = Ok r' ->
  exists suggestions, r' = set_retrySuggestions r suggestions.
Proof.
  intros H. apply add_retry_suggestions_inv in H.
  destruct H as [cs [_ H]]. exists cs. exact H.
Qed.

(** A pass reads only the features, the summary and, for the insights, the
    pattern counts. *)

Lemma add_failure_patterns_ext (a b : Report)
  (patterns : list (string * list FailureInfo)) :
  features a = features b ->
  FailureReportEnhancer._add_failure_patterns a
  = Ok (set_failurePatternSummary (set_failurePatterns a patterns)
          (count_values patterns)) ->
  FailureReportEnhancer._add_failure_patterns b
  = Ok (set_failurePatternSummary (set_failurePatterns b patterns)
          (count_values patterns)).
Proof.
  intros Hf. unfold FailureReportEnhancer._add_failure_patterns.
  rewrite (for_each_failure_ext _ a b _ Hf).
  destruct (FailureReportEnhancer.for_each_failure _ b _) as [s | e]; simpl;
    [| discriminate].
  intros H.
  apply (f_equal (fun m => failurePatterns (result_or m b))) in H.
  simpl in H. injection H as H. rewrite H. reflexivity.
Qed.

Lemma categorize_errors_ext (a b : Report)
  (cats : list (option string * list Occurrence)) :
  features a = features b ->
  FailureReportEnhancer._categorize_errors a
  = Ok (set_errorCategorySummary (set_errorCategories a cats)
          (count_values cats)) ->
  FailureReportEnhancer._categorize_errors b
  = Ok (set_errorCategorySummary (set_errorCategories b cats)
          (count_values cats)).
Proof.
  intros Hf. unfold FailureReportEnhancer._categorize_errors.
  rewrite (for_each_failure_ext _ a b _ Hf).
  destruct (FailureReportEnhancer.for_each_failure _ b _) as [s | e]; simpl;
    [| discriminate].
  intros H.
  apply (f_equal (fun m => errorCategories (result_or m b))) in H.
  simpl in H. injection H as H. rewrite H. reflexivity.
Qed.

Lemma add_retry_suggestions_ext (a b : Report)
  (suggestions : list RetrySuggestion) :
  features a = features b ->
  FailureReportEnhancer._add_retry_suggestions a
  = Ok (set_retrySuggestions a suggestions) ->
  FailureReportEnhancer._add_retry_suggestions b
  = Ok (set_retrySuggestions b suggestions).
Proof.
  intros Hf. unfold FailureReportEnhancer._add_retry_suggestions.
  rewrite (for_each_failure_ext _ a b _ Hf).
  destruct (FailureReportEnhancer.for_each_failure _ b _) as [s | e]; simpl;
    [| discriminate].
  intros H.
  apply (f_equal (fun m => retrySuggestions (result_or m b))) in H.
  simpl in H. injection H as H. rewrite H. reflexivity.
Qed.

(** The run of [enhance], pass by pass. *)
Lemma enhance_inv (self : FailureReportEnhancer.t)
  (w : FailureReportEnhancer.World) (r r' : Report) :
  FailureReportEnhancer.enhance self w r = Ok r' ->
  exists patterns cats insights suggestions,
    let r0 :=
      set_enhancement r
        {| enhancedAt := FailureReportEnhancer.utcnow_isoformat w;
           version := "1.0.0" |} in
    let r1 :=
      set_failurePatternSummary (set_failurePatterns r0 patterns)
        (count_values patterns) in
    let r2 :=
      set_errorCategorySummary (set_errorCategories r1 cats)
        (count_values cats) in
    let r3 := set_actionableInsights r2 insights in
    let r4 := set_retrySuggestions r3 suggestions in
    FailureReportEnhancer._add_failure_patterns r0 = Ok r1 /\
    FailureReportEnhancer._categorize_errors r1 = Ok r2 /\
    FailureReportEnhancer.collect_insights r2 = Ok insights /\
    FailureReportEnhancer._add_retry_suggestions r3 = Ok r4 /\
    r' = match FailureReportEnhancer.serenity_available self w with
         | Some path => FailureReportEnhancer._link_serenity_artifacts path r4
         | None => r4
         end.
Proof.
  unfold FailureReportEnhancer.enhance. intros H.
  apply bind_ok in H. destruct H as [a1 [H1 H]].
  apply bind_ok in H. destruct H as [a2 [H2 H]].
  apply bind_ok in H. destruct H as [a3 [H3 H]].
  apply bind_ok in H. destruct H as [a4 [H4 H]].
  injection H as <-.
  destruct (add_failure_patterns_form _ _ H1) as [patterns E1]. subst a1.
  destruct (categorize_errors_form _ _ H2) as [cats E2]. subst a2.
  destruct (add_actionable_insights_form _ _ H3) as [ins [Hc E3]]. subst a3.
  destruct (add_retry_suggestions_form _ _ H4) as [cs E4]. subst a4.
  exists patterns, cats, ins, cs. cbv zeta. repeat split; assumption.
Qed.

(** ** The insight generator *)

(** C3: when the summary records 0 failed scenarios (or no count at all),
    the emitted [actionableInsights] is the single SUCCESS/INFO insight, for
    the pass itself and for every run of [enhance] that returns. *)
Theorem all_passed_single_success (r : Report) :
  FailureReportEnhancer.summary_count r failedScenarios = 0 ->
  type FailureReportEnhancer.success_insight = Some "SUCCESS" /\
  severity FailureReportEnhancer.success_insight = Some "INFO" /\
  FailureReportEnhancer._add_actionable_insights r
  = Ok (set_actionableInsights r [FailureReportEnhancer.success_insight]) /\
  (forall self w r',
      FailureReportEnhancer.enhance self w r = Ok r' ->
      actionableInsights r' = Some [FailureReportEnhancer.success_insight]).
Proof.
  intros Hz. split; [reflexivity |]. split; [reflexivity |].
  assert (Hc : forall a, summary a = summary r ->
               FailureReportEnhancer.collect_insights a
               = Ok [FailureReportEnhancer.success_insight]).
  { intros a Ha. unfold FailureReportEnhancer.collect_insights.
    unfold FailureReportEnhancer.summary_count in *. rewrite Ha, Hz.
    reflexivity. }
  split.
  - unfold FailureReportEnhancer._add_actionable_insights.
    rewrite Hc by reflexivity. reflexivity.
  - intros self w r' H. apply enhance_inv in H.
    destruct H as [patterns [cats [ins [cs H]]]]. cbv zeta in H.
    destruct H as [_ [_ [Hi [_ ->]]]].
    rewrite Hc in Hi by reflexivity. injection Hi as <-.
    destruct (FailureReportEnhancer.serenity_available self w); reflexivity.
Qed.

Lemma all_passed_single_success_witness :
  FailureReportEnhancer.summary_count passing_report failedScenarios = 0 /\
  FailureReportEnhancer._add_actionable_insights passing_report
  = Ok (set_actionableInsights passing_report
          [FailureReportEnhancer.success_insight]).
Proof.
  split; [reflexivity |].
  apply (all_passed_single_success passing_report). reflexivity.
Defined.

Lemma rate_insights_shape (failed_count total : Z) (rate : list Insight) :
  FailureReportEnhancer.rate_insights failed_count total = Ok rate ->
  (List.length rate <= 1)%nat /\
  (forall i, In i rate ->
     (type i = Some "HIGH_FAILURE_RATE" /\ severity i = Some "CRITICAL") \/
     (type i = Some "MODERATE_FAILURE_RATE" /\ severity i = Some "HIGH")).
Proof.
  unfold FailureReportEnhancer.rate_insights.
  destruct (0 <? total).
  - destruct (F64.true_div failed_count total) as [q | e]; simpl;
      [| discriminate].
    destruct (F64.gt_int (F64.mul_int q 100) 50);
      [| destruct (F64.gt_int (F64.mul_int q 100) 20)];
      intros H; injection H as <-; simpl; split; try lia;
      intros i Hi; try contradiction; destruct Hi as [<- | []]; simpl; tauto.
  - intros H; injection H as <-; simpl. split; [lia | intros i []].
Qed.

(** C4: with a non-zero failed count, the pattern insights are added
    independently of each other from [failurePatternSummary] (timeout when
    its count exceeds 2; authentication, connection and null pointer when
    their count is positive), each with its fixed severity and
    recommendation, after the rate insight if there is one and in the order
    timeout, authentication, connection, null pointer. *)
Theorem pattern_insights_additive (r r' : Report) :
  FailureReportEnhancer.summary_count r failedScenarios <> 0 ->
  FailureReportEnhancer._add_actionable_insights r = Ok r' ->
  let count key := lookup_default key (from_option (failurePatternSummary r) []) 0 in
  exists rate,
    FailureReportEnhancer.rate_insights
      (FailureReportEnhancer.summary_count r failedScenarios)
      (FailureReportEnhancer.summary_count r totalScenarios) = Ok rate /\
    (List.length rate <= 1)%nat /\
    (forall i, In i rate ->
       (type i = Some "HIGH_FAILURE_RATE" /\ severity i = Some "CRITICAL") \/
       (type i = Some "MODERATE_FAILURE_RATE" /\ severity i = Some "HIGH")) /\
    actionableInsights r'
    = Some
        (rate
         ++ when (2 <? count "timeout_failures")
              {| type := Some "TIMEOUT_PATTERN"; severity := Some "HIGH";
                 message :=
                   Some (str_of_int (count "timeout_failures")
                           ++ " timeout failures detected")%string;
                 recommendation :=
                   Some "Check application response times, database performance, or increase timeout thresholds." |}
         ++ when (0 <? count "authentication_failures")
              {| type := Some "AUTH_PATTERN"; severity := Some "HIGH";
                 message :=
                   Some (str_of_int (count "authentication_failures")
                           ++ " authentication failures detected")%string;
                 recommendation :=
                   Some "Verify test credentials and authentication endpoints are working correctly." |}
         ++ when (0 <? count "connection_failures")
              {| type := Some "CONNECTION_PATTERN"; severity := Some "CRITICAL";
                 message :=
                   Some (str_of_int (count "connection_failures")
                           ++ " connection failures detected")%string;
                 recommendation :=
                   Some "Check network connectivity, service availability, and firewall rules." |}
         ++ when (0 <? count "null_pointer_failures")
              {| type := Some "NPE_PATTERN"; severity := Some "MEDIUM";
                 message :=
                   Some (str_of_int (count "null_pointer_failures")
                           ++ " null pointer exceptions detected")%string;
                 recommendation :=
                   Some "Review test data setup and null handling in step definitions." |})%list.
Proof.
  intros Hnz H count.
  apply add_actionable_insights_form in H. destruct H as [ins [Hc ->]].
  unfold FailureReportEnhancer.collect_insights in Hc.
  apply Z.eqb_neq in Hnz. rewrite Hnz in Hc.
  apply bind_ok in Hc. destruct Hc as [rate [Hrate Hc]].
  injection Hc as <-. exists rate. split; [exact Hrate |].
  destruct (rate_insights_shape _ _ _ Hrate) as [Hlen Hty].
  split; [exact Hlen |]. split; [exact Hty |]. reflexivity.
Qed.

Lemma pattern_insights_additive_witness :
  FailureReportEnhancer.summary_count sample_patterned failedScenarios <> 0 /\
  FailureReportEnhancer._add_actionable_insights sample_patterned
  = Ok (set_actionableInsights sample_patterned
          (from_option (actionableInsights sample_enhanced) [])) /\
  exists rate,
    FailureReportEnhancer.rate_insights 6 10 = Ok rate /\
    (List.length rate <= 1)%nat.
Proof.
  assert (Hnz : FailureReportEnhancer.summary_count sample_patterned
                  failedScenarios <> 0) by discriminate.
  assert (Hrun : FailureReportEnhancer._add_actionable_insights sample_patterned
                 = Ok (set_actionableInsights sample_patterned
                         (from_option (actionableInsights sample_enhanced) [])))
    by (vm_compute; reflexivity).
  split; [exact Hnz |]. split; [exact Hrun |].
  destruct (pattern_insights_additive sample_patterned _ Hnz Hrun)
    as [rate [Hrate [Hlen _]]].
  exists rate. split; [exact Hrate | exact Hlen].
Defined.

(** ** Enhancing twice *)

(** C7: enhancing an already enhanced report succeeds and reproduces
    [failurePatterns], [failurePatternSummary], [errorCategories],
    [errorCategorySummary], [actionableInsights] and [retrySuggestions];
    the second report is the first with the new enhancement timestamp (the
    Serenity directory being there or not as before). *)
Theorem enhance_twice_stable (self : FailureReportEnhancer.t)
  (w1 w2 : FailureReportEnhancer.World) (r r1 : Report) :
  FailureReportEnhancer.enhance self w1 r = Ok r1 ->
  exists r2,
    FailureReportEnhancer.enhance self w2 r1 = Ok r2 /\
    same_classification r2 r1 /\
    enhancement r2
    = Some {| enhancedAt := FailureReportEnhancer.utcnow_isoformat w2;
              version := "1.0.0" |} /\
    (FailureReportEnhancer.serenity_available self w2
     = FailureReportEnhancer.serenity_available self w1 ->
     r2 = set_enhancement r1
            {| enhancedAt := FailureReportEnhancer.utcnow_isoformat w2;
               version := "1.0.0" |}).
Proof.
  intros H. apply enhance_inv in H.
  destruct H as [patterns [cats [ins [cs H]]]]. cbv zeta in H.
  destruct H as [H1 [H2 [H3 [H4 Hr1]]]].
  set (e2 := {| enhancedAt := FailureReportEnhancer.utcnow_isoformat w2;
                version := "1.0.0" |}).
  assert (Hf : features r1 = features r)
    by (subst r1; destruct (FailureReportEnhancer.serenity_available self w1);
        reflexivity).
  assert (Hs : summary r1 = summary r)
    by (subst r1; destruct (FailureReportEnhancer.serenity_available self w1);
        reflexivity).
  match type of H1 with
  | _ ?a = _ =>
      pose proof (add_failure_patterns_ext a (set_enhancement r1 e2) patterns
                    (eq_sym Hf) H1) as G1
  end.
  match type of H2 with
  | _ ?a = _ =>
      pose proof (categorize_errors_ext a
                    (set_failurePatternSummary
                       (set_failurePatterns (set_enhancement r1 e2) patterns)
                       (count_values patterns)) cats (eq_sym Hf) H2) as G2
  end.
  match type of G2 with
  | _ = Ok ?b2 =>
      assert (G3 : FailureReportEnhancer.collect_insights b2 = Ok ins)
        by (rewrite <- H3; apply collect_insights_ext;
            [exact Hs | reflexivity]);
      match type of H4 with
      | _ ?a = _ =>
          pose proof (add_retry_suggestions_ext a
                        (set_actionableInsights b2 ins) cs (eq_sym Hf) H4) as G4
      end
  end.
  eexists. split.
  - unfold FailureReportEnhancer.enhance. fold e2.
    rewrite G1. cbn [bind]. rewrite G2. cbn [bind].
    unfold FailureReportEnhancer._add_actionable_insights.
    rewrite G3. cbn [bind]. rewrite G4. cbn [bind]. reflexivity.
  - subst r1.
    destruct (FailureReportEnhancer.serenity_available self w2) as [p2 |];
      destruct (FailureReportEnhancer.serenity_available self w1) as [p1 |];
      (split; [repeat split |]; split; [reflexivity |]);
      intros Heq; try discriminate Heq; try (injection Heq as ->); reflexivity.
Qed.

Lemma enhance_twice_stable_witness :
  FailureReportEnhancer.enhance sample_enhancer
    (world_at "2024-05-01T10:00:00.000000") sample_report = Ok sample_enhanced /\
  exists r2,
    FailureReportEnhancer.enhance sample_enhancer
      (world_at "2024-05-02T08:30:00.000000") sample_enhanced = Ok r2 /\
    same_classification r2 sample_enhanced.
Proof.
  assert (H : FailureReportEnhancer.enhance sample_enhancer
                (world_at "2024-05-01T10:00:00.000000") sample_report
              = Ok sample_enhanced) by (vm_compute; reflexivity).
  split; [exact H |].
  destruct (enhance_twice_stable sample_enhancer _
              (world_at "2024-05-02T08:30:00.000000") _ _ H)
    as [r2 [Hrun [Hsame _]]].
  exists r2. split; [exact Hrun | exact Hsame].
Defined.

(** ** Rounding is monotone *)

Lemma div_frac_mono (a1 b1 a2 b2 : Z) :
  0 < b1 -> 0 < b2 -> a1 * b2 <= a2 * b1 -> a1 / b1 <= a2 / b2.
Proof.
  intros Hb1 Hb2 H.
  apply Z.div_le_lower_bound; [exact Hb2 |].
  pose proof (Z.mul_div_le a1 b1 Hb1). nia.
Qed.

Lemma rne_bounds (a b : Z) :
  0 < b -> a / b <= F64.rne a b <= a / b + 1.
Proof.
  intros Hb. unfold F64.rne.
  destruct (2 * (a mod b) <? b); [lia |].
  destruct (b <? 2 * (a mod b)); [lia |].
  destruct (Z.even (a / b)); lia.
Qed.

Lemma rne_mono (a1 b1 a2 b2 : Z) :
  0 < b1 -> 0 < b2 -> a1 * b2 <= a2 * b1 -> F64.rne a1 b1 <= F64.rne a2 b2.
Proof.
  intros Hb1 Hb2 H.
  pose proof (div_frac_mono a1 b1 a2 b2 Hb1 Hb2 H) as Hq.
  pose proof (rne_bounds a1 b1 Hb1) as B1.
  pose proof (rne_bounds a2 b2 Hb2) as B2.
  destruct (Z.eq_dec (a1 / b1) (a2 / b2)) as [E | NE]; [| lia].
  pose proof (Z.div_mod a1 b1 ltac:(lia)) as D1.
  pose proof (Z.div_mod a2 b2 ltac:(lia)) as D2.
  pose proof (Z.mod_pos_bound a1 b1 Hb1) as M1.
  pose proof (Z.mod_pos_bound a2 b2 Hb2) as M2.
  assert (Hr : (a1 mod b1) * b2 <= (a2 mod b2) * b1).
  { rewrite E in D1. nia. }
  unfold F64.rne. rewrite E.
  destruct (2 * (a1 mod b1) <? b1) eqn:L1;
    destruct (2 * (a2 mod b2) <? b2) eqn:L2;
    destruct (b1 <? 2 * (a1 mod b1)) eqn:G1;
    destruct (b2 <? 2 * (a2 mod b2)) eqn:G2;
    destruct (Z.even (a2 / b2)); try lia;
    rewrite ?Z.ltb_lt, ?Z.ltb_ge in *; nia.
Qed.

Lemma log2_window (q : Z) :
  0 <= q -> q < 2 ^ (53 + (Z.log2 q - 52)).
Proof.
  intros Hq. replace (53 + (Z.log2 q - 52)) with (Z.succ (Z.log2 q)) by lia.
  destruct (Z.eq_dec q 0) as [-> | Hne]; [reflexivity |].
  apply Z.log2_spec. lia.
Qed.

Lemma log2_floor (q : Z) :
  0 < Z.log2 q - 52 -> 2 ^ (52 + (Z.log2 q - 52)) <= q.
Proof.
  intros Hs. replace (52 + (Z.log2 q - 52)) with (Z.log2 q) by lia.
  apply Z.log2_spec. destruct (Z_lt_le_dec 0 q) as [H | H]; [exact H |].
  rewrite Z.log2_nonpos in Hs by exact H. lia.
Qed.

Lemma scaled_lower (a b s : Z) :
  0 < b -> 0 <= s -> 2 ^ (52 + s) <= a / b -> 2 ^ 52 <= F64.rne a (b * 2 ^ s).
Proof.
  intros Hb Hs H.
  assert (Hp : 0 < 2 ^ s) by (apply Z.pow_pos_nonneg; lia).
  rewrite Z.pow_add_r in H by lia.
  pose proof (Z.mul_div_le a b Hb) as Hd.
  assert (Hq : 2 ^ 52 <= a / (b * 2 ^ s)).
  { apply Z.div_le_lower_bound; [nia |]. nia. }
  pose proof (rne_bounds a (b * 2 ^ s) ltac:(nia)). lia.
Qed.

Lemma scaled_upper (a b s : Z) :
  0 < b -> 0 <= s -> a / b < 2 ^ (53 + s) -> F64.rne a (b * 2 ^ s) <= 2 ^ 53.
Proof.
  intros Hb Hs H.
  assert (Hp : 0 < 2 ^ s) by (apply Z.pow_pos_nonneg; lia).
  rewrite Z.pow_add_r in H by lia.
  assert (Ha : a < b * (2 ^ 53 * 2 ^ s)).
  { destruct (Z_lt_le_dec a (b * (2 ^ 53 * 2 ^ s))) as [L | G]; [exact L |].
    apply (Z.div_le_lower_bound a b _ Hb) in G. lia. }
  assert (Hq : a / (b * 2 ^ s) < 2 ^ 53).
  { apply Z.div_lt_upper_bound; [nia |]. nia. }
  pose proof (rne_bounds a (b * 2 ^ s) ltac:(nia)). lia.
Qed.

Lemma round_pos_mono (a1 b1 a2 b2 : Z) :
  0 <= a1 -> 0 < b1 -> 0 < b2 -> a1 * b2 <= a2 * b1 ->
  F64.round_pos a1 b1 <= F64.round_pos a2 b2.
Proof.
  intros Ha1 Hb1 Hb2 H.
  pose proof (div_frac_mono a1 b1 a2 b2 Hb1 Hb2 H) as Hq.
  assert (Hq1 : 0 <= a1 / b1) by (apply Z.div_pos; lia).
  pose proof (Z.log2_le_mono _ _ Hq) as Hl.
  pose proof (log2_window (a1 / b1) Hq1) as W1.
  unfold F64.round_pos.
  set (s1 := Z.log2 (a1 / b1) - 52) in *.
  set (s2 := Z.log2 (a2 / b2) - 52) in *.
  assert (Hs : s1 <= s2) by (unfold s1, s2; lia).
  destruct (s1 <=? 0) eqn:E1; destruct (s2 <=? 0) eqn:E2;
    rewrite ?Z.leb_le, ?Z.leb_gt in *; try lia.
  - apply rne_mono; assumption.
  - pose proof (log2_floor (a2 / b2) E2) as F2. fold s2 in F2.
    pose proof (scaled_lower a2 b2 s2 Hb2 ltac:(lia) F2) as L2.
    assert (2 ^ 1 <= 2 ^ s2) by (apply Z.pow_le_mono_r; lia).
    assert (a1 / b1 < 2 ^ 53).
    { eapply Z.lt_le_trans; [exact W1 |]. apply Z.pow_le_mono_r; lia. }
    pose proof (rne_bounds a1 b1 Hb1). nia.
  - pose proof (log2_floor (a2 / b2) E2) as F2. fold s2 in F2.
    pose proof (scaled_lower a2 b2 s2 Hb2 ltac:(lia) F2) as L2.
    pose proof (scaled_upper a1 b1 s1 Hb1 ltac:(lia) W1) as U1.
    assert (Hp1 : 0 < 2 ^ s1) by (apply Z.pow_pos_nonneg; lia).
    destruct (Z.eq_dec s1 s2) as [Es | Ns].
    + rewrite <- Es. apply Z.mul_le_mono_nonneg_r; [lia |].
      apply rne_mono; nia.
    + assert (Hpow : 2 ^ (s1 + 1) <= 2 ^ s2) by (apply Z.pow_le_mono_r; lia).
      rewrite Z.pow_add_r in Hpow by lia. nia.
Qed.

Lemma round_pos_nonneg (a b : Z) : 0 <= a -> 0 < b -> 0 <= F64.round_pos a b.
Proof.
  intros Ha Hb. unfold F64.round_pos.
  assert (0 <= a / b) by (apply Z.div_pos; lia).
  destruct (Z.log2 (a / b) - 52 <=? 0) eqn:E.
  - pose proof (rne_bounds a b Hb). lia.
  - apply Z.leb_gt in E.
    assert (0 < 2 ^ (Z.log2 (a / b) - 52)) by (apply Z.pow_pos_nonneg; lia).
    assert (0 <= a / (b * 2 ^ (Z.log2 (a / b) - 52)))
      by (apply Z.div_pos; nia).
    pose proof (rne_bounds a (b * 2 ^ (Z.log2 (a / b) - 52)) ltac:(nia)). nia.
Qed.

(** The rounding of a quotient grows with the quotient. *)
Lemma round_mono (a1 b1 a2 b2 : Z) :
  0 < b1 -> 0 < b2 -> a1 * b2 <= a2 * b1 -> F64.round a1 b1 <= F64.round a2 b2.
Proof.
  intros Hb1 Hb2 H. unfold F64.round.
  assert (Hk : (if 0 <=? a1 then F64.round_pos a1 b1
                else - F64.round_pos (- a1) b1)
               <= (if 0 <=? a2 then F64.round_pos a2 b2
                   else - F64.round_pos (- a2) b2)).
  { destruct (0 <=? a1) eqn:E1; destruct (0 <=? a2) eqn:E2;
      rewrite ?Z.leb_le, ?Z.leb_gt in *.
    - apply round_pos_mono; assumption.
    - nia.
    - pose proof (round_pos_nonneg (- a1) b1 ltac:(lia) Hb1).
      pose proof (round_pos_nonneg a2 b2 ltac:(lia) Hb2). lia.
    - pose proof (round_pos_mono (- a2) b2 (- a1) b1 ltac:(lia) Hb2 Hb1
                    ltac:(nia)). lia. }
  lia.
Qed.

(** ** Durations and rates *)

Lemma one_pos : 0 < F64.one.
Proof. reflexivity. Qed.

Lemma true_div_pos (a b : Z) :
  0 < b ->
  F64.true_div a b
  = if F64.is_inf (F64.round (a * F64.one) b) then Raise OverflowError
    else Ok (F64.round (a * F64.one) b).
Proof.
  intros Hb. unfold F64.true_div.
  destruct (b =? 0) eqn:E; [apply Z.eqb_eq in E; lia |].
  rewrite Z.sgn_pos, Z.abs_eq, Z.mul_1_l by lia. reflexivity.
Qed.

Lemma is_inf_false (x : F64.float) :
  - F64.INF < x < F64.INF -> F64.is_inf x = false.
Proof. intros H. unfold F64.is_inf. apply Z.leb_gt. lia. Qed.

(** A quotient between two quotients rounds between their roundings. *)
Lemma round_between (a b lo hi : Z) (lo_b hi_b : Z) :
  0 < b -> 0 < lo_b -> 0 < hi_b ->
  lo * b <= a * lo_b -> a * hi_b <= hi * b ->
  F64.round lo lo_b <= F64.round a b <= F64.round hi hi_b.
Proof.
  intros Hb Hl Hh H1 H2. split; apply round_mono; assumption.
Qed.

(** [ms / 1000] is finite exactly below [duration_limit]. *)
Lemma seconds_finite (ms : Z) :
  Z.abs ms < duration_limit ->
  F64.true_div ms 1000 = Ok (F64.round (ms * F64.one) 1000).
Proof.
  intros H. rewrite true_div_pos by lia.
  rewrite is_inf_false; [reflexivity |].
  pose proof one_pos as Hone.
  pose proof (round_between (ms * F64.one) 1000
                ((1 - duration_limit) * F64.one)
                ((duration_limit - 1) * F64.one) 1000 1000
                ltac:(lia) ltac:(lia) ltac:(lia) ltac:(nia) ltac:(nia)) as B.
  assert (Hlo : - F64.INF < F64.round ((1 - duration_limit) * F64.one) 1000)
    by (apply Z.ltb_lt; vm_compute; reflexivity).
  assert (Hhi : F64.round ((duration_limit - 1) * F64.one) 1000 < F64.INF)
    by (apply Z.ltb_lt; vm_compute; reflexivity).
  lia.
Qed.

Lemma seconds_overflow (ms : Z) :
  duration_limit <= Z.abs ms -> F64.true_div ms 1000 = Raise OverflowError.
Proof.
  intros H. rewrite true_div_pos by lia.
  pose proof one_pos as Hone.
  assert (Hinf : F64.is_inf (F64.round (ms * F64.one) 1000) = true).
  { unfold F64.is_inf. apply Z.leb_le.
    assert (Hhi : F64.round (duration_limit * F64.one) 1000 = F64.INF)
      by (vm_compute; reflexivity).
    assert (Hlo : F64.round (- duration_limit * F64.one) 1000 = - F64.INF)
      by (vm_compute; reflexivity).
    destruct (Z_lt_le_dec ms 0) as [Hn | Hp].
    - pose proof (round_mono (ms * F64.one) 1000 (- duration_limit * F64.one)
                    1000 ltac:(lia) ltac:(lia) ltac:(nia)). lia.
    - pose proof (round_mono (duration_limit * F64.one) 1000 (ms * F64.one)
                    1000 ltac:(lia) ltac:(lia) ltac:(nia)). lia. }
  rewrite Hinf. reflexivity.
Qed.

Lemma seconds_below_minute (ms : Z) :
  F64.lt_int (F64.round (ms * F64.one) 1000) 60 = (ms <? 60000).
Proof.
  pose proof one_pos as Hone. unfold F64.lt_int.
  destruct (ms <? 60000) eqn:E; rewrite ?Z.ltb_lt, ?Z.ltb_ge in *.
  - pose proof (round_mono (ms * F64.one) 1000 (59999 * F64.one) 1000
                  ltac:(lia) ltac:(lia) ltac:(nia)).
    assert (F64.round (59999 * F64.one) 1000 < F64.of_int 60)
      by (apply Z.ltb_lt; vm_compute; reflexivity).
    lia.
  - pose proof (round_mono (60000 * F64.one) 1000 (ms * F64.one) 1000
                  ltac:(lia) ltac:(lia) ltac:(nia)).
    assert (F64.round (60000 * F64.one) 1000 = F64.of_int 60)
      by (vm_compute; reflexivity).
    lia.
Qed.

Lemma minutes_below_hour (ms : Z) :
  F64.lt_int (F64.round (F64.round (ms * F64.one) 1000) 60) 60
  = (ms <? 3600000).
Proof.
  pose proof one_pos as Hone. unfold F64.lt_int.
  destruct (ms <? 3600000) eqn:E; rewrite ?Z.ltb_lt, ?Z.ltb_ge in *.
  - pose proof (round_mono (ms * F64.one) 1000 (3599999 * F64.one) 1000
                  ltac:(lia) ltac:(lia) ltac:(nia)) as H1.
    pose proof (round_mono _ 60 _ 60 ltac:(lia) ltac:(lia)
                  (Z.mul_le_mono_nonneg_r _ _ 60 ltac:(lia) H1)) as H2.
    assert (F64.round (F64.round (3599999 * F64.one) 1000) 60 < F64.of_int 60)
      by (apply Z.ltb_lt; vm_compute; reflexivity).
    lia.
  - pose proof (round_mono (3600000 * F64.one) 1000 (ms * F64.one) 1000
                  ltac:(lia) ltac:(lia) ltac:(nia)) as H1.
    pose proof (round_mono _ 60 _ 60 ltac:(lia) ltac:(lia)
                  (Z.mul_le_mono_nonneg_r _ _ 60 ltac:(lia) H1)) as H2.
    assert (F64.round (F64.round (3600000 * F64.one) 1000) 60 = F64.of_int 60)
      by (vm_compute; reflexivity).
    lia.
Qed.
Lemma rne_nearest (a b : Z) :
  0 < b -> 2 * Z.abs (F64.rne a b * b - a) <= b.
Proof.
  intros Hb. unfold F64.rne.
  pose proof (Z.div_mod a b ltac:(lia)) as D.
  pose proof (Z.mod_pos_bound a b Hb) as M.
  destruct (2 * (a mod b) <? b) eqn:L; rewrite ?Z.ltb_lt, ?Z.ltb_ge in *;
    [nia |].
  destruct (b <? 2 * (a mod b)) eqn:G; rewrite ?Z.ltb_lt, ?Z.ltb_ge in *;
    [nia |].
  destruct (Z.even (a / b)); nia.
Qed.

Lemma fmt1_one_decimal (x : F64.float) :
  - F64.INF < x < F64.INF -> one_decimal x (F64.fmt1 x).
Proof.
  intros Hx. unfold F64.fmt1.
  destruct (x =? F64.INF) eqn:E1; [apply Z.eqb_eq in E1; lia |].
  destruct (x =? - F64.INF) eqn:E2; [apply Z.eqb_eq in E2; lia |].
  exists (F64.rne (Z.abs x * 10) F64.one).
  pose proof one_pos as Hone.
  split; [| split; [apply rne_nearest; exact Hone | reflexivity]].
  pose proof (rne_bounds (Z.abs x * 10) F64.one Hone).
  assert (0 <= Z.abs x * 10 / F64.one) by (apply Z.div_pos; lia). lia.
Qed.

Lemma div_60_finite (x : F64.float) :
  - F64.INF < x < F64.INF -> - F64.INF < F64.round x 60 < F64.INF.
Proof.
  intros Hx.
  pose proof (round_between x 60 (1 - F64.INF) (F64.INF - 1) 60 60
                ltac:(lia) ltac:(lia) ltac:(lia) ltac:(lia) ltac:(lia)) as B.
  assert (- F64.INF < F64.round (1 - F64.INF) 60)
    by (apply Z.ltb_lt; vm_compute; reflexivity).
  assert (F64.round (F64.INF - 1) 60 < F64.INF)
    by (apply Z.ltb_lt; vm_compute; reflexivity).
  lia.
Qed.

Lemma seconds_range (ms : Z) :
  Z.abs ms < duration_limit ->
  - F64.INF < F64.round (ms * F64.one) 1000 < F64.INF.
Proof.
  intros H. pose proof (seconds_finite ms H) as Hs.
  rewrite true_div_pos in Hs by lia.
  destruct (F64.is_inf (F64.round (ms * F64.one) 1000)) eqn:E;
    [discriminate |].
  unfold F64.is_inf in E. apply Z.leb_gt in E. lia.
Qed.

Lemma format_duration_in_range (ms : Z) :
  Z.abs ms < duration_limit ->
  Renderer.format_duration (Some ms)
  = Ok (if ms =? 0 then "N/A"
        else if ms <? 60000 then
          F64.fmt1 (F64.round (ms * F64.one) 1000) ++ "s"
        else if ms <? 3600000 then
          F64.fmt1 (F64.round (F64.round (ms * F64.one) 1000) 60) ++ "m"
        else
          F64.fmt1 (F64.round (F64.round (F64.round (ms * F64.one) 1000) 60) 60)
            ++ "h").
Proof.
  intros H.
  pose proof (seconds_range ms H) as Rs.
  pose proof (div_60_finite _ Rs) as Rm.
  unfold Renderer.format_duration.
  destruct (ms =? 0); [reflexivity |].
  rewrite (seconds_finite ms H). cbn [bind].
  rewrite seconds_below_minute.
  destruct (ms <? 60000); [reflexivity |].
  unfold F64.div_int. rewrite (is_inf_false _ Rs).
  rewrite minutes_below_hour.
  destruct (ms <? 3600000); [reflexivity |].
  rewrite (is_inf_false _ Rm). reflexivity.
Qed.

(** C10: a duration of 0 ms, like None or an absent duration, is rendered
    as "N/A", not as "0.0s"; any other duration is printed to one decimal
    place, in seconds below one minute, in minutes below one hour, in hours
    from there on. *)
Theorem format_duration_zero_is_NA (ms : Z) :
  Z.abs ms < duration_limit ->
  let seconds := F64.round (ms * F64.one) 1000 in
  let minutes := F64.round seconds 60 in
  let hours := F64.round minutes 60 in
  Renderer.format_duration (Some 0) = Ok "N/A" /\
  Renderer.format_duration (Some 0) <> Ok "0.0s" /\
  Renderer.format_duration None = Ok "N/A" /\
  Renderer.format_duration (get (@Absent Z)) = Ok "N/A" /\
  Renderer.format_duration (get (@Null Z)) = Ok "N/A" /\
  F64.true_div ms 1000 = Ok seconds /\
  Renderer.format_duration (Some ms)
  = Ok (if ms =? 0 then "N/A"
        else if ms <? 60000 then F64.fmt1 seconds ++ "s"
        else if ms <? 3600000 then F64.fmt1 minutes ++ "m"
        else F64.fmt1 hours ++ "h") /\
  one_decimal seconds (F64.fmt1 seconds) /\
  one_decimal minutes (F64.fmt1 minutes) /\
  one_decimal hours (F64.fmt1 hours).
Proof.
  intros H seconds minutes hours.
  pose proof (seconds_range ms H) as Rs. fold seconds in Rs.
  pose proof (div_60_finite seconds Rs) as Rm. fold minutes in Rm.
  pose proof (div_60_finite minutes Rm) as Rh. fold hours in Rh.
  split; [reflexivity |]. split; [discriminate |].
  split; [reflexivity |]. split; [reflexivity |]. split; [reflexivity |].
  split; [apply seconds_finite; exact H |].
  split; [| split; [| split]]; try (apply fmt1_one_decimal; assumption).
  apply format_duration_in_range. exact H.
Qed.

Lemma format_duration_zero_is_NA_witness :
  Z.abs 93500 < duration_limit /\
  Renderer.format_duration (Some 93500) = Ok "1.6m".
Proof.
  assert (H : Z.abs 93500 < duration_limit) by reflexivity.
  split; [exact H |].
  destruct (format_duration_zero_is_NA 93500 H)
    as [_ [_ [_ [_ [_ [_ [Hf _]]]]]]].
  rewrite Hf. vm_compute. reflexivity.
Defined.
Lemma INF_pos : 0 < F64.INF.
Proof. reflexivity. Qed.

Lemma round_nonneg (a b : Z) : 0 <= a -> 0 < b -> 0 <= F64.round a b.
Proof.
  intros Ha Hb. unfold F64.round.
  apply Z.leb_le in Ha. rewrite Ha. apply Z.leb_le in Ha.
  pose proof (round_pos_nonneg a b Ha Hb). pose proof INF_pos. lia.
Qed.

(** The quotient of two counts is a finite double. *)
Lemma ratio_range (failed total : Z) :
  0 < total -> 0 < failed <= count_limit ->
  0 <= F64.round (failed * F64.one) total < F64.INF.
Proof.
  intros Ht Hf. pose proof one_pos as Hone. split.
  - apply round_nonneg; nia.
  - assert (Hc : 0 < count_limit) by reflexivity.
    assert (H1 : failed * F64.one <= count_limit * F64.one) by nia.
    assert (H2 : count_limit * F64.one * 1 <= count_limit * F64.one * total)
      by (apply Z.mul_le_mono_nonneg_l; nia).
    pose proof (round_mono (failed * F64.one) total (count_limit * F64.one) 1
                  ltac:(lia) ltac:(lia) ltac:(lia)).
    assert (F64.round (count_limit * F64.one) 1 < F64.INF)
      by (apply Z.ltb_lt; vm_compute; reflexivity).
    lia.
Qed.

Lemma ratio_finite (failed total : Z) :
  0 < total -> 0 < failed <= count_limit ->
  F64.true_div failed total = Ok (F64.round (failed * F64.one) total) /\
  F64.mul_int (F64.round (failed * F64.one) total) 100
  = F64.round (F64.round (failed * F64.one) total * 100) 1.
Proof.
  intros Ht Hf. pose proof (ratio_range failed total Ht Hf) as R.
  pose proof INF_pos.
  rewrite true_div_pos by exact Ht. unfold F64.mul_int.
  rewrite is_inf_false by lia. split; reflexivity.
Qed.

Lemma rate_above_50 (failed total : Z) :
  0 < total <= count_limit -> 0 < failed <= count_limit ->
  F64.gt_int (F64.mul_int (F64.round (failed * F64.one) total) 100) 50
  = (50 * total <? 100 * failed).
Proof.
  intros Ht Hf. pose proof one_pos as Hone.
  destruct (ratio_finite failed total ltac:(lia) Hf) as [_ ->].
  unfold F64.gt_int, count_limit in *.
  destruct (50 * total <? 100 * failed) eqn:E;
    rewrite ?Z.ltb_lt, ?Z.ltb_ge in *.
  - pose proof (round_mono ((2 ^ 52 + 1) * F64.one) (2 ^ 53)
                  (failed * F64.one) total ltac:(lia) ltac:(lia) ltac:(nia))
      as H1.
    pose proof (round_mono _ 1 _ 1 ltac:(lia) ltac:(lia)
                  (Z.mul_le_mono_nonneg_r _ _ 1 ltac:(lia)
                     (Z.mul_le_mono_nonneg_r _ _ 100 ltac:(lia) H1))) as H2.
    assert (F64.of_int 50
            < F64.round (F64.round ((2 ^ 52 + 1) * F64.one) (2 ^ 53) * 100) 1)
      by (apply Z.ltb_lt; vm_compute; reflexivity).
    lia.
  - pose proof (round_mono (failed * F64.one) total F64.one 2
                  ltac:(lia) ltac:(lia) ltac:(nia)) as H1.
    pose proof (round_mono _ 1 _ 1 ltac:(lia) ltac:(lia)
                  (Z.mul_le_mono_nonneg_r _ _ 1 ltac:(lia)
                     (Z.mul_le_mono_nonneg_r _ _ 100 ltac:(lia) H1))) as H2.
    assert (F64.round (F64.round F64.one 2 * 100) 1 = F64.of_int 50)
      by (vm_compute; reflexivity).
    lia.
Qed.

Lemma rate_above_20 (failed total : Z) :
  0 < total <= count_limit -> 0 < failed <= count_limit ->
  F64.gt_int (F64.mul_int (F64.round (failed * F64.one) total) 100) 20
  = (20 * total <? 100 * failed).
Proof.
  intros Ht Hf. pose proof one_pos as Hone.
  destruct (ratio_finite failed total ltac:(lia) Hf) as [_ ->].
  unfold F64.gt_int, count_limit in *.
  destruct (20 * total <? 100 * failed) eqn:E;
    rewrite ?Z.ltb_lt, ?Z.ltb_ge in *.
  - pose proof (round_mono ((2 ^ 52 + 1) * F64.one) (5 * 2 ^ 52)
                  (failed * F64.one) total ltac:(lia) ltac:(lia) ltac:(nia))
      as H1.
    pose proof (round_mono _ 1 _ 1 ltac:(lia) ltac:(lia)
                  (Z.mul_le_mono_nonneg_r _ _ 1 ltac:(lia)
                     (Z.mul_le_mono_nonneg_r _ _ 100 ltac:(lia) H1))) as H2.
    assert (F64.of_int 20
            < F64.round
                (F64.round ((2 ^ 52 + 1) * F64.one) (5 * 2 ^ 52) * 100) 1)
      by (apply Z.ltb_lt; vm_compute; reflexivity).
    lia.
  - pose proof (round_mono (failed * F64.one) total F64.one 5
                  ltac:(lia) ltac:(lia) ltac:(nia)) as H1.
    pose proof (round_mono _ 1 _ 1 ltac:(lia) ltac:(lia)
                  (Z.mul_le_mono_nonneg_r _ _ 1 ltac:(lia)
                     (Z.mul_le_mono_nonneg_r _ _ 100 ltac:(lia) H1))) as H2.
    assert (F64.round (F64.round F64.one 5 * 100) 1 = F64.of_int 20)
      by (vm_compute; reflexivity).
    lia.
Qed.

(** C2: with positive counts the rate is the double
    [failed / total * 100]; the CRITICAL high-failure-rate insight is
    emitted exactly when it exceeds 50, the HIGH moderate-failure-rate
    insight exactly when it exceeds 20 but not 50, and neither up to 20.  On
    counts up to 2^52 the comparison of the double agrees with the exact
    ratio of the counts.  6 of 10 is CRITICAL, 3 of 10 is HIGH, 1 of 10
    gives neither. *)
Theorem failure_rate_thresholds (failed total : Z) :
  0 < total -> 0 < failed ->
  (forall q,
      F64.true_div failed total = Ok q ->
      FailureReportEnhancer.rate_insights failed total
      = Ok (rate_insight_for (F64.mul_int q 100) failed total)) /\
  (total <= count_limit -> failed <= count_limit ->
   let rate := F64.mul_int (F64.round (failed * F64.one) total) 100 in
   F64.true_div failed total = Ok (F64.round (failed * F64.one) total) /\
   F64.gt_int rate 50 = (50 * total <? 100 * failed) /\
   F64.gt_int rate 20 = (20 * total <? 100 * failed) /\
   FailureReportEnhancer.rate_insights failed total
   = Ok (rate_insight_by_ratio failed total) /\
   (forall r r',
       FailureReportEnhancer.summary_count r failedScenarios = failed ->
       FailureReportEnhancer.summary_count r totalScenarios = total ->
       FailureReportEnhancer._add_actionable_insights r = Ok r' ->
       actionableInsights r'
       = Some (rate_insight_by_ratio failed total
                 ++ FailureReportEnhancer.pattern_insights
                      (from_option (failurePatternSummary r) []))%list)) /\
  FailureReportEnhancer.rate_insights 6 10
  = Ok [ FailureReportEnhancer.insight "HIGH_FAILURE_RATE" "CRITICAL"
           "60.0% of tests failed (6/10)"
           "Investigate environment issues or recent code changes. This indicates systemic problems." ] /\
  FailureReportEnhancer.rate_insights 3 10
  = Ok [ FailureReportEnhancer.insight "MODERATE_FAILURE_RATE" "HIGH"
           "30.0% of tests failed (3/10)"
           "Review failed scenarios for common patterns." ] /\
  FailureReportEnhancer.rate_insights 1 10 = Ok [].
Proof.
  intros Ht Hf. split; [| split].
  - intros q Hq. unfold FailureReportEnhancer.rate_insights, rate_insight_for.
    destruct (0 <? total) eqn:E; [| apply Z.ltb_ge in E; lia].
    rewrite Hq. cbn [bind].
    destruct (F64.gt_int (F64.mul_int q 100) 50); [reflexivity |].
    destruct (F64.gt_int (F64.mul_int q 100) 20); reflexivity.
  - intros Htl Hfl rate.
    destruct (ratio_finite failed total Ht (conj Hf Hfl)) as [Hdiv _].
    pose proof (rate_above_50 failed total (conj Ht Htl) (conj Hf Hfl)) as H50.
    pose proof (rate_above_20 failed total (conj Ht Htl) (conj Hf Hfl)) as H20.
    assert (Hrate : FailureReportEnhancer.rate_insights failed total
                    = Ok (rate_insight_by_ratio failed total)).
    { unfold FailureReportEnhancer.rate_insights, rate_insight_by_ratio.
      destruct (0 <? total) eqn:E; [| apply Z.ltb_ge in E; lia].
      rewrite Hdiv. cbn [bind]. rewrite H50, H20.
      destruct (50 * total <? 100 * failed); [reflexivity |].
      destruct (20 * total <? 100 * failed); reflexivity. }
    split; [exact Hdiv |]. split; [exact H50 |]. split; [exact H20 |].
    split; [exact Hrate |].
    intros r r' Hfc Htc Hrun.
    apply add_actionable_insights_form in Hrun.
    destruct Hrun as [ins [Hc ->]].
    unfold FailureReportEnhancer.collect_insights in Hc.
    rewrite Hfc, Htc in Hc.
    destruct (failed =? 0) eqn:E; [apply Z.eqb_eq in E; lia |].
    rewrite Hrate in Hc. cbn [bind] in Hc. injection Hc as <-. reflexivity.
  - repeat split; vm_compute; reflexivity.
Qed.

Lemma failure_rate_thresholds_witness :
  0 < 10 /\ 0 < 6 /\
  FailureReportEnhancer.rate_insights 6 10 = Ok (rate_insight_by_ratio 6 10).
Proof.
  assert (Ht : 0 < 10) by reflexivity.
  assert (Hf : 0 < 6) by reflexivity.
  split; [exact Ht |]. split; [exact Hf |].
  destruct (failure_rate_thresholds 6 10 Ht Hf) as [_ [H _]].
  apply H; discriminate.
Defined.

(** ** The renderer *)


(** The nested loops of [generate_failures_section] visit [all_failures]. *)
Lemma nested_for_each_flat {S : Type}
  (body : Feature -> S -> Failure -> result S) (report : Report) (s : S) :
  for_each
    (fun s feature =>
       for_each (body feature) (from_option (failures feature) []) s)
    (from_option (features report) []) s
  = for_each (fun s p => body (fst p) s (snd p)) (all_failures report) s.
Proof. apply (for_each_failure_flat body report s). Qed.


(** ** What the outputs depend on *)

Lemma differ_by {A : Type} (observe : A -> string) (a b : A) :
  String.eqb (observe a) (observe b) = false -> a <> b.
Proof.
  intros H E. subst b. rewrite String.eqb_refl in H. discriminate H.
Qed.

(** C8, as stated, fails: the enhancer stamps the report with the clock
    and the renderer prints the clock, so two runs on one document
    differ. *)
Lemma output_depends_on_clock :
  FailureReportEnhancer.enhance sample_enhancer
    (world_at "2024-05-01T10:00:00.000000") sample_report
  <> FailureReportEnhancer.enhance sample_enhancer
       (world_at "2024-05-01T10:00:01.000000") sample_report
  /\ Renderer.generate_html_report "2024-05-01 10:00:00" sample_report
     <> Renderer.generate_html_report "2024-05-01 10:00:01" sample_report.
Proof.
  split.
  - apply (differ_by
             (fun m =>
                match enhancement (result_or m sample_report) with
                | Some e => enhancedAt e
                | None => ""
                end)).
    vm_compute. reflexivity.
  - apply (differ_by (fun m => result_or m "")).
    vm_compute. reflexivity.
Qed.

Lemma agree_bind {A B : Type} (R : A -> A -> Prop) (Q : B -> B -> Prop)
  (m1 m2 : result A) (k1 k2 : A -> result B) :
  agree R m1 m2 ->
  (forall a b, R a b -> agree Q (k1 a) (k2 b)) ->
  agree Q (bind m1 k1) (bind m2 k2).
Proof.
  destruct m1 as [a | e1]; destruct m2 as [b | e2]; simpl; intros H Hk;
    try contradiction; [apply Hk; exact H | exact H].
Qed.

Lemma stamped_add_failure_patterns (e2 : Enhancement) (a b : Report) :
  stamped e2 a b ->
  agree (stamped e2) (FailureReportEnhancer._add_failure_patterns a)
    (FailureReportEnhancer._add_failure_patterns b).
Proof.
  unfold stamped. intros ->.
  unfold FailureReportEnhancer._add_failure_patterns.
  rewrite (for_each_failure_ext _ (set_enhancement a e2) a _ eq_refl).
  destruct (FailureReportEnhancer.for_each_failure _ a _); simpl; reflexivity.
Qed.

Lemma stamped_categorize_errors (e2 : Enhancement) (a b : Report) :
  stamped e2 a b ->
  agree (stamped e2) (FailureReportEnhancer._categorize_errors a)
    (FailureReportEnhancer._categorize_errors b).
Proof.
  unfold stamped. intros ->.
  unfold FailureReportEnhancer._categorize_errors.
  rewrite (for_each_failure_ext _ (set_enhancement a e2) a _ eq_refl).
  destruct (FailureReportEnhancer.for_each_failure _ a _); simpl; reflexivity.
Qed.

Lemma stamped_add_actionable_insights (e2 : Enhancement) (a b : Report) :
  stamped e2 a b ->
  agree (stamped e2) (FailureReportEnhancer._add_actionable_insights a)
    (FailureReportEnhancer._add_actionable_insights b).
Proof.
  unfold stamped. intros ->.
  unfold FailureReportEnhancer._add_actionable_insights.
  rewrite (collect_insights_ext (set_enhancement a e2) a eq_refl eq_refl).
  destruct (FailureReportEnhancer.collect_insights a); simpl; reflexivity.
Qed.

Lemma stamped_add_retry_suggestions (e2 : Enhancement) (a b : Report) :
  stamped e2 a b ->
  agree (stamped e2) (FailureReportEnhancer._add_retry_suggestions a)
    (FailureReportEnhancer._add_retry_suggestions b).
Proof.
  unfold stamped. intros ->.
  unfold FailureReportEnhancer._add_retry_suggestions.
  rewrite (for_each_failure_ext _ (set_enhancement a e2) a _ eq_refl).
  destruct (FailureReportEnhancer.for_each_failure _ a _); simpl; reflexivity.
Qed.

(** C8, amended: the outputs are functions of the input document and the
    clock reading (for the enhancer, also of whether its Serenity directory
    exists).  Two runs of the enhancer raise the same exception or return
    reports that differ only in the enhancement timestamp; two runs of the
    renderer raise the same exception or return the template filled with
    arguments that differ only in the clock text. *)
Theorem outputs_depend_on_input_and_clock (self : FailureReportEnhancer.t)
  (w1 w2 : FailureReportEnhancer.World) (now1 now2 : string) (r : Report) :
  FailureReportEnhancer.serenity_available self w1
  = FailureReportEnhancer.serenity_available self w2 ->
  same_but_timestamp w2 (FailureReportEnhancer.enhance self w1 r)
    (FailureReportEnhancer.enhance self w2 r) /\
  same_but_clock r now1 now2 (Renderer.generate_html_report now1 r)
    (Renderer.generate_html_report now2 r) /\
  (forall key, key <> "timestamp" ->
     forall duration_text failures_section,
       lookup_default key
         (Renderer.template_arguments r now1 duration_text failures_section) ""
       = lookup_default key
           (Renderer.template_arguments r now2 duration_text failures_section)
           "").
Proof.
  intros Hav. split; [| split].
  - unfold FailureReportEnhancer.enhance.
    set (e2 := {| enhancedAt := FailureReportEnhancer.utcnow_isoformat w2;
                  version := "1.0.0" |}).
    change (same_but_timestamp w2) with (agree (stamped e2)).
    apply (agree_bind (stamped e2) (stamped e2));
      [apply stamped_add_failure_patterns; reflexivity |].
    intros a1 b1 R1. apply (agree_bind (stamped e2) (stamped e2));
      [apply stamped_categorize_errors; exact R1 |].
    intros a2 b2 R2. apply (agree_bind (stamped e2) (stamped e2));
      [apply stamped_add_actionable_insights; exact R2 |].
    intros a3 b3 R3. apply (agree_bind (stamped e2) (stamped e2));
      [apply stamped_add_retry_suggestions; exact R3 |].
    intros a4 b4 R4. unfold stamped in R4. subst b4. rewrite Hav. simpl.
    unfold stamped.
    destruct (FailureReportEnhancer.serenity_available self w2); reflexivity.
  - unfold same_but_clock, Renderer.generate_html_report.
    destruct (Renderer.format_duration (Renderer.metadata_duration r))
      as [d | e]; cbn [bind]; [| reflexivity].
    destruct (Renderer.generate_failures_section r) as [fs | e]; cbn [bind];
      [| reflexivity].
    exists d, fs. split; reflexivity.
  - intros key Hkey d fs. unfold Renderer.template_arguments.
    cbn [lookup_default].
    repeat match goal with
           | |- context [if String.eqb ?a key then _ else _] =>
               destruct (String.eqb a key) eqn:?; try reflexivity
           end.
    match goal with
    | H : String.eqb "timestamp" key = true |- _ =>
        apply String.eqb_eq in H; congruence
    end.
Qed.

Lemma outputs_depend_on_input_and_clock_witness :
  same_but_timestamp (world_at "2024-05-01T10:00:01.000000")
    (FailureReportEnhancer.enhance sample_enhancer
       (world_at "2024-05-01T10:00:00.000000") sample_report)
    (FailureReportEnhancer.enhance sample_enhancer
       (world_at "2024-05-01T10:00:01.000000") sample_report).
Proof.
  exact (proj1 (outputs_depend_on_input_and_clock sample_enhancer
                  (world_at "2024-05-01T10:00:00.000000")
                  (world_at "2024-05-01T10:00:01.000000")
                  "2024-05-01 10:00:00" "2024-05-01 10:00:01" sample_report
                  eq_refl)).
Defined.

(** ** Grouping by error type *)

Lemma key_eqb_eq (a b : option string) : key_eqb a b = true <-> a = b.
Proof.
  destruct a as [x |]; destruct b as [y |]; simpl; split; intros H;
    try discriminate; try reflexivity.
  - apply String.eqb_eq in H. subst. reflexivity.
  - injection H as ->. apply String.eqb_refl.
Qed.

Lemma key_eqb_refl (a : option string) : key_eqb a a = true.
Proof. apply key_eqb_eq. reflexivity. Qed.

Lemma key_eqb_neq (a b : option string) : key_eqb a b = false <-> a <> b.
Proof.
  split.
  - intros H E. apply key_eqb_eq in E. congruence.
  - intros H. destruct (key_eqb a b) eqn:E; [| reflexivity].
    apply key_eqb_eq in E. contradiction.
Qed.

Lemma key_eqb_sym (a b : option string) : key_eqb a b = key_eqb b a.
Proof.
  destruct a; destruct b; simpl; try reflexivity. apply String.eqb_sym.
Qed.

Lemma lookup_dd_append_same {V : Type} (key : option string) (x : V)
  (d : list (option string * list V)) :
  lookup_key key (dd_append key x d) [] = (lookup_key key d [] ++ [x])%list.
Proof.
  induction d as [| [k v] d IH]; simpl.
  - rewrite key_eqb_refl. reflexivity.
  - destruct (key_eqb k key) eqn:E; simpl; rewrite E; [reflexivity | exact IH].
Qed.

Lemma lookup_dd_append_other {V : Type} (key key' : option string) (x : V)
  (d : list (option string * list V)) :
  key' <> key ->
  lookup_key key' (dd_append key x d) [] = lookup_key key' d [].
Proof.
  intros Hne. induction d as [| [k v] d IH]; simpl.
  - apply key_eqb_neq in Hne. destruct (key_eqb key key') eqn:E.
    + apply key_eqb_eq in E. subst. rewrite key_eqb_refl in Hne. discriminate.
    + reflexivity.
  - destruct (key_eqb k key) eqn:E; simpl.
    + apply key_eqb_eq in E. subst k.
      destruct (key_eqb key key') eqn:E'; [| reflexivity].
      apply key_eqb_eq in E'. congruence.
    + destruct (key_eqb k key'); [reflexivity | exact IH].
Qed.

Lemma dd_append_keys {V : Type} (key : option string) (x : V)
  (d : list (option string * list V)) :
  map fst (dd_append key x d)
  = if existsb (fun k => key_eqb k key) (map fst d) then map fst d
    else (map fst d ++ [key])%list.
Proof.
  induction d as [| [k v] d IH]; simpl; [reflexivity |].
  destruct (key_eqb k key) eqn:E; simpl; [reflexivity |].
  rewrite IH. destruct (existsb _ (map fst d)); reflexivity.
Qed.

Lemma dd_append_nonempty {V : Type} (key : option string) (x : V)
  (d : list (option string * list V)) :
  Forall (fun kv => snd kv <> []) d ->
  Forall (fun kv => snd kv <> []) (dd_append key x d).
Proof.
  induction d as [| [k v] d IH]; simpl; intros H.
  - constructor; [discriminate | constructor].
  - inversion H as [| ? ? Hv Hd]; subst.
    destruct (key_eqb k key); constructor; auto.
    simpl. destruct v; discriminate.
Qed.

Lemma filter_filter {A : Type} (p q : A -> bool) (l : list A) :
  filter p (filter q l) = filter (fun x => q x && p x) l.
Proof.
  induction l as [| x l IH]; simpl; [reflexivity |].
  destruct (q x); simpl; [destruct (p x); rewrite IH; reflexivity | exact IH].
Qed.

Lemma first_seen_filter (p : option string -> bool) (l : list (option string)) :
  first_seen (filter p l) = filter p (first_seen l).
Proof.
  induction l as [| k l IH]; simpl; [reflexivity |].
  destruct (p k) eqn:E; simpl.
  - rewrite IH, !filter_filter. f_equal. apply filter_ext.
    intros a. apply andb_comm.
  - rewrite IH, filter_filter. apply filter_ext_in. intros a _.
    destruct (key_eqb a k) eqn:Ea; simpl; [| reflexivity].
    apply key_eqb_eq in Ea. subst a. exact E.
Qed.

Lemma first_seen_NoDup (l : list (option string)) : NoDup (first_seen l).
Proof.
  induction l as [| k l IH]; simpl; [constructor |].
  constructor.
  - intros H. apply filter_In in H. destruct H as [_ H].
    rewrite key_eqb_refl in H. discriminate.
  - apply NoDup_filter. exact IH.
Qed.

Lemma first_seen_In (k : option string) (l : list (option string)) :
  In k (first_seen l) <-> In k l.
Proof.
  induction l as [| a l IH]; simpl; [tauto |].
  rewrite filter_In, IH. split.
  - tauto.
  - intros [H | H]; [left; exact H |].
    destruct (key_eqb k a) eqn:E.
    + apply key_eqb_eq in E. left. congruence.
    + right. split; [exact H | reflexivity].
Qed.

(** What the grouping loop leaves: the keys in first-seen order, and under
    each key the values filed there, in order. *)
Lemma fold_dd_append {A V : Type} (key_of : A -> option string)
  (pairs : list (A * V)) (d : list (option string * list V)) (key : option string) :
  let d' :=
    fold_left (fun s xy => dd_append (key_of (fst xy)) (snd xy) s) pairs d in
  lookup_key key d' []
  = (lookup_key key d []
     ++ map snd (filter (fun xy => key_eqb (key_of (fst xy)) key) pairs))%list
  /\ map fst d'
     = (map fst d
        ++ first_seen
             (filter (fun k => negb (existsb (fun k' => key_eqb k' k) (map fst d)))
                     (map (fun xy => key_of (fst xy)) pairs)))%list
  /\ (Forall (fun kv => snd kv <> []) d -> Forall (fun kv => snd kv <> []) d').
Proof.
  revert d; induction pairs as [| [a v] pairs IH]; intros d;
    cbn [fold_left filter map fst snd first_seen].
  - rewrite !app_nil_r. repeat split. intros H; exact H.
  - specialize (IH (dd_append (key_of a) v d)). cbv zeta in IH.
    destruct IH as [IH1 [IH2 IH3]]. split; [| split].
    + rewrite IH1.
      destruct (key_eqb (key_of a) key) eqn:E; cbn [map snd].
      * apply key_eqb_eq in E. subst key. rewrite lookup_dd_append_same.
        rewrite <- app_assoc. reflexivity.
      * rewrite lookup_dd_append_other; [reflexivity |].
        intros Heq. subst key. rewrite key_eqb_refl in E. discriminate.
    + rewrite IH2, dd_append_keys.
      destruct (existsb (fun k => key_eqb k (key_of a)) (map fst d)) eqn:E;
        cbn [negb].
      * reflexivity.
      * cbn [first_seen]. rewrite <- app_assoc. cbn [app]. f_equal. f_equal.
        rewrite <- first_seen_filter, filter_filter. f_equal.
        apply filter_ext. intros k. rewrite existsb_app. cbn [existsb].
        rewrite orb_false_r, negb_orb, (key_eqb_sym (key_of a) k). reflexivity.
    + intros H. apply IH3. apply dd_append_nonempty. exact H.
Qed.

Lemma combine_fst {A B : Type} (l : list A) (ys : list B) :
  List.length ys = List.length l -> map fst (combine l ys) = l.
Proof.
  revert ys; induction l as [| x l IH]; intros [| y ys]; simpl;
    try discriminate; intros H; [reflexivity |].
  f_equal. apply IH. lia.
Qed.

Lemma map_combine_fst {A B C : Type} (g : A -> C) (l : list A) (ys : list B) :
  List.length ys = List.length l ->
  map (fun xy => g (fst xy)) (combine l ys) = map g l.
Proof.
  intros H. rewrite <- (combine_fst l ys H) at 2. rewrite map_map. reflexivity.
Qed.

Lemma filter_true {A : Type} (l : list A) : filter (fun _ => true) l = l.
Proof. induction l as [| x l IH]; simpl; [reflexivity | f_equal; exact IH]. Qed.

Lemma dd_append_sum {V : Type} (key : option string) (x : V)
  (d : list (option string * list V)) :
  sum_counts (count_values (dd_append key x d))
  = sum_counts (count_values d) + 1.
Proof.
  unfold sum_counts, count_values.
  induction d as [| [k v] d IH]; simpl; [reflexivity |].
  destruct (key_eqb k key); simpl.
  - rewrite length_app. simpl. lia.
  - rewrite IH. lia.
Qed.

Lemma fold_dd_append_sum {A V : Type} (key_of : A -> option string)
  (pairs : list (A * V)) (d : list (option string * list V)) :
  sum_counts
    (count_values
       (fold_left (fun s xy => dd_append (key_of (fst xy)) (snd xy) s) pairs d))
  = sum_counts (count_values d) + Z.of_nat (List.length pairs).
Proof.
  revert d; induction pairs as [| [a v] pairs IH]; intros d;
    cbn [fold_left List.length fst snd]; [lia |].
  rewrite IH, dd_append_sum. lia.
Qed.

(** The result of [_categorize_errors], field by field. *)
Lemma categorize_errors_inv (r r' : Report) :
  FailureReportEnhancer._categorize_errors r = Ok r' ->
  exists occs,
    traverse (fun p => FailureReportEnhancer.occurrence (fst p) (snd p))
             (all_failures r) = Ok occs /\
    let cats :=
      fold_left
        (fun s xy => dd_append (error_type_key (snd (fst xy))) (snd xy) s)
        (combine (all_failures r) occs) [] in
    r' = set_errorCategorySummary (set_errorCategories r cats)
           (count_values cats).
Proof.
  unfold FailureReportEnhancer._categorize_errors.
  rewrite for_each_failure_flat.
  unfold FailureReportEnhancer.categorize_failure.
  rewrite (for_each_traverse
             (fun p => FailureReportEnhancer.occurrence (fst p) (snd p))
             (fun s p o => dd_append (error_type_key (snd p)) o s)).
  destruct (traverse _ (all_failures r)) as [occs | e]; simpl; [| discriminate].
  intros H. injection H as <-. exists occs. split; reflexivity.
Qed.

(** X1: [_categorize_errors] groups the failures by their literal
    [errorType] ("UnknownError" when the key is absent, None when it is
    null): under each key are the occurrences of exactly the failures of
    that type, in traversal order, and the keys stand in the order in which
    the types are first seen. *)
Theorem errors_grouped_by_type (r r' : Report) :
  FailureReportEnhancer._categorize_errors r = Ok r' ->
  exists cats occs,
    errorCategories r' = Some cats /\
    Forall2
      (fun p o => FailureReportEnhancer.occurrence (fst p) (snd p) = Ok o)
      (all_failures r) occs /\
    (forall key,
        lookup_key key cats []
        = map snd
            (filter (fun po => key_eqb (error_type_key (snd (fst po))) key)
                    (combine (all_failures r) occs))) /\
    map fst cats
    = first_seen (map (fun p => error_type_key (snd p)) (all_failures r)).
Proof.
  intros H. apply categorize_errors_inv in H.
  destruct H as [occs [Hoccs Hr']]. cbv zeta in Hr'. subst r'.
  eexists; exists occs. split; [reflexivity |].
  split; [apply traverse_Forall2; exact Hoccs |].
  pose proof (traverse_length _ _ _ Hoccs) as Hlen.
  split.
  - intros key.
    destruct (fold_dd_append (fun p : Feature * Failure => error_type_key (snd p))
                (combine (all_failures r) occs) [] key) as [H1 _].
    exact H1.
  - destruct (fold_dd_append (fun p : Feature * Failure => error_type_key (snd p))
                (combine (all_failures r) occs) [] None) as [_ [H2 _]].
    rewrite H2. cbn [map app existsb negb].
    rewrite filter_true. f_equal.
    exact (map_combine_fst (fun p : Feature * Failure => error_type_key (snd p))
             _ _ Hlen).
Qed.

Lemma errors_grouped_by_type_witness :
  exists cats,
    errorCategories sample_enhanced = Some cats /\
    map fst cats
    = first_seen
        (map (fun p => error_type_key (snd p)) (all_failures sample_patterned)).
Proof.
  destruct (errors_grouped_by_type sample_patterned
              (set_errorCategorySummary
                 (set_errorCategories sample_patterned
                    (from_option (errorCategories sample_enhanced) []))
                 (from_option (errorCategorySummary sample_enhanced) [])))
    as [cats [occs [Hc [_ [_ Hk]]]]]; [reflexivity |].
  exists cats. split; [exact Hc | exact Hk].
Defined.

(** X2: [errorCategorySummary] stores, for each error type, the length of
    its occurrence list; no type is listed twice, no list is empty, and the
    counts add up to the number of failures. *)
Theorem error_category_counts (r r' : Report) :
  FailureReportEnhancer._categorize_errors r = Ok r' ->
  exists cats,
    errorCategories r' = Some cats /\
    errorCategorySummary r' = Some (count_values cats) /\
    NoDup (map fst cats) /\
    (forall key l,
        In (key, l) cats ->
        l <> [] /\ lookup_key key (count_values cats) 0 = Z.of_nat (List.length l)) /\
    sum_counts (count_values cats) = Z.of_nat (List.length (all_failures r)).
Proof.
  intros H. apply categorize_errors_inv in H.
  destruct H as [occs [Hoccs Hr']]. cbv zeta in Hr'. subst r'.
  pose proof (traverse_length _ _ _ Hoccs) as Hlen.
  set (cats :=
         fold_left
           (fun s xy => dd_append (error_type_key (snd (fst xy))) (snd xy) s)
           (combine (all_failures r) occs) []).
  destruct (fold_dd_append (fun p : Feature * Failure => error_type_key (snd p))
              (combine (all_failures r) occs) [] None) as [_ [Hkeys Hne]].
  fold cats in Hkeys, Hne.
  assert (Hnd : NoDup (map fst cats))
    by (rewrite Hkeys; apply first_seen_NoDup).
  exists cats. split; [reflexivity |]. split; [reflexivity |].
  split; [exact Hnd |]. split.
  - intros key l Hin. split.
    + specialize (Hne (Forall_nil _)).
      rewrite Forall_forall in Hne. apply (Hne (key, l) Hin).
    + clear - Hnd Hin. induction cats as [| [k v] d IH]; [contradiction |].
      simpl in *. inversion Hnd as [| ? ? Hk Hd]; subst.
      destruct Hin as [Hin | Hin].
      * injection Hin as -> ->. rewrite key_eqb_refl. reflexivity.
      * destruct (key_eqb k key) eqn:E; [| apply IH; assumption].
        apply key_eqb_eq in E. subst k. exfalso. apply Hk.
        apply (in_map fst) in Hin. exact Hin.
  - unfold cats.
    rewrite (fold_dd_append_sum
               (fun p : Feature * Failure => error_type_key (snd p))).
    rewrite length_combine. unfold sum_counts. simpl. lia.
Qed.

Lemma error_category_counts_witness :
  exists cats,
    errorCategories sample_enhanced = Some cats /\
    sum_counts (count_values cats)
    = Z.of_nat (List.length (all_failures sample_patterned)).
Proof.
  destruct (error_category_counts sample_patterned
              (set_errorCategorySummary
                 (set_errorCategories sample_patterned
                    (from_option (errorCategories sample_enhanced) []))
                 (from_option (errorCategorySummary sample_enhanced) [])))
    as [cats [Hc [_ [_ [_ Hs]]]]]; [reflexivity |].
  exists cats. split; [exact Hc | exact Hs].
Defined.

(** ** When [enhance] returns and when it raises *)


Lemma traverse_first_raise {A B : Type} (f : A -> result B)
  (pre post : list A) (x : A) (e : exn) :
  (forall y, In y pre -> exists z, f y = Ok z) -> f x = Raise e ->
  traverse f (pre ++ x :: post)%list = Raise e.
Proof.
  induction pre as [| y pre IH]; intros Hpre Hx; simpl.
  - rewrite Hx. reflexivity.
  - destruct (Hpre y (or_introl eq_refl)) as [z Hz]. rewrite Hz. simpl.
    rewrite IH; [reflexivity | | exact Hx].
    intros y' Hy'. apply Hpre. right. exact Hy'.
Qed.

Lemma failure_info_keys (p : Feature * Failure) :
  match first_missing_key p with
  | Some key =>
      FailureReportEnhancer.failure_info (fst p) (snd p) = Raise (KeyError key)
  | None => exists info, FailureReportEnhancer.failure_info (fst p) (snd p) = Ok info
  end.
Proof.
  unfold first_missing_key, FailureReportEnhancer.failure_info.
  destruct (featureName (fst p)); simpl; [| reflexivity].
  destruct (scenarioName (snd p)); simpl; [| reflexivity].
  destruct (line (snd p)); simpl; [eexists |]; reflexivity.
Qed.








(** X4: when a failure or its feature lacks one of the keys the enhancer
    indexes, [enhance] raises KeyError for the first missing key
    ([featureName], then [scenarioName], then [line]) of the first such
    failure in traversal order, and returns no report. *)
Theorem enhance_raises_first_missing_key (self : FailureReportEnhancer.t)
  (w : FailureReportEnhancer.World) (r : Report)
  (pre post : list (Feature * Failure)) (p : Feature * Failure) (key : string) :
  all_failures r = (pre ++ p :: post)%list ->
  (forall q, In q pre -> first_missing_key q = None) ->
  first_missing_key p = Some key ->
  FailureReportEnhancer.enhance self w r = Raise (KeyError key).
Proof.
  intros Hall Hpre Hp.
  unfold FailureReportEnhancer.enhance,
    FailureReportEnhancer._add_failure_patterns.
  rewrite for_each_failure_flat.
  unfold FailureReportEnhancer.classify_failure.
  rewrite (for_each_traverse
             (fun p => FailureReportEnhancer.failure_info (fst p) (snd p))
             (fun s p info =>
                append_to (FailureReportEnhancer.category_of (snd p)) info s)).
  change (all_failures (set_enhancement r _)) with (all_failures r).
  rewrite Hall.
  rewrite (traverse_first_raise _ pre post p (KeyError key)).
  - reflexivity.
  - intros q Hq. pose proof (failure_info_keys q) as K.
    rewrite (Hpre q Hq) in K. exact K.
  - pose proof (failure_info_keys p) as K. rewrite Hp in K. exact K.
Qed.

Lemma enhance_raises_first_missing_key_witness :
  FailureReportEnhancer.enhance sample_enhancer
    (world_at "2024-05-01T10:00:00.000000") unnumbered_report
  = Raise (KeyError "line").
Proof.
  apply (enhance_raises_first_missing_key sample_enhancer
           (world_at "2024-05-01T10:00:00.000000") unnumbered_report
           (map (pair booking_feature)
                (from_option (failures booking_feature) []))
           []
           ({| featureName := Some "Ping API";
               failures :=
                 Some [ {| scenarioName := Some "Ping"; line := None;
                           errorType := Absent; errorMessage := Absent;
                           stackTrace := Absent; steps := Absent;
                           tags := Absent; duration := Absent |} ] |},
            {| scenarioName := Some "Ping"; line := None;
               errorType := Absent; errorMessage := Absent;
               stackTrace := Absent; steps := Absent;
               tags := Absent; duration := Absent |})).
  - reflexivity.
  - intros q H. simpl in H.
    repeat (destruct H as [H | H]; [subst q; reflexivity |]). contradiction.
  - reflexivity.
Defined.

(** X5: a run of [enhance] that returns leaves [metadata], [summary] and
    [features] as they were, stamps version 1.0.0 with the clock reading,
    and writes [serenityArtifacts] exactly when a non-empty Serenity path
    was given and exists; otherwise that key keeps what the input had. *)
Theorem enhance_keeps_input (self : FailureReportEnhancer.t)
  (w : FailureReportEnhancer.World) (r r' : Report) :
  FailureReportEnhancer.enhance self w r = Ok r' ->
  metadata r' = metadata r /\ summary r' = summary r /\
  features r' = features r /\
  enhancement r'
  = Some {| enhancedAt := FailureReportEnhancer.utcnow_isoformat w;
            version := "1.0.0" |} /\
  serenityArtifacts r'
  = match FailureReportEnhancer.serenity_report_path self with
    | Some path =>
        if negb (String.eqb path "")
           && FailureReportEnhancer.path_exists w path
        then Some {| screenshotsAvailable := true;
                     serenityReportPath := path;
                     note := "Screenshot linking requires Serenity JSON parsing" |}
        else serenityArtifacts r
    | None => serenityArtifacts r
    end.
Proof.
  intros H. apply enhance_inv in H.
  destruct H as [patterns [cats [ins [cs H]]]]. cbv zeta in H.
  destruct H as [_ [_ [_ [_ ->]]]].
  unfold FailureReportEnhancer.serenity_available.
  destruct (FailureReportEnhancer.serenity_report_path self) as [[| c path] |];
    cbn [String.eqb negb andb]; try (repeat split; reflexivity).
  destruct (FailureReportEnhancer.path_exists w (String c path));
    repeat split; reflexivity.
Qed.

Lemma enhance_keeps_input_witness :
  features sample_enhanced = features sample_report /\
  serenityArtifacts sample_enhanced = None.
Proof.
  assert (H : FailureReportEnhancer.enhance sample_enhancer
                (world_at "2024-05-01T10:00:00.000000") sample_report
              = Ok sample_enhanced) by (vm_compute; reflexivity).
  destruct (enhance_keeps_input _ _ _ _ H) as [_ [_ [Hf [_ Hs]]]].
  split; [exact Hf | exact Hs].
Defined.

(** ** The passes together *)

Lemma filter_combine_length {A B : Type} (p : A -> bool) (l : list A)
  (ys : list B) :
  List.length ys = List.length l ->
  List.length (filter (fun xy => p (fst xy)) (combine l ys))
  = List.length (filter p l).
Proof.
  revert ys; induction l as [| x l IH]; intros [| y ys]; simpl;
    try discriminate; intros H; [reflexivity |].
  destruct (p x); simpl; rewrite IH by lia; reflexivity.
Qed.

Lemma lookup_empty_patterns (key : string) :
  lookup_default key FailureReportEnhancer.empty_patterns [] = @nil FailureInfo.
Proof.
  unfold FailureReportEnhancer.empty_patterns; simpl.
  repeat match goal with
         | |- context [if ?b then _ else _] => destruct b; try reflexivity
         end.
Qed.

(** The count stored under a key is the number of failures filed there. *)
Lemma summary_counts_classified (r r1 : Report) (key : string) :
  FailureReportEnhancer._add_failure_patterns r = Ok r1 ->
  lookup_default key (from_option (failurePatternSummary r1) []) 0
  = classified_count r key.
Proof.
  intros H. apply add_failure_patterns_inv in H.
  destruct H as [infos [Hinfos Hr1]]. cbv zeta in Hr1. subst r1.
  pose proof (traverse_length _ _ _ Hinfos) as Hlen.
  cbn [failurePatternSummary set_failurePatternSummary from_option].
  rewrite lookup_count_values, lookup_filter_nonempty
    by (rewrite folded_patterns_keys; apply category_keys_NoDup).
  destruct (fold_append_lookup (combine (all_failures r) infos)
              FailureReportEnhancer.empty_patterns key eq_refl) as [_ Hl].
  rewrite Hl, lookup_empty_patterns. cbn [app]. rewrite length_map.
  unfold classified_count. f_equal.
  rewrite <- (filter_combine_length
                (fun p => String.eqb (FailureReportEnhancer.category_of (snd p)) key)
                _ _ Hlen).
  reflexivity.
Qed.

Lemma pattern_insights_counts (patterns : list (string * Z))
  (count : string -> Z) :
  (forall key, lookup_default key patterns 0 = count key) ->
  FailureReportEnhancer.pattern_insights patterns = pattern_insights_for count.
Proof.
  intros H.
  unfold FailureReportEnhancer.pattern_insights, pattern_insights_for,
    FailureReportEnhancer.timeout_insight, FailureReportEnhancer.auth_insight,
    FailureReportEnhancer.connection_insight, FailureReportEnhancer.npe_insight,
    when.
  rewrite !H. reflexivity.
Qed.

(** X6: in a report [enhance] returns, each pattern count is the number of
    failures the classifier filed under that category, so with a non-zero
    failed count the pattern insights follow the failures themselves: a
    timeout insight when more than 2 failures are timeouts, authentication,
    connection and null-pointer insights when at least one failure is of
    that kind. *)
Theorem insights_follow_classification (self : FailureReportEnhancer.t)
  (w : FailureReportEnhancer.World) (r r' : Report) :
  FailureReportEnhancer.enhance self w r = Ok r' ->
  (forall key,
      lookup_default key (from_option (failurePatternSummary r') []) 0
      = classified_count r key) /\
  (FailureReportEnhancer.summary_count r failedScenarios <> 0 ->
   exists rate,
     FailureReportEnhancer.rate_insights
       (FailureReportEnhancer.summary_count r failedScenarios)
       (FailureReportEnhancer.summary_count r totalScenarios) = Ok rate /\
     actionableInsights r'
     = Some (rate ++ pattern_insights_for (classified_count r))%list).
Proof.
  intros H. apply enhance_inv in H.
  destruct H as [patterns [cats [ins [cs H]]]]. cbv zeta in H.
  destruct H as [H1 [_ [H3 [_ ->]]]].
  assert (Hcount : forall key,
             lookup_default key (count_values patterns) 0
             = classified_count r key).
  { intros key. apply (summary_counts_classified _ _ key) in H1. exact H1. }
  split.
  - intros key. rewrite <- Hcount.
    destruct (FailureReportEnhancer.serenity_available self w); reflexivity.
  - intros Hnz. unfold FailureReportEnhancer.collect_insights in H3.
    apply Z.eqb_neq in Hnz.
    change (FailureReportEnhancer.summary_count
              (set_errorCategorySummary _ _) failedScenarios)
      with (FailureReportEnhancer.summary_count r failedScenarios) in H3.
    rewrite Hnz in H3.
    apply bind_ok in H3. destruct H3 as [rate [Hrate H3]].
    injection H3 as <-. exists rate. split; [exact Hrate |].
    cbn [failurePatternSummary set_errorCategorySummary set_errorCategories
           set_failurePatternSummary from_option].
    rewrite (pattern_insights_counts _ _ Hcount).
    destruct (FailureReportEnhancer.serenity_available self w); reflexivity.
Qed.

Lemma insights_follow_classification_witness :
  classified_count sample_report "timeout_failures" = 3 /\
  lookup_default "timeout_failures"
    (from_option (failurePatternSummary sample_enhanced) []) 0
  = classified_count sample_report "timeout_failures".
Proof.
  assert (H : FailureReportEnhancer.enhance sample_enhancer
                (world_at "2024-05-01T10:00:00.000000") sample_report
              = Ok sample_enhanced) by (vm_compute; reflexivity).
  destruct (insights_follow_classification _ _ _ _ H) as [Hc _].
  split; [reflexivity | apply Hc].
Defined.

Lemma append_to_sum {V : Type} (key : string) (x : V)
  (d : list (string * list V)) :
  In key (map fst d) ->
  sum_counts (count_values (append_to key x d))
  = sum_counts (count_values d) + 1.
Proof.
  unfold sum_counts, count_values.
  induction d as [| [k v] d IH]; simpl; [intros [] |].
  intros H. destruct (String.eqb k key) eqn:E; simpl.
  - rewrite length_app. simpl. lia.
  - rewrite IH; [lia |]. destruct H as [H | H]; [| exact H].
    subst k. rewrite String.eqb_refl in E. discriminate.
Qed.

Lemma filter_nonempty_sum {K V : Type} (d : list (K * list V)) :
  sum_counts (count_values (filter (fun kv => nonempty (snd kv)) d))
  = sum_counts (count_values d).
Proof.
  unfold sum_counts, count_values.
  induction d as [| [k v] d IH]; simpl; [reflexivity |].
  destruct v; simpl; rewrite IH; reflexivity.
Qed.

Lemma folded_patterns_sum (pairs : list (Feature * Failure * FailureInfo))
  (s : list (string * list FailureInfo)) :
  map fst s = category_keys ->
  sum_counts
    (count_values
       (fold_left
          (fun s xy =>
             append_to (FailureReportEnhancer.category_of (snd (fst xy)))
               (snd xy) s) pairs s))
  = sum_counts (count_values s) + Z.of_nat (List.length pairs).
Proof.
  revert s; induction pairs as [| [[fe fa] info] pairs IH]; intros s Hs;
    cbn [fold_left List.length fst snd]; [lia |].
  rewrite IH by (rewrite append_to_keys; exact Hs).
  rewrite append_to_sum by (rewrite Hs; apply categorize_in_keys). lia.
Qed.

(** X7: the derived fields of a report [enhance] returns account for every
    failure once: the pattern counts add up to the number of failures, so do
    the error-type counts, and there is one retry suggestion per failure. *)
Theorem derived_fields_cover_failures (self : FailureReportEnhancer.t)
  (w : FailureReportEnhancer.World) (r r' : Report) :
  FailureReportEnhancer.enhance self w r = Ok r' ->
  let n := Z.of_nat (List.length (all_failures r)) in
  sum_counts (from_option (failurePatternSummary r') []) = n /\
  sum_counts (from_option (errorCategorySummary r') []) = n /\
  Z.of_nat (List.length (from_option (retrySuggestions r') [])) = n.
Proof.
  intros H n. apply enhance_inv in H.
  destruct H as [patterns [cats [ins [cs H]]]]. cbv zeta in H.
  destruct H as [H1 [H2 [_ [H4 ->]]]].
  assert (G1 : sum_counts (count_values patterns) = n).
  { apply add_failure_patterns_inv in H1.
    destruct H1 as [infos [Hinfos E]]. cbv zeta in E.
    apply (f_equal failurePatterns) in E.
    cbn [failurePatterns set_failurePatternSummary set_failurePatterns] in E.
    injection E as E. rewrite E.
    rewrite filter_nonempty_sum, folded_patterns_sum by reflexivity.
    rewrite length_combine. apply traverse_length in Hinfos.
    change (all_failures (set_enhancement r _)) with (all_failures r) in Hinfos.
    unfold n. unfold sum_counts. simpl.
    change (all_failures (set_enhancement r _)) with (all_failures r). lia. }
  assert (G2 : sum_counts (count_values cats) = n).
  { apply categorize_errors_inv in H2.
    destruct H2 as [occs [Hoccs E]]. cbv zeta in E.
    apply (f_equal errorCategories) in E.
    cbn [errorCategories set_errorCategorySummary set_errorCategories] in E.
    injection E as E. rewrite E.
    rewrite (fold_dd_append_sum
               (fun p : Feature * Failure => error_type_key (snd p))).
    rewrite length_combine. apply traverse_length in Hoccs.
    unfold n, sum_counts. simpl.
    change (all_failures (set_failurePatternSummary _ _))
      with (all_failures r) in *. lia. }
  assert (G4 : Z.of_nat (List.length cs) = n).
  { apply add_retry_suggestions_inv in H4.
    destruct H4 as [cs' [Hcs E]].
    apply (f_equal retrySuggestions) in E.
    cbn [retrySuggestions set_retrySuggestions] in E. injection E as E.
    subst cs'. apply traverse_length in Hcs. unfold n.
    change (all_failures (set_actionableInsights _ _))
      with (all_failures r) in Hcs. lia. }
  destruct (FailureReportEnhancer.serenity_available self w);
    (split; [exact G1 | split; [exact G2 | exact G4]]).
Qed.

Lemma derived_fields_cover_failures_witness :
  sum_counts (from_option (failurePatternSummary sample_enhanced) []) = 6.
Proof.
  assert (H : FailureReportEnhancer.enhance sample_enhancer
                (world_at "2024-05-01T10:00:00.000000") sample_report
              = Ok sample_enhanced) by (vm_compute; reflexivity).
  destruct (derived_fields_cover_failures _ _ _ _ H) as [Hs _].
  exact Hs.
Defined.

(** ** Edge cases of the classifier, the advisor and the insights *)

Lemma contains_empty_hay (needle : string) :
  needle <> "" -> contains needle "" = false.
Proof. destruct needle; [contradiction | reflexivity]. Qed.

(** X8: a failure whose [errorMessage] is absent, null or empty is never
    marked retryable, whatever its [errorType] says, and is filed by its
    [errorType] alone: a timeout when the type mentions timeout, else a null
    pointer failure when it mentions nullpointer, else other. *)
Theorem no_message_never_retried (feature : Feature) (failure : Failure) :
  get_or_empty (errorMessage failure) = "" ->
  FailureReportEnhancer.is_transient failure = false /\
  (forall c,
      FailureReportEnhancer.retry_suggestion feature failure = Ok c ->
      shouldRetry c = false /\
      reason c = "Deterministic failure - requires fix") /\
  FailureReportEnhancer.category_of failure
  = (if contains "timeout" (lower (get_or_empty (errorType failure)))
     then "timeout_failures"
     else if contains "nullpointer" (lower (get_or_empty (errorType failure)))
     then "null_pointer_failures"
     else "other_failures").
Proof.
  intros Hmsg.
  assert (Ht : FailureReportEnhancer.is_transient failure = false)
    by (unfold FailureReportEnhancer.is_transient; rewrite Hmsg; reflexivity).
  split; [exact Ht |]. split.
  - intros c. unfold FailureReportEnhancer.retry_suggestion.
    destruct (featureName feature); simpl; [| discriminate].
    destruct (scenarioName failure); simpl; [| discriminate].
    destruct (line failure); simpl; [| discriminate].
    intros H. injection H as <-. simpl. rewrite Ht. split; reflexivity.
  - unfold FailureReportEnhancer.category_of, FailureReportEnhancer.categorize.
    rewrite Hmsg. cbn [lower].
    rewrite !contains_empty_hay by discriminate.
    cbn [orb]. rewrite orb_false_r. reflexivity.
Qed.

Lemma no_message_never_retried_witness :
  FailureReportEnhancer.is_transient
    (bare_failure "Delete booking" 44 (Val "TimeoutException") Null) = false /\
  FailureReportEnhancer.category_of
    (bare_failure "Delete booking" 44 (Val "TimeoutException") Null)
  = "timeout_failures".
Proof.
  destruct (no_message_never_retried booking_feature
              (bare_failure "Delete booking" 44 (Val "TimeoutException") Null)
              eq_refl) as [Ht [_ Hc]].
  split; [exact Ht | exact Hc].
Defined.

Lemma when_length (b : bool) (i : Insight) : (List.length (when b i) <= 1)%nat.
Proof. destruct b; simpl; lia. Qed.

(** X9: the insight list has at most five entries, and the SUCCESS insight
    never stands beside another one: when it is there, it is the whole list
    and the failed count is 0. *)
Theorem insights_at_most_five (r : Report) (insights : list Insight) :
  FailureReportEnhancer.collect_insights r = Ok insights ->
  (List.length insights <= 5)%nat /\
  (forall i, In i insights -> type i = Some "SUCCESS" ->
     insights = [FailureReportEnhancer.success_insight] /\
     FailureReportEnhancer.summary_count r failedScenarios = 0).
Proof.
  unfold FailureReportEnhancer.collect_insights.
  destruct (FailureReportEnhancer.summary_count r failedScenarios =? 0) eqn:E.
  - intros H. injection H as <-. apply Z.eqb_eq in E.
    split; [simpl; lia |]. intros i _ _. split; [reflexivity | exact E].
  - intros H. apply bind_ok in H. destruct H as [rate [Hrate H]].
    injection H as <-.
    destruct (rate_insights_shape _ _ _ Hrate) as [Hlen Hty].
    rewrite (pattern_insights_counts _
               (fun key =>
                  lookup_default key
                    (from_option (failurePatternSummary r) []) 0))
      by reflexivity.
    unfold pattern_insights_for. split.
    + rewrite !length_app.
      repeat match goal with
             | |- context [List.length (when ?b ?i)] =>
                 pose proof (when_length b i);
                 generalize dependent (List.length (when b i)); intros
             end.
      lia.
    + intros i Hi Hs. exfalso.
      repeat (apply in_app_or in Hi; destruct Hi as [Hi | Hi]);
        try (apply Hty in Hi; destruct Hi as [[Hi _] | [Hi _]]; congruence);
        unfold when in Hi;
        match type of Hi with
        | In _ (if ?b then _ else _) => destruct b
        end;
        try contradiction; destruct Hi as [<- | []]; discriminate Hs.
Qed.

Lemma insights_at_most_five_witness :
  (List.length (from_option (actionableInsights sample_enhanced) []) <= 5)%nat.
Proof.
  assert (H : FailureReportEnhancer.collect_insights sample_patterned
              = Ok (from_option (actionableInsights sample_enhanced) []))
    by (vm_compute; reflexivity).
  destruct (insights_at_most_five _ _ H) as [Hl _]. exact Hl.
Defined.

(** X10: the insight generator never divides by zero: with a non-zero
    failed count and [totalScenarios] absent, zero or negative it emits the
    pattern insights alone, and the only exception it can raise at all is
    the OverflowError of a failed count too large for a double. *)
Theorem insights_never_divide_by_zero (r : Report) :
  (forall e, FailureReportEnhancer.collect_insights r = Raise e ->
             e = OverflowError) /\
  (FailureReportEnhancer.summary_count r failedScenarios <> 0 ->
   FailureReportEnhancer.summary_count r totalScenarios <= 0 ->
   FailureReportEnhancer.collect_insights r
   = Ok (FailureReportEnhancer.pattern_insights
           (from_option (failurePatternSummary r) []))).
Proof.
  unfold FailureReportEnhancer.collect_insights,
    FailureReportEnhancer.rate_insights.
  split.
  - intros e.
    destruct (FailureReportEnhancer.summary_count r failedScenarios =? 0);
      [discriminate |].
    destruct (0 <? FailureReportEnhancer.summary_count r totalScenarios) eqn:E;
      [| discriminate].
    apply Z.ltb_lt in E. rewrite true_div_pos by exact E.
    destruct (F64.is_inf _); cbn [bind].
    + intros H. injection H as <-. reflexivity.
    + destruct (F64.gt_int _ 50); [discriminate |].
      destruct (F64.gt_int _ 20); discriminate.
  - intros Hnz Ht. apply Z.eqb_neq in Hnz. rewrite Hnz.
    destruct (0 <? FailureReportEnhancer.summary_count r totalScenarios) eqn:E;
      [apply Z.ltb_lt in E; lia | reflexivity].
Qed.

(** ** Durations out of the ordinary *)

(** X11: [format_duration] returns a text for every int below 1000 *
    (2^1024 - 2^970) in magnitude and raises OverflowError from there on,
    where [ms / 1000] is no longer a finite double. *)
Theorem format_duration_overflow (ms : Z) :
  (Z.abs ms < duration_limit ->
   exists text, Renderer.format_duration (Some ms) = Ok text) /\
  (duration_limit <= Z.abs ms ->
   Renderer.format_duration (Some ms) = Raise OverflowError).
Proof.
  split; intros H.
  - rewrite (format_duration_in_range ms H). eexists. reflexivity.
  - unfold Renderer.format_duration.
    destruct (ms =? 0) eqn:E.
    + apply Z.eqb_eq in E. subst ms.
      assert (0 < duration_limit) by reflexivity. simpl in H. lia.
    + rewrite (seconds_overflow ms H). reflexivity.
Qed.

(** X12: a negative duration is never shown in minutes or hours: whatever
    its size it is printed in seconds, with its sign. *)
Theorem negative_duration_in_seconds (ms : Z) :
  ms < 0 -> Z.abs ms < duration_limit ->
  exists digits,
    F64.fmt1 (F64.round (ms * F64.one) 1000) = "-" ++ digits /\
    Renderer.format_duration (Some ms) = Ok ("-" ++ digits ++ "s").
Proof.
  intros Hneg Hrange. pose proof one_pos as Hone.
  rewrite (format_duration_in_range ms Hrange).
  destruct (ms =? 0) eqn:E0; [apply Z.eqb_eq in E0; lia |].
  destruct (ms <? 60000) eqn:E1; [| apply Z.ltb_ge in E1; lia].
  pose proof (seconds_range ms Hrange) as [Hlo Hhi].
  pose proof (round_mono (ms * F64.one) 1000 (- 1 * F64.one) 1000
                ltac:(lia) ltac:(lia) ltac:(nia)) as Hm.
  assert (Hs : F64.round (- 1 * F64.one) 1000 < 0)
    by (apply Z.ltb_lt; vm_compute; reflexivity).
  unfold F64.fmt1.
  destruct (F64.round (ms * F64.one) 1000 =? F64.INF) eqn:Ea;
    [apply Z.eqb_eq in Ea; lia |].
  destruct (F64.round (ms * F64.one) 1000 =? - F64.INF) eqn:Eb;
    [apply Z.eqb_eq in Eb; lia |].
  destruct (F64.round (ms * F64.one) 1000 <? 0) eqn:Ec;
    [| apply Z.ltb_ge in Ec; lia].
  eexists. split; reflexivity.
Qed.

Lemma negative_duration_in_seconds_witness :
  Renderer.format_duration (Some (- 7200000)) = Ok "-7200.0s".
Proof.
  destruct (negative_duration_in_seconds (- 7200000) eq_refl eq_refl)
    as [digits [Hd Hf]].
  rewrite Hf. f_equal.
  assert (E : F64.fmt1 (F64.round (- 7200000 * F64.one) 1000) = "-7200.0")
    by (vm_compute; reflexivity).
  rewrite E in Hd. injection Hd as <-. reflexivity.
Defined.

(** ** The failures section *)

Lemma failures_loop (l : list (Feature * Failure)) (failures_html : list string)
  (failure_count : Z) :
  for_each
    (fun (acc : list string * Z) (p : Feature * Failure) =>
       let (failures_html, failure_count) := acc in
       let failure_count := failure_count + 1 in
       h <- Renderer.failure_html (fst p) (snd p) ;;
       Ok ((failures_html ++ [h])%list, failure_count))
    l (failures_html, failure_count)
  = (entries <- traverse (fun p => Renderer.failure_html (fst p) (snd p)) l ;;
     Ok ((failures_html ++ entries)%list,
         failure_count + Z.of_nat (List.length entries))).
Proof.
  revert failures_html failure_count.
  induction l as [| p l IH]; intros fh fc; cbn [for_each traverse bind].
  - rewrite app_nil_r, Z.add_0_r. reflexivity.
  - destruct (Renderer.failure_html (fst p) (snd p)) as [h | e]; cbn [bind];
      [| reflexivity].
    rewrite IH.
    destruct (traverse _ l) as [entries | e]; cbn [bind]; [| reflexivity].
    rewrite <- app_assoc. cbn [app List.length]. f_equal. f_equal. lia.
Qed.

(** [generate_failures_section] as one comprehension over the failures. *)
Lemma generate_failures_section_eq (r : Report) :
  Renderer.generate_failures_section r
  = (entries <- traverse (fun p => Renderer.failure_html (fst p) (snd p))
                  (all_failures r) ;;
     Ok (if nonempty entries then
           "<div class=" ++ dq ++ "failures" ++ dq ++ "><h2>❌ Failed Scenarios ("
             ++ str_of_int (Z.of_nat (List.length entries)) ++ ")</h2>"
             ++ join nl entries ++ "</div>"
         else "")).
Proof.
  unfold Renderer.generate_failures_section.
  rewrite (nested_for_each_flat
             (fun feature (acc : list string * Z) failure =>
                let (failures_html, failure_count) := acc in
                let failure_count := failure_count + 1 in
                h <- Renderer.failure_html feature failure ;;
                Ok ((failures_html ++ [h])%list, failure_count))).
  rewrite failures_loop.
  destruct (traverse _ (all_failures r)) as [entries | e]; cbn [bind app];
    [| reflexivity].
  rewrite Z.add_0_l. destruct (nonempty entries); reflexivity.
Qed.






(** X13: when [generate_failures_section] returns, the section holds one
    entry per failure, in traversal order and joined by newlines, under a
    heading that shows the number of failures; it is the empty string
    exactly when there is no failure. *)
Theorem failures_section_lists_every_failure (r : Report) (section : string) :
  Renderer.generate_failures_section r = Ok section ->
  exists entries,
    Forall2 (fun p h => Renderer.failure_html (fst p) (snd p) = Ok h)
            (all_failures r) entries /\
    section
    = (if nonempty (all_failures r) then
         "<div class=" ++ dq ++ "failures" ++ dq ++ "><h2>❌ Failed Scenarios ("
           ++ str_of_int (Z.of_nat (List.length (all_failures r))) ++ ")</h2>"
           ++ join nl entries ++ "</div>"
       else "") /\
    (section = "" <-> all_failures r = []).
Proof.
  rewrite generate_failures_section_eq. intros H.
  apply bind_ok in H. destruct H as [entries [He H]]. injection H as <-.
  pose proof (traverse_length _ _ _ He) as Hlen.
  exists entries. split; [apply traverse_Forall2; exact He |].
  destruct (all_failures r) as [| p l]; destruct entries as [| h entries];
    try discriminate Hlen; cbn [nonempty].
  - split; [reflexivity | tauto].
  - split; [rewrite Hlen; reflexivity |]. split; discriminate.
Qed.

Lemma failures_section_lists_every_failure_witness :
  exists entries,
    Forall2 (fun p h => Renderer.failure_html (fst p) (snd p) = Ok h)
            (all_failures sample_report) entries /\
    List.length entries = 6%nat.
Proof.
  destruct (Renderer.generate_failures_section sample_report) as [s | e] eqn:E;
    [| vm_compute in E; discriminate E].
  destruct (failures_section_lists_every_failure sample_report s E)
    as [entries [Hf _]].
  exists entries. split; [exact Hf |].
  apply Forall2_length in Hf. simpl in Hf. symmetry. exact Hf.
Defined.

(** X14: a failure whose [tags] key holds null cannot be rendered: when it
    is the first failure that does not render, [generate_failures_section]
    raises TypeError, and so does [generate_html_report] once the duration
    of the run is formatted; no page is produced. *)
Theorem null_tags_raise_type_error (r : Report)
  (pre post : list (Feature * Failure)) (p : Feature * Failure) :
  all_failures r = (pre ++ p :: post)%list ->
  (forall q, In q pre -> exists h, Renderer.failure_html (fst q) (snd q) = Ok h) ->
  tags (snd p) = Null ->
  Renderer.generate_failures_section r = Raise TypeError /\
  (forall now duration_text,
      Renderer.format_duration (Renderer.metadata_duration r) = Ok duration_text ->
      Renderer.generate_html_report now r = Raise TypeError).
Proof.
  intros Hall Hpre Htags.
  assert (Hp : Renderer.failure_html (fst p) (snd p) = Raise TypeError).
  { unfold Renderer.failure_html, Renderer.tags_block. rewrite Htags.
    reflexivity. }
  assert (Hs : Renderer.generate_failures_section r = Raise TypeError).
  { rewrite generate_failures_section_eq, Hall.
    rewrite (traverse_first_raise _ pre post p TypeError Hpre Hp). reflexivity. }
  split; [exact Hs |].
  intros now d Hd. unfold Renderer.generate_html_report.
  rewrite Hd, Hs. reflexivity.
Qed.

Lemma null_tags_raise_type_error_witness :
  Renderer.generate_failures_section null_tags_report = Raise TypeError.
Proof.
  refine (proj1 (null_tags_raise_type_error null_tags_report [] []
                   ({| featureName := Some "Booking API";
                       failures := Some [null_tags_failure] |},
                    null_tags_failure) eq_refl _ eq_refl)).
  intros q [].
Defined.

(** ** The page *)

(** X15: every replacement field of [HTML_TEMPLATE] is one of the keyword
    arguments [generate_html_report] passes, each exactly once, and every
    argument is used by the template; so [format] never meets a missing
    field, which would be a KeyError. *)
Theorem template_fields_supplied (r : Report)
  (now duration_text failures_section : string) :
  let kwargs :=
    Renderer.template_arguments r now duration_text failures_section in
  (forall name, In name (slots Renderer.HTML_TEMPLATE) ->
                In name (map fst kwargs)) /\
  (forall name, In name (map fst kwargs) ->
                In name (slots Renderer.HTML_TEMPLATE)) /\
  NoDup (map fst kwargs) /\
  (forall default,
      Renderer.format Renderer.HTML_TEMPLATE kwargs
      = concat_all
          (map (fun piece =>
                  match piece with
                  | Renderer.Lit s => s
                  | Renderer.Slot name => lookup_default name kwargs default
                  end) Renderer.HTML_TEMPLATE)).
Proof.
  intros kwargs.
  assert (Hs : slots Renderer.HTML_TEMPLATE
               = [ "build_number"; "build_number"; "environment"; "duration";
                   "timestamp"; "total_scenarios"; "passed_scenarios";
                   "failed_scenarios"; "skipped_scenarios"; "insights_section";
                   "patterns_section"; "failures_section"; "timestamp" ])
    by (vm_compute; reflexivity).
  assert (Hk : map fst kwargs
               = [ "build_number"; "environment"; "duration"; "timestamp";
                   "total_scenarios"; "passed_scenarios"; "failed_scenarios";
                   "skipped_scenarios"; "insights_section"; "patterns_section";
                   "failures_section" ]) by reflexivity.
  assert (Hin : forall name, In name (slots Renderer.HTML_TEMPLATE) ->
                             In name (map fst kwargs)).
  { rewrite Hs, Hk. intros name H. simpl in *. tauto. }
  split; [exact Hin |]. split; [| split].
  - rewrite Hs, Hk. intros name H. simpl in *. tauto.
  - rewrite Hk.
    repeat (constructor; [simpl; intros H; repeat destruct H as [H | H];
                          try discriminate H; exact H |]).
    constructor.
  - intros default. clear Hs Hk. revert Hin.
    generalize Renderer.HTML_TEMPLATE as template.
    induction template as [| piece t IH]; intros Hin; [reflexivity |].
    assert (Ht : forall name, In name (slots t) -> In name (map fst kwargs))
      by (intros name H; apply Hin; destruct piece; simpl; tauto).
    assert (Hj : forall (x : string) (l : list string),
               concat_all (x :: l) = x ++ concat_all l).
    { intros x l. unfold concat_all. destruct l as [| y l]; simpl.
      - clear. induction x; simpl; [reflexivity | f_equal; assumption].
      - reflexivity. }
    cbn [map]. rewrite Hj, <- (IH Ht). destruct piece as [s | name];
      cbn [Renderer.format]; [reflexivity |].
    f_equal.
    assert (Hn : In name (map fst kwargs)) by (apply Hin; simpl; tauto).
    clear - Hn. induction kwargs as [| [k v] d IHd]; [contradiction |].
    simpl in *. destruct (String.eqb k name) eqn:E; [reflexivity |].
    apply IHd. destruct Hn as [Hn | Hn]; [| exact Hn].
    subst k. rewrite String.eqb_refl in E. discriminate.
Qed.

(** ** Text goes into the page as it is *)

Lemma prefix_nil (t : string) : String.prefix "" t = true.
Proof. destruct t; reflexivity. Qed.

Lemma prefix_app (s a b : string) :
  String.prefix s a = true -> String.prefix s (a ++ b) = true.
Proof.
  revert a; induction s as [| c s IH]; intros a; [intros _; apply prefix_nil |].
  destruct a as [| c' a]; simpl; [discriminate |].
  destruct (ascii_dec c c'); [apply IH | discriminate].
Qed.

Lemma prefix_self (s b : string) : String.prefix s (s ++ b) = true.
Proof.
  induction s as [| c s IH]; simpl; [apply prefix_nil |].
  destruct (ascii_dec c c); [exact IH | contradiction].
Qed.

Lemma contains_prefix (s t : string) :
  String.prefix s t = true -> contains s t = true.
Proof. intros H. destruct t; cbn [contains]; rewrite H; reflexivity. Qed.

Lemma contains_app_l (s a b : string) :
  contains s a = true -> contains s (a ++ b) = true.
Proof.
  induction a as [| c a IH]; simpl.
  - rewrite orb_false_r. intros H. apply contains_prefix.
    destruct s; [apply prefix_nil | discriminate H].
  - intros H. apply orb_true_iff in H. destruct H as [H | H].
    + apply (prefix_app _ (String c a) b) in H. simpl in H. rewrite H.
      reflexivity.
    + rewrite (IH H). apply orb_true_r.
Qed.

Lemma contains_app_r (s a b : string) :
  contains s b = true -> contains s (a ++ b) = true.
Proof.
  intros H. induction a as [| c a IH]; simpl; [exact H |].
  rewrite IH. apply orb_true_r.
Qed.

Lemma contains_middle (s a b : string) : contains s (a ++ s ++ b) = true.
Proof. apply contains_app_r, contains_prefix, prefix_self. Qed.

Lemma contains_cons (s t : string) (c : ascii) :
  contains s t = true -> contains s (String c t) = true.
Proof. intros H. cbn [contains]. rewrite H. apply orb_true_r. Qed.

(** Finds a text that stands as one operand of a chain of appends. *)
Ltac find_text :=
  repeat first [ apply contains_prefix; apply prefix_self
               | apply contains_cons
               | apply contains_app_r ].

(** X16: the renderer escapes nothing: the scenario name, a non-empty
    error message and a non-empty stack trace of a failure stand in its
    entry character for character, markup included. *)
Theorem failure_text_embedded_verbatim (feature : Feature) (failure : Failure)
  (html : string) :
  Renderer.failure_html feature failure = Ok html ->
  (forall name, scenarioName failure = Some name -> contains name html = true) /\
  (forall msg, errorMessage failure = Val msg -> msg <> "" ->
               contains msg html = true) /\
  (forall trace, stackTrace failure = Val trace -> trace <> "" ->
                 contains trace html = true).
Proof.
  unfold Renderer.failure_html. intros H.
  apply bind_ok in H. destruct H as [tags_html [_ H]].
  apply bind_ok in H. destruct H as [head [Hhead H]]. injection H as <-.
  unfold Renderer.failure_head in Hhead.
  apply bind_ok in Hhead. destruct Hhead as [d [_ Hhead]].
  injection Hhead as <-.
  split; [| split].
  - intros name Hn. rewrite Hn. cbn [from_option].
    apply contains_app_l. find_text.
  - intros msg Hm Hne. apply contains_app_r, contains_app_l.
    unfold Renderer.error_block. rewrite Hm.
    destruct msg as [| c msg]; [contradiction |].
    cbn [truthy_str get_or_empty]. find_text.
  - intros trace Ht Hne.
    apply contains_app_r, contains_app_r, contains_app_r, contains_app_l.
    unfold Renderer.stacktrace_block. rewrite Ht.
    destruct trace as [| c trace]; [contradiction |].
    cbn [truthy_str get_or_empty]. find_text.
Qed.

Lemma failure_text_embedded_verbatim_witness :
  exists html,
    Renderer.failure_html booking_feature markup_failure = Ok html /\
    contains "<script>alert(1)</script>" html = true.
Proof.
  destruct (Renderer.failure_html booking_feature markup_failure)
    as [html | e] eqn:E; [| vm_compute in E; discriminate E].
  destruct (failure_text_embedded_verbatim _ _ _ E) as [_ [Hm _]].
  exists html. split; [reflexivity |].
  apply (Hm "<script>alert(1)</script>"); [reflexivity | discriminate].
Defined.

(** ** Rendering an enhanced report *)

(** X17: for a report [enhance] returns, the renderer shows the same
    failures section as for the input, shows a patterns section exactly
    when there is at least one failure, and finds every pattern key in its
    label table (the title-case fallback is not used) with a positive
    count. *)
Theorem enhanced_report_renders (self : FailureReportEnhancer.t)
  (w : FailureReportEnhancer.World) (r r' : Report) :
  FailureReportEnhancer.enhance self w r = Ok r' ->
  Renderer.generate_failures_section r' = Renderer.generate_failures_section r /\
  (Renderer.generate_patterns_section r' = "" <-> all_failures r = []) /\
  (forall key count,
      In (key, count) (from_option (failurePatternSummary r') []) ->
      In key category_keys /\ 0 < count /\
      forall default,
        lookup_default key Renderer.pattern_labels default
        = lookup_default key Renderer.pattern_labels "").
Proof.
  intros H. apply enhance_inv in H.
  destruct H as [patterns [cats [ins [cs H]]]]. cbv zeta in H.
  destruct H as [H1 [_ [_ [_ Hr']]]].
  apply add_failure_patterns_inv in H1.
  destruct H1 as [infos [Hinfos E]]. cbv zeta in E.
  apply (f_equal failurePatterns) in E.
  cbn [failurePatterns set_failurePatternSummary set_failurePatterns] in E.
  injection E as E.
  change (all_failures (set_enhancement r _)) with (all_failures r) in *.
  pose proof (traverse_length _ _ _ Hinfos) as Hlen.
  assert (Hsum : sum_counts (count_values patterns)
                 = Z.of_nat (List.length (all_failures r))).
  { rewrite E, filter_nonempty_sum, folded_patterns_sum by reflexivity.
    rewrite length_combine. unfold sum_counts. simpl. lia. }
  assert (Hfps : failurePatternSummary r' = Some (count_values patterns))
    by (subst r'; destruct (FailureReportEnhancer.serenity_available self w);
        reflexivity).
  split; [| split].
  - rewrite !generate_failures_section_eq. subst r'.
    destruct (FailureReportEnhancer.serenity_available self w); reflexivity.
  - unfold Renderer.generate_patterns_section. rewrite Hfps.
    cbn [from_option]. split.
    + intros Hs. destruct (count_values patterns) as [| kv d] eqn:Ec.
      * unfold sum_counts in Hsum. simpl in Hsum.
        destruct (all_failures r); [reflexivity | discriminate Hsum].
      * cbn in Hs. discriminate Hs.
    + intros Hnil. rewrite Hnil in Hsum. simpl in Hsum.
      destruct (count_values patterns) as [| kv d] eqn:Ec; [reflexivity |].
      exfalso. rewrite Hnil in Hlen. destruct infos; [| discriminate Hlen].
      rewrite Hnil in E. simpl in E. subst patterns. discriminate Ec.
  - rewrite Hfps. cbn [from_option]. intros key count Hin.
    unfold count_values in Hin. apply in_map_iff in Hin.
    destruct Hin as [[k l] [Hkv Hin]]. cbn [fst snd] in Hkv.
    injection Hkv as -> <-. rewrite E in Hin.
    apply filter_In in Hin. destruct Hin as [Hin Hne]. cbn [snd] in Hne.
    assert (Hk : In key category_keys).
    { rewrite <- (folded_patterns_keys (combine (all_failures r) infos)).
      apply (in_map fst) in Hin. exact Hin. }
    split; [exact Hk |]. split.
    + destruct l; [discriminate Hne | simpl; lia].
    + intros default. unfold category_keys in Hk. simpl in Hk.
      repeat (destruct Hk as [<- | Hk]; [reflexivity |]). contradiction.
Qed.

Lemma enhanced_report_renders_witness :
  Renderer.generate_failures_section sample_enhanced
  = Renderer.generate_failures_section sample_report.
Proof.
  assert (H : FailureReportEnhancer.enhance sample_enhancer
                (world_at "2024-05-01T10:00:00.000000") sample_report
              = Ok sample_enhanced) by (vm_compute; reflexivity).
  exact (proj1 (enhanced_report_renders _ _ _ _ H)).
Defined.
